(** * TasteLanc analytics backfill: a shallow embedding of the two scripts

    [scripts/backfill-analytics.py] (module [Analytics] below) and
    [scripts/backfill-clicks-impressions.py] (module [ClicksImpressions])
    are embedded as programs of one state-and-exception monad.

    Conventions of the embedding.
    - Python [int]s are [Z]; Python [float]s are idealised as exact
      rationals [Q], compared with [==] (Qeq), [<] and [<=].
    - A [datetime] in UTC is the number of seconds since 1970-01-01T00:00:00Z
      ([isoformat()] is an injective rendering of it and is not modelled).
    - The global random generator is a tape of draws read through a cursor;
      every statement quantifies over the whole tape, that is over every
      outcome of the random draws.
    - The remote store is an arbitrary responder that answers each POST with
      success or with an HTTP error; the requests issued are logged in order.
    - [print] is not modelled. *)

From Stdlib Require Import ZArith QArith Lia Lqa String Ascii List.
From stdpp Require Import base tactics option list numbers gmap strings fin_maps.

Local Open Scope Z_scope.
Local Open Scope string_scope.
Local Open Scope list_scope.

(** ** Python values used by both scripts *)

(** [int(x)] on a float: truncation toward zero. *)
Definition py_int (x : Q) : Z := Z.quot (Qnum x) (Zpos (Qden x)).

(** [max(a, b)] on floats: the first argument is kept unless the second is
    strictly greater. *)
Definition py_max (a b : Q) : Q := if Qlt_le_dec a b then b else a.

(** [range(n)] and [range(start, stop, step)] for a positive step. *)
Definition py_range (n : Z) : list Z := map Z.of_nat (seq 0 (Z.to_nat n)).

Definition py_range3 (start stop step : Z) : list Z :=
  map (fun k => start + Z.of_nat k * step)
      (seq 0 (Z.to_nat ((stop - start + step - 1) / step))).

(** [xs[i:j]] for [0 <= i <= j]. *)
Definition py_slice {A} (xs : list A) (i j : Z) : list A :=
  take (Z.to_nat (j - i)) (drop (Z.to_nat i) xs).

Definition py_len {A} (xs : list A) : Z := Z.of_nat (length xs).

(** ** Dates: seconds since the Unix epoch, UTC *)

Definition DAY : Z := 86400.

(** [timedelta(days=d, hours=h, minutes=m)] in seconds. *)
Definition timedelta (d h m : Z) : Z := d * DAY + h * 3600 + m * 60.

(** [datetime(2026, 2, 8, 12, 0, 0, tzinfo=timezone.utc)] *)
Definition NOW : Z := 1770552000.
Definition BACKFILL_DAYS : Z := 60.
Definition START_DATE : Z := NOW - timedelta BACKFILL_DAYS 0 0.

(** [d.weekday()]: 0 is Monday, 6 is Sunday; 1970-01-01 was a Thursday. *)
Definition weekday (d : Z) : Z := (d / DAY + 3) mod 7.

Definition midnight (d : Z) : Z := d - d mod DAY.
Definition hour_of (d : Z) : Z := (d mod DAY) / 3600.

Definition CLICK_TYPES : list string :=
  ["phone"; "website"; "directions"; "share"; "favorite"; "happy_hour"; "event"; "menu"].
Definition CLICK_WEIGHTS : list Z := [25; 20; 25; 5; 8; 7; 5; 5].

Definition SECTIONS : list string :=
  ["featured"; "happy_hours"; "other_places"; "entertainment"; "events";
   "search"; "category"; "specials_view_all"; "happy_hours_view_all"].

(** ** Records *)

Record Restaurant := mkRestaurant {
  r_id : string;
  r_name : string;
  r_average_rating : option Q;
  r_tier_id : option string
}.

Record PageView := mkPageView {
  pv_page_type : string;
  pv_page_path : string;
  pv_restaurant_id : string;
  pv_visitor_id : string;
  pv_user_agent : string;
  pv_viewed_at : Z
}.

Record Click := mkClick {
  ck_click_type : string;
  ck_restaurant_id : string;
  ck_visitor_id : string;
  ck_clicked_at : Z
}.

Record Favorite := mkFavorite {
  fav_user_id : string;
  fav_restaurant_id : string;
  fav_created_at : Z
}.

Record Impression := mkImpression {
  imp_restaurant_id : string;
  imp_section_name : string;
  imp_position_index : Z;
  imp_visitor_id : string;
  imp_epoch_seed : Z;
  imp_impressed_at : Z
}.

(** A row of a POST body. *)
Inductive Row :=
| RowView (v : PageView)
| RowClick (c : Click)
| RowFavorite (f : Favorite)
| RowImpression (i : Impression).

(** The composite key the store enforces on section impressions. *)
Definition imp_key (i : Impression) : string * string * string * Z :=
  (imp_restaurant_id i, imp_section_name i, imp_visitor_id i, imp_epoch_seed i).

Definition fav_pair (f : Favorite) : string * string :=
  (fav_user_id f, fav_restaurant_id f).

(** ** The world: random tape, store responder, request log *)

(** One draw of the generator.  [d_bits] is the integer behind [random()],
    [randint], [choice], [sample] and [uuid4]; [d_normal] is the standard
    normal deviate behind [gauss]; [d_exp] is the unit-rate exponential
    deviate [-log(1 - random())] behind [expovariate], a non-negative number
    given as numerator and denominator. *)
Record Draw := mkDraw {
  d_bits : Z;
  d_normal : Q;
  d_exp : N * positive
}.

(** One POST: target table, whether [resolution=ignore-duplicates] is
    requested, and the rows of the JSON body. *)
Record Request := mkRequest {
  rq_table : string;
  rq_ignore_duplicates : bool;
  rq_rows : list Row
}.

Record World := mkWorld {
  tape : N -> Draw;
  cursor : N;
  (** the answer to the n-th POST (counted from 0): [true] for 2xx,
      [false] for an [HTTPError] *)
  respond : nat -> Request -> bool;
  posted : list Request
}.

Inductive Exn :=
| ValueError (msg : string)
| IndexError (msg : string)
| KeyError (key : string).

Inductive Outcome (A : Type) :=
| Done (a : A) (w : World)
| Raised (e : Exn) (w : World).
Arguments Done {A} a w.
Arguments Raised {A} e w.

Definition M (A : Type) : Type := World -> Outcome A.

Definition ret {A} (a : A) : M A := fun w => Done a w.

Definition bind {A B} (m : M A) (f : A -> M B) : M B :=
  fun w => match m w with
           | Done a w' => f a w'
           | Raised e w' => Raised e w'
           end.

Definition raise {A} (e : Exn) : M A := fun w => Raised e w.

Declare Scope prog_scope.
Delimit Scope prog_scope with prog.
Notation "x ← y ; z" := (bind y (fun x => z))
  (at level 20, y at level 100, z at level 200, only parsing) : prog_scope.
Notation "' x ← y ; z" := (bind y (fun x => z))
  (at level 20, x pattern, y at level 100, z at level 200, only parsing) : prog_scope.
Local Open Scope prog_scope.

(** [for a in l: acc = f(acc, a)] *)
Fixpoint foldM {A B} (f : B -> A -> M B) (l : list A) (b : B) : M B :=
  match l with
  | [] => ret b
  | a :: l' => b' ← f b a; foldM f l' b'
  end.

(** The next draw of the tape. *)
Definition draw : M Draw :=
  fun w => Done (tape w (cursor w))
                (mkWorld (tape w) (N.succ (cursor w)) (respond w) (posted w)).

(** [urlopen(Request(..., method="POST"))]: [true] when the [with] body runs,
    [false] when [HTTPError] is raised. *)
Definition urlopen_post (rq : Request) : M bool :=
  fun w => Done (respond w (length (posted w)) rq)
                (mkWorld (tape w) (cursor w) (respond w) (posted w ++ [rq])).

(** ** The [random] and [uuid] modules *)

Definition TWO53 : Z := 9007199254740992.

(** [random.random()]: a multiple of 2^-53 in [0, 1). *)
Definition random : M Q :=
  d ← draw; ret (Qmake (d_bits d mod TWO53) (Z.to_pos TWO53)).

(** The generator's [_randbelow(n)]. *)
Definition randbelow (n : Z) : M Z :=
  d ← draw; ret (d_bits d mod n).

(** [random.randint(a, b)], both ends included. *)
Definition randint (a b : Z) : M Z :=
  j ← randbelow (b - a + 1); ret (a + j).

(** [random.uniform(a, b)] is [a + (b - a) * random()]. *)
Definition uniform (a b : Q) : M Q :=
  u ← random; ret (a + (b - a) * u)%Q.

(** [random.gauss(mu, sigma)] is [mu + z * sigma] for a normal deviate z. *)
Definition gauss (mu sigma : Q) : M Q :=
  d ← draw; ret (mu + d_normal d * sigma)%Q.

Definition exp_deviate (d : Draw) : Q :=
  Qmake (Z.of_N (fst (d_exp d))) (snd (d_exp d)).

(** [random.expovariate(lambd)] is [-log(1 - random()) / lambd]. *)
Definition expovariate (lambd : Q) : M Q :=
  d ← draw; ret (exp_deviate d / lambd)%Q.

(** [random.choice(seq)] *)
Definition choice {A} (xs : list A) : M A :=
  match xs with
  | [] => raise (IndexError "Cannot choose from an empty sequence")
  | x0 :: _ => j ← randbelow (py_len xs); ret (nth (Z.to_nat j) xs x0)
  end.

(** [random.sample(population, k)]: k elements at distinct positions, in
    the order they are selected. *)
Fixpoint sample_loop {A} (pool : list A) (k : nat) : M (list A) :=
  match k with
  | O => ret []
  | S k' =>
      j ← randbelow (py_len pool);
      match pool !! Z.to_nat j with
      | Some x => rest ← sample_loop (delete (Z.to_nat j) pool) k'; ret (x :: rest)
      | None => raise (IndexError "list index out of range")
      end
  end.

Definition sample {A} (population : list A) (k : Z) : M (list A) :=
  if decide (0 <= k <= py_len population)
  then sample_loop population (Z.to_nat k)
  else raise (ValueError "Sample larger than population or is negative").

(** [itertools.accumulate] and [bisect.bisect] as [random.choices] uses them. *)
Fixpoint accumulate (acc : Z) (ws : list Z) : list Z :=
  match ws with
  | [] => []
  | x :: ws' => (acc + x) :: accumulate (acc + x) ws'
  end.

Fixpoint bisect (cum : list Z) (x : Q) : nat :=
  match cum with
  | [] => O
  | c :: cs => if Qlt_le_dec x (inject_Z c) then O else S (bisect cs x)
  end.

(** [random.choices(population, weights=weights, k=1)[0]] *)
Definition choices1 {A} (population : list A) (weights : list Z) : M A :=
  let cum_weights := accumulate 0 weights in
  let total := inject_Z (List.last cum_weights 0) in
  let hi := (length population - 1)%nat in
  u ← random;
  match population !! bisect (take hi cum_weights) (u * total)%Q with
  | Some x => ret x
  | None => raise (IndexError "list index out of range")
  end.

(** Lower-case hexadecimal digits of [n], most significant first. *)
Definition hex_digit (n : Z) : ascii :=
  nth (Z.to_nat n)
      ["0";"1";"2";"3";"4";"5";"6";"7";"8";"9";"a";"b";"c";"d";"e";"f"]%char
      "0"%char.

Fixpoint hex_digits (k : nat) (n : Z) (suffix : string) : string :=
  match k with
  | O => suffix
  | S k' => hex_digits k' (n / 16) (String (hex_digit (n mod 16)) suffix)
  end.

(** [uuid.uuid4().hex[:12]]: the first 48 bits of a version-4 UUID are all
    random. *)
Definition uuid4_hex12 : M string :=
  d ← draw; ret (hex_digits 12 (d_bits d mod 2 ^ 48) "").

(** [d.replace(hour=h, minute=m, second=s)] *)
Definition dt_replace (d h m s : Z) : M Z :=
  if decide (0 <= h <= 23) then
    if decide (0 <= m <= 59) then
      if decide (0 <= s <= 59) then ret (midnight d + h * 3600 + m * 60 + s)
      else raise (ValueError "second must be in 0..59")
    else raise (ValueError "minute must be in 0..59")
  else raise (ValueError "hour must be in 0..23").

(** [d.replace(minute=m, second=s)] keeps the hour. *)
Definition dt_replace_ms (d m s : Z) : M Z := dt_replace d (hour_of d) m s.

(** ** Dictionaries *)

(** [d[k]] *)
Definition dict_get (d : gmap string Q) (k : string) : M Q :=
  match d !! k with
  | Some v => ret v
  | None => raise (KeyError k)
  end.

(** [max(d.values())] *)
Definition max_values (d : gmap string Q) : M Q :=
  match (map_to_list d).*2 with
  | [] => raise (ValueError "max() arg is an empty sequence")
  | v :: vs => ret (foldl py_max v vs)
  end.

(** [r.get("average_rating")] used as a condition: [None] and [0] are falsy. *)
Definition rating_truthy (r : Restaurant) : option Q :=
  match r_average_rating r with
  | Some x => if Qeq_bool x 0 then None else Some x
  | None => None
  end.

Definition PREMIUM_TIER : string := "00000000-0000-0000-0000-000000000002".

(** [growth_mult = 0.5 + 0.5 * (day_offset / BACKFILL_DAYS)], for a window of
    [backfill_days] days. *)
Definition growth_mult (backfill_days day_offset : Z) : Q :=
  (0.5 + 0.5 * (inject_Z day_offset / inject_Z backfill_days))%Q.

(** [for position, x in enumerate(xs)] *)
Definition enumerate {A} (xs : list A) : list (Z * A) :=
  zip (py_range (py_len xs)) xs.

(** [xs.sort(key=key, reverse=True)]: stable, descending. *)
Fixpoint insert_desc {A} (key : A -> Q) (x : A) (sorted : list A) : list A :=
  match sorted with
  | [] => [x]
  | y :: ys => if Qlt_le_dec (key x) (key y) then y :: insert_desc key x ys
               else x :: y :: ys
  end.

Definition sort_desc {A} (key : A -> Q) (xs : list A) : list A :=
  foldr (insert_desc key) [] xs.

Definition USER_AGENT : string := "TasteLanc-Mobile/ios".

(** * scripts/backfill-analytics.py *)
Module Analytics.

Definition BATCH : Z := 500.

(** The one-by-one fallback of [sb_post]: one POST per row, an [HTTPError]
    is passed over. *)
Definition post_row (table : string) (inserted : Z) (row : Row) : M Z :=
  ok ← urlopen_post (mkRequest table false [row]);
  ret (if ok then inserted + 1 else inserted).

Definition post_batch (table : string) (rows : list Row) (inserted i : Z) : M Z :=
  let batch := py_slice rows i (i + BATCH) in
  ok ← urlopen_post (mkRequest table false batch);
  if ok then ret (inserted + py_len batch)
  else foldM (post_row table) batch inserted.

Definition sb_post (table : string) (rows : list Row) : M Z :=
  foldM (post_batch table rows) (py_range3 0 (py_len rows) BATCH) 0.

Definition random_time_in_day (day_date : Z) : M Z :=
  u ← random;
  hour ← (if Qlt_le_dec u 0.8 then randint 10 22 else randint 0 23);
  minute ← randint 0 59;
  second ← randint 0 59;
  dt_replace day_date hour minute second.

Definition generate_visitor_id (user_ids : list string) : M string :=
  u ← random;
  if Qlt_le_dec u 0.4 then
    match user_ids with
    | [] => ret "anonymous"
    | _ :: _ => choice user_ids
    end
  else ret "anonymous".

(** The content tables, as sets of restaurant ids. *)
Record Content := mkContent {
  has_hh : gset string;
  has_menu : gset string;
  has_events : gset string;
  has_specials : gset string
}.

(** Step 4: the raw score of one restaurant. *)
Definition raw_score (c : Content) (r : Restaurant) : M Q :=
  let rid := r_id r in
  score ← uniform 1 3;
  let score := if decide (rid ∈ has_hh c) then (score + 1.5)%Q else score in
  let score := if decide (rid ∈ has_menu c) then (score + 1.0)%Q else score in
  let score := if decide (rid ∈ has_events c) then (score + 2.0)%Q else score in
  let score := if decide (rid ∈ has_specials c) then (score + 1.0)%Q else score in
  let score := match rating_truthy r with
               | Some rating => (score + (rating - 3.0) * 0.5)%Q
               | None => score
               end in
  let score := if decide (r_tier_id r = Some PREMIUM_TIER) then (score + 1.5)%Q else score in
  ret (py_max score 0.5).

Definition assign_scores (c : Content) (restaurants : list Restaurant)
  : M (gmap string Q) :=
  foldM (fun popularity r => s ← raw_score c r; ret (<[r_id r := s]> popularity))
        restaurants ∅.

Definition normalize (popularity : gmap string Q) : M (gmap string Q) :=
  max_pop ← max_values popularity;
  ret ((fun s => s / max_pop)%Q <$> popularity).

Definition popularity_model (c : Content) (restaurants : list Restaurant)
  : M (gmap string Q) :=
  popularity ← assign_scores c restaurants; normalize popularity.

Definition mk_view (page_type path rid visitor : string) (ts : Z) : PageView :=
  mkPageView page_type (path +:+ rid) rid visitor USER_AGENT ts.

(** The body of [for _ in range(num_views)]. *)
Definition one_view (c : Content) (user_ids : list string) (day_date : Z)
    (rid : string) (page_views : list PageView) : M (list PageView) :=
  visitor ← generate_visitor_id user_ids;
  ts ← random_time_in_day day_date;
  let page_views :=
    page_views ++ [mk_view "restaurant" "/mobile/restaurantdetail/" rid visitor ts] in
  page_views ←
    (if decide (rid ∈ has_hh c) then
       u ← random;
       ret (if Qlt_le_dec u 0.35
             then page_views ++ [mk_view "happy_hour" "/mobile/restauranthappyhours/" rid visitor ts]
             else page_views)
     else ret page_views);
  page_views ←
    (if decide (rid ∈ has_menu c) then
       u ← random;
       ret (if Qlt_le_dec u 0.50
             then page_views ++ [mk_view "menu" "/mobile/restaurantmenu/" rid visitor ts]
             else page_views)
     else ret page_views);
  if decide (rid ∈ has_events c) then
    u ← random;
    ret (if Qlt_le_dec u 0.25
          then page_views ++ [mk_view "events" "/mobile/restaurantevents/" rid visitor ts]
          else page_views)
  else ret page_views.

(** [max(0, int(random.gauss(base, base * spread)))] *)
Definition sample_count (base spread : Q) : M Z :=
  g ← gauss base (base * spread);
  ret (Z.max 0 (py_int g)).

Definition views_of_restaurant (c : Content) (user_ids : list string)
    (popularity : gmap string Q) (day_date : Z)
    (weekend_mult growth daily_noise : Q)
    (page_views : list PageView) (r : Restaurant) : M (list PageView) :=
  let rid := r_id r in
  pop ← dict_get popularity rid;
  let base_views := (pop * 8 * weekend_mult * growth * daily_noise)%Q in
  num_views ← sample_count base_views 0.4;
  foldM (fun pvs _ => one_view c user_ids day_date rid pvs) (py_range num_views) page_views.

Definition views_of_day (c : Content) (restaurants : list Restaurant)
    (user_ids : list string) (popularity : gmap string Q)
    (page_views : list PageView) (day_offset : Z) : M (list PageView) :=
  let day_date := START_DATE + timedelta day_offset 0 0 in
  let day_of_week := weekday day_date in
  let weekend_mult := if decide (day_of_week >= 4) then 1.4%Q else 1.0%Q in
  let growth := growth_mult BACKFILL_DAYS day_offset in
  daily_noise ← uniform 0.7 1.3;
  foldM (views_of_restaurant c user_ids popularity day_date weekend_mult growth daily_noise)
        restaurants page_views.

(** Step 5. *)
Definition generate_page_views (c : Content) (restaurants : list Restaurant)
    (user_ids : list string) (popularity : gmap string Q) : M (list PageView) :=
  foldM (views_of_day c restaurants user_ids popularity) (py_range BACKFILL_DAYS) [].

Definition one_click (user_ids : list string) (day_date : Z) (rid : string)
    (clicks : list Click) : M (list Click) :=
  click_type ← choices1 CLICK_TYPES CLICK_WEIGHTS;
  visitor ← generate_visitor_id user_ids;
  ts ← random_time_in_day day_date;
  ret (clicks ++ [mkClick click_type rid visitor ts]).

Definition clicks_of_restaurant (user_ids : list string)
    (popularity : gmap string Q) (day_date : Z)
    (weekend_mult growth daily_noise : Q)
    (clicks : list Click) (r : Restaurant) : M (list Click) :=
  let rid := r_id r in
  pop ← dict_get popularity rid;
  let base_clicks := (pop * 1.0 * weekend_mult * growth * daily_noise)%Q in
  num_clicks ← sample_count base_clicks 0.5;
  foldM (fun cs _ => one_click user_ids day_date rid cs) (py_range num_clicks) clicks.

Definition clicks_of_day (restaurants : list Restaurant)
    (user_ids : list string) (popularity : gmap string Q)
    (clicks : list Click) (day_offset : Z) : M (list Click) :=
  let day_date := START_DATE + timedelta day_offset 0 0 in
  let day_of_week := weekday day_date in
  let weekend_mult := if decide (day_of_week >= 4) then 1.3%Q else 1.0%Q in
  let growth := growth_mult BACKFILL_DAYS day_offset in
  daily_noise ← uniform 0.7 1.3;
  foldM (clicks_of_restaurant user_ids popularity day_date weekend_mult growth daily_noise)
        restaurants clicks.

(** Step 6. *)
Definition generate_clicks (restaurants : list Restaurant)
    (user_ids : list string) (popularity : gmap string Q) : M (list Click) :=
  foldM (clicks_of_day restaurants user_ids popularity) (py_range BACKFILL_DAYS) [].

(** [fav_date = NOW - timedelta(days=days_ago, hours=..., minutes=...)] *)
Definition favorite_date : M Z :=
  days_ago ← randint 1 45;
  hours ← randint 0 23;
  minutes ← randint 0 59;
  ret (NOW - timedelta days_ago hours minutes).

(** The body of [for rid in fav_restaurants]; the state is
    [(favorites, used_pairs)]. *)
Definition one_favorite (uid : string)
    (st : list Favorite * gset (string * string)) (rid : string)
  : M (list Favorite * gset (string * string)) :=
  let pair := (uid, rid) in
  if decide (pair ∈ st.2) then ret st
  else
    let used_pairs := {[pair]} ∪ st.2 in
    fav_date ← favorite_date;
    ret (st.1 ++ [mkFavorite uid rid fav_date], used_pairs).

Definition favorites_of_user (restaurant_ids : list string)
    (popularity : gmap string Q)
    (st : list Favorite * gset (string * string)) (uid : string)
  : M (list Favorite * gset (string * string)) :=
  num_favs ← randint 8 30;
  fav_restaurants ← sample restaurant_ids (Z.min num_favs (py_len restaurant_ids));
  let fav_restaurants :=
    sort_desc (fun rid => default 0%Q (popularity !! rid)) fav_restaurants in
  let fav_restaurants := py_slice fav_restaurants 0 num_favs in
  foldM (one_favorite uid) fav_restaurants st.

(** Step 7. *)
Definition generate_favorites (restaurant_ids user_ids : list string)
    (popularity : gmap string Q) : M (list Favorite) :=
  st ← foldM (favorites_of_user restaurant_ids popularity) user_ids ([], ∅);
  ret st.1.

Definition one_impression (user_ids : list string) (day_date : Z)
    (section : string) (epoch_seed position : Z) (rid : string)
    (impressions : list Impression) : M (list Impression) :=
  visitor ← generate_visitor_id user_ids;
  ts ← random_time_in_day day_date;
  ret (impressions ++ [mkImpression rid section position visitor epoch_seed ts]).

Definition impressions_of_shown (user_ids : list string) (day_date : Z)
    (section : string) (epoch_seed : Z)
    (impressions : list Impression) (shown : Z * string) : M (list Impression) :=
  num_viewers ← randint 2 8;
  foldM (fun imps _ => one_impression user_ids day_date section epoch_seed shown.1 shown.2 imps)
        (py_range num_viewers) impressions.

Definition impressions_of_section (restaurant_ids user_ids : list string)
    (day_date epoch_seed : Z)
    (impressions : list Impression) (section : string) : M (list Impression) :=
  num_shown ← randint 20 60;
  shown_restaurants ← sample restaurant_ids (Z.min num_shown (py_len restaurant_ids));
  foldM (impressions_of_shown user_ids day_date section epoch_seed)
        (enumerate shown_restaurants) impressions.

Definition impressions_of_epoch (restaurant_ids user_ids : list string)
    (day_date : Z)
    (impressions : list Impression) (epoch_idx : Z) : M (list Impression) :=
  let epoch_seed := day_date / 1800 + epoch_idx in
  foldM (impressions_of_section restaurant_ids user_ids day_date epoch_seed)
        SECTIONS impressions.

(** [day_of_week] and [weekend_mult] are computed here by the script and
    never used. *)
Definition impressions_of_day (restaurant_ids user_ids : list string)
    (impressions : list Impression) (day_offset : Z) : M (list Impression) :=
  let day_date := NOW - timedelta (6 - day_offset) 0 0 in
  foldM (impressions_of_epoch restaurant_ids user_ids day_date)
        (py_range 8) impressions.

(** Step 8. *)
Definition generate_impressions (restaurant_ids user_ids : list string)
  : M (list Impression) :=
  foldM (impressions_of_day restaurant_ids user_ids) (py_range 7) [].

(** The upload loop of step 8: every batch asks for
    [resolution=ignore-duplicates]; a rejected batch is passed over. *)
Definition upsert_batch (rows : list Row) (imp_inserted i : Z) : M Z :=
  let batch := py_slice rows i (i + BATCH) in
  ok ← urlopen_post (mkRequest "section_impressions" true batch);
  ret (if ok then imp_inserted + py_len batch else imp_inserted).

Definition upsert_impressions (rows : list Row) : M Z :=
  foldM (upsert_batch rows) (py_range3 0 (py_len rows) BATCH) 0.

Record Summary := mkSummary {
  page_views : list PageView;
  page_views_inserted : Z;
  clicks : list Click;
  clicks_inserted : Z;
  favorites : list Favorite;
  favorites_inserted : Z;
  impressions : list Impression;
  imp_inserted : Z
}.

(** [main()], given what the GET requests returned: the restaurants, the
    [restaurant_id] column of each content table, and the ids of the users.
    The result gathers the lists [main] builds and the counts it prints. *)
Definition main (restaurants : list Restaurant)
    (hh_data menu_data event_data special_data user_ids : list string)
  : M Summary :=
  let c := mkContent (list_to_set hh_data) (list_to_set menu_data)
                     (list_to_set event_data) (list_to_set special_data) in
  let restaurant_ids := map r_id restaurants in
  popularity ← popularity_model c restaurants;
  pvs ← generate_page_views c restaurants user_ids popularity;
  pv_ins ← sb_post "analytics_page_views" (map RowView pvs);
  cks ← generate_clicks restaurants user_ids popularity;
  ck_ins ← sb_post "analytics_clicks" (map RowClick cks);
  favs ← generate_favorites restaurant_ids user_ids popularity;
  fav_ins ← sb_post "favorites" (map RowFavorite favs);
  imps ← generate_impressions restaurant_ids user_ids;
  imp_ins ← upsert_impressions (map RowImpression imps);
  ret (mkSummary pvs pv_ins cks ck_ins favs fav_ins imps imp_ins).

End Analytics.

(** * scripts/backfill-clicks-impressions.py *)
Module ClicksImpressions.

Definition BATCH : Z := 500.

(** No fallback here: a rejected batch is reported and passed over. *)
Definition post_batch (table : string) (rows : list Row) (inserted i : Z) : M Z :=
  let batch := py_slice rows i (i + BATCH) in
  ok ← urlopen_post (mkRequest table false batch);
  ret (if ok then inserted + py_len batch else inserted).

Definition sb_post (table : string) (rows : list Row) : M Z :=
  foldM (post_batch table rows) (py_range3 0 (py_len rows) BATCH) 0.

Definition random_time_in_day (day_date : Z) : M Z :=
  u ← random;
  hour ← (if Qlt_le_dec u 0.8 then randint 10 22 else randint 0 23);
  minute ← randint 0 59;
  second ← randint 0 59;
  dt_replace day_date hour minute second.

Definition generate_visitor_id (user_ids : list string) : M string :=
  u ← random;
  if Qlt_le_dec u 0.35 then
    match user_ids with
    | [] => h ← uuid4_hex12; ret ("anon-" +:+ h)
    | _ :: _ => choice user_ids
    end
  else h ← uuid4_hex12; ret ("anon-" +:+ h).

Definition raw_score (has_hh has_events : gset string) (r : Restaurant) : M Q :=
  let rid := r_id r in
  score ← uniform 1 3;
  let score := if decide (rid ∈ has_hh) then (score + 1.5)%Q else score in
  let score := if decide (rid ∈ has_events) then (score + 2.0)%Q else score in
  let score := match rating_truthy r with
               | Some rating => (score + (rating - 3.0) * 0.5)%Q
               | None => score
               end in
  let score := if decide (r_tier_id r = Some PREMIUM_TIER) then (score + 1.5)%Q else score in
  ret (py_max score 0.5).

Definition assign_scores (has_hh has_events : gset string)
    (restaurants : list Restaurant) : M (gmap string Q) :=
  foldM (fun popularity r =>
           s ← raw_score has_hh has_events r; ret (<[r_id r := s]> popularity))
        restaurants ∅.

Definition normalize (popularity : gmap string Q) : M (gmap string Q) :=
  max_pop ← max_values popularity;
  ret ((fun s => s / max_pop)%Q <$> popularity).

Definition popularity_model (has_hh has_events : gset string)
    (restaurants : list Restaurant) : M (gmap string Q) :=
  popularity ← assign_scores has_hh has_events restaurants; normalize popularity.

(** [min(int(random.expovariate(1.0 / max(base_clicks, 0.1))), 8)] *)
Definition sample_count (base_clicks : Q) : M Z :=
  e ← expovariate (1.0 / py_max base_clicks 0.1);
  ret (Z.min (py_int e) 8).

Definition one_click (user_ids : list string) (day_date : Z) (rid : string)
    (clicks : list Click) : M (list Click) :=
  click_type ← choices1 CLICK_TYPES CLICK_WEIGHTS;
  visitor ← generate_visitor_id user_ids;
  ts ← random_time_in_day day_date;
  ret (clicks ++ [mkClick click_type rid visitor ts]).

Definition clicks_of_restaurant (user_ids : list string)
    (popularity : gmap string Q) (day_date : Z)
    (weekend_mult growth daily_noise : Q)
    (clicks : list Click) (r : Restaurant) : M (list Click) :=
  let rid := r_id r in
  pop ← dict_get popularity rid;
  let base_clicks := (pop * 1.2 * weekend_mult * growth * daily_noise)%Q in
  num_clicks ← sample_count base_clicks;
  foldM (fun cs _ => one_click user_ids day_date rid cs) (py_range num_clicks) clicks.

Definition clicks_of_day (restaurants : list Restaurant)
    (user_ids : list string) (popularity : gmap string Q)
    (clicks : list Click) (day_offset : Z) : M (list Click) :=
  let day_date := START_DATE + timedelta day_offset 0 0 in
  let day_of_week := weekday day_date in
  let weekend_mult := if decide (day_of_week >= 4) then 1.3%Q else 1.0%Q in
  let growth := growth_mult BACKFILL_DAYS day_offset in
  daily_noise ← uniform 0.7 1.3;
  foldM (clicks_of_restaurant user_ids popularity day_date weekend_mult growth daily_noise)
        restaurants clicks.

Definition generate_clicks (restaurants : list Restaurant)
    (user_ids : list string) (popularity : gmap string Q) : M (list Click) :=
  foldM (clicks_of_day restaurants user_ids popularity) (py_range BACKFILL_DAYS) [].

(** The body of [for _ in range(num_viewers)]; the state is
    [(impressions, seen_keys)]. *)
Definition one_impression (user_ids : list string) (epoch_time epoch_half : Z)
    (section : string) (epoch_seed position : Z) (rid : string)
    (st : list Impression * gset (string * string * string * Z))
  : M (list Impression * gset (string * string * string * Z)) :=
  visitor ← generate_visitor_id user_ids;
  let key := (rid, section, visitor, epoch_seed) in
  if decide (key ∈ st.2) then ret st
  else
    let seen_keys := {[key]} ∪ st.2 in
    minute ← randint 0 29;
    second ← randint 0 59;
    ts ← dt_replace_ms epoch_time (epoch_half * 30 + minute) second;
    ret (st.1 ++ [mkImpression rid section position visitor epoch_seed ts], seen_keys).

Definition impressions_of_shown (user_ids : list string)
    (epoch_time epoch_half : Z) (section : string) (epoch_seed : Z)
    (st : list Impression * gset (string * string * string * Z))
    (shown : Z * string)
  : M (list Impression * gset (string * string * string * Z)) :=
  num_viewers ← randint 1 4;
  foldM (fun st' _ => one_impression user_ids epoch_time epoch_half section
                                     epoch_seed shown.1 shown.2 st')
        (py_range num_viewers) st.

Definition impressions_of_section (restaurant_ids user_ids : list string)
    (epoch_time epoch_half epoch_seed : Z)
    (st : list Impression * gset (string * string * string * Z))
    (section : string)
  : M (list Impression * gset (string * string * string * Z)) :=
  num_shown ← randint 15 40;
  shown_restaurants ← sample restaurant_ids (Z.min num_shown (py_len restaurant_ids));
  foldM (impressions_of_shown user_ids epoch_time epoch_half section epoch_seed)
        (enumerate shown_restaurants) st.

Definition impressions_of_half (restaurant_ids user_ids : list string)
    (day_date epoch_hr : Z)
    (st : list Impression * gset (string * string * string * Z))
    (epoch_half : Z)
  : M (list Impression * gset (string * string * string * Z)) :=
  epoch_time ← dt_replace day_date epoch_hr (epoch_half * 30) 0;
  let epoch_seed := epoch_time / 1800 in
  foldM (impressions_of_section restaurant_ids user_ids epoch_time epoch_half epoch_seed)
        SECTIONS st.

Definition impressions_of_hour (restaurant_ids user_ids : list string)
    (day_date : Z)
    (st : list Impression * gset (string * string * string * Z))
    (epoch_hr : Z)
  : M (list Impression * gset (string * string * string * Z)) :=
  foldM (impressions_of_half restaurant_ids user_ids day_date epoch_hr) [0; 1] st.

Definition impressions_of_day (restaurant_ids user_ids : list string)
    (st : list Impression * gset (string * string * string * Z))
    (day_offset : Z)
  : M (list Impression * gset (string * string * string * Z)) :=
  let day_date := NOW - timedelta (6 - day_offset) 0 0 in
  foldM (impressions_of_hour restaurant_ids user_ids day_date) (py_range3 8 24 1) st.

Definition generate_impressions (restaurant_ids user_ids : list string)
  : M (list Impression) :=
  st ← foldM (impressions_of_day restaurant_ids user_ids) (py_range 7) ([], ∅);
  ret st.1.

Definition IMPRESSION_CAP : Z := 200000.

(** [if len(impressions) > 200000: impressions = random.sample(impressions, 200000)] *)
Definition cap_impressions (impressions : list Impression) : M (list Impression) :=
  if decide (py_len impressions > IMPRESSION_CAP)
  then sample impressions IMPRESSION_CAP
  else ret impressions.

Record Summary := mkSummary {
  clicks : list Click;
  clicks_inserted : Z;
  impressions : list Impression;
  impressions_inserted : Z
}.

(** [main()], given what the GET requests returned: the restaurants, the
    [restaurant_id] column of the two content tables it reads, and the ids
    of the users. *)
Definition main (restaurants : list Restaurant)
    (hh_data event_data user_ids : list string) : M Summary :=
  let restaurant_ids := map r_id restaurants in
  let has_hh : gset string := list_to_set hh_data in
  let has_events : gset string := list_to_set event_data in
  popularity ← popularity_model has_hh has_events restaurants;
  cks ← generate_clicks restaurants user_ids popularity;
  ck_ins ← sb_post "analytics_clicks" (map RowClick cks);
  imps ← generate_impressions restaurant_ids user_ids;
  imps ← cap_impressions imps;
  imp_ins ← sb_post "section_impressions" (map RowImpression imps);
  ret (mkSummary cks ck_ins imps imp_ins).

End ClicksImpressions.


(** * Specifications *)

(** [returns m w Q]: run from the world [w], the program [m] raises no
    exception, and its result and final world satisfy [Q]. *)
Definition returns {A} (m : M A) (w : World) (Q : A -> World -> Prop) : Prop :=
  match m w with
  | Done a w' => Q a w'
  | Raised _ _ => False
  end.

(** What a program of the generator leaves alone: the store and the log. *)
Definition same_store (w w' : World) : Prop :=
  respond w' = respond w /\ posted w' = posted w.

(** The popularity weights of a snapshot are normalized: every restaurant
    has a weight, every weight is in (0, 1], and some restaurant of the
    snapshot has weight 1. *)
Definition normalized_weights (restaurants : list Restaurant)
    (popularity : gmap string Q) : Prop :=
  (forall r, r ∈ restaurants -> is_Some (popularity !! r_id r)) /\
  (forall rid v, popularity !! rid = Some v -> (0 < v)%Q /\ (v <= 1)%Q) /\
  (exists r v, r ∈ restaurants /\ popularity !! r_id r = Some v /\ (v == 1)%Q).

(** Raw scores: one per restaurant, none below the floor 0.5. *)
Definition floored_scores (restaurants : list Restaurant)
    (popularity : gmap string Q) : Prop :=
  (forall r, r ∈ restaurants -> is_Some (popularity !! r_id r)) /\
  (forall rid v, popularity !! rid = Some v ->
     (1 # 2 <= v)%Q /\ exists r, r ∈ restaurants /\ r_id r = rid).

(** The POST of one batch, and the POST of one row of the fallback. *)
Definition batch_request (table : string) (batch : list Row) : Request :=
  mkRequest table false batch.

Definition row_request (table : string) (row : Row) : Request :=
  mkRequest table false [row].

(** The requests C4 expects for 1,200 rows when only the second batch is
    rejected: batch 1, batch 2, the rows of batch 2 one by one, batch 3. *)
Definition fallback_trace (table : string) (rows : list Row) : list Request :=
  [batch_request table (py_slice rows 0 500);
   batch_request table (py_slice rows 500 1000)]
  ++ map (row_request table) (py_slice rows 500 1000)
  ++ [batch_request table (py_slice rows 1000 1500)].

(** Concrete inputs used to run the programs. *)
Definition constant_tape (n : Z) : N -> Draw :=
  fun _ => mkDraw n 0 (0%N, 1%positive).

Definition accept_all : nat -> Request -> bool := fun _ _ => true.

(** A store that rejects the POST number [k] and accepts the others. *)
Definition reject_nth (k : nat) : nat -> Request -> bool :=
  fun n _ => negb (Nat.eqb n k).

Definition world_of (n : Z) (store : nat -> Request -> bool) : World :=
  mkWorld (constant_tape n) 0 store [].

Definition R1 : Restaurant := mkRestaurant "r1" "One" (Some 4.5%Q) None.
Definition R2 : Restaurant := mkRestaurant "r2" "Two" (Some 2.5%Q) None.

(** Only the first restaurant has a happy hour. *)
Definition content_1 : Analytics.Content := Analytics.mkContent {["r1"]} ∅ ∅ ∅.

Definition some_click : Row := RowClick (mkClick "phone" "r1" "anonymous" NOW).
Definition rows_1200 : list Row := repeat some_click 1200.

(** Every happy-hour-tab view is a view of a restaurant that has a happy
    hour. *)
Definition hh_views_gated (c : Analytics.Content) (pvs : list PageView) : Prop :=
  forall pv, pv ∈ pvs -> pv_page_type pv = "happy_hour" ->
             pv_restaurant_id pv ∈ Analytics.has_hh c.

(** Every restaurant of the snapshot has a popularity weight. *)
Definition covers (restaurants : list Restaurant) (popularity : gmap string Q) : Prop :=
  forall r, r ∈ restaurants -> is_Some (popularity !! r_id r).

(** The loop invariant of the favorite synthesizer: no pair was emitted
    twice, and every emitted pair is recorded in [used_pairs]. *)
Definition fav_inv (st : list Favorite * gset (string * string)) : Prop :=
  NoDup (map fav_pair st.1) /\ forall f, f ∈ st.1 -> fav_pair f ∈ st.2.

(** The loop invariant of the de-duplicating impression synthesizer: no key
    was emitted twice, and every emitted key is recorded in [seen_keys]. *)
Definition imp_inv (st : list Impression * gset (string * string * string * Z)) : Prop :=
  NoDup (map imp_key st.1) /\ forall i, i ∈ st.1 -> imp_key i ∈ st.2.

(** The world a run ends in, whether it returns or raises. *)
Definition final_world {A} (o : Outcome A) : World :=
  match o with
  | Done _ w => w
  | Raised _ w => w
  end.

(** A program that only talks to the random generator: the store and the
    request log are as they were. *)
Definition rng_only {A} (m : M A) : Prop :=
  forall w, same_store w (final_world (m w)).

(** The batches [sb_post] cuts the rows into. *)
Definition batches_of (rows : list Row) : list (list Row) :=
  map (fun i => py_slice rows i (i + 500)) (py_range3 0 (py_len rows) 500).

(** ** Predicates on the generated records *)

(** A visitor of the analytics script: the shared anonymous token or a user
    of the pool. *)
Definition pool_visitor (user_ids : list string) (v : string) : Prop :=
  v = "anonymous" \/ v ∈ user_ids.

Definition hex_chars : list ascii :=
  ["0";"1";"2";"3";"4";"5";"6";"7";"8";"9";"a";"b";"c";"d";"e";"f"]%char.

(** A visitor of the clicks-and-impressions script: a user of the pool or
    [anon-] followed by twelve hexadecimal digits. *)
Definition device_visitor (user_ids : list string) (v : string) : Prop :=
  v ∈ user_ids \/
  exists h, v = "anon-" +:+ h /\ String.length h = 12%nat /\
            Forall (fun c => c ∈ hex_chars) (list_ascii_of_string h).

(** The requests [sb_post] of the analytics script makes for a list of
    batches, the first of them being POST number [k]: a batch the store
    accepts is one request, a batch it rejects is followed by one request per
    row. *)
Fixpoint fallback_requests (store : nat -> Request -> bool) (table : string)
    (k : nat) (batches : list (list Row)) : list Request :=
  match batches with
  | [] => []
  | b :: bs =>
      if store k (batch_request table b)
      then batch_request table b :: fallback_requests store table (S k) bs
      else batch_request table b :: map (row_request table) b
             ++ fallback_requests store table (S k + length b) bs
  end.

(** The POST of one batch of impressions by the analytics script. *)
Definition upsert_request (batch : list Row) : Request :=
  mkRequest "section_impressions" true batch.

(** The rows of the batches the store accepted, the first batch being POST
    number [k], when every batch is one request. *)
Fixpoint accepted_rows (store : nat -> Request -> bool) (mk : list Row -> Request)
    (k : nat) (batches : list (list Row)) : Z :=
  match batches with
  | [] => 0
  | b :: bs =>
      (if store k (mk b) then py_len b else 0) + accepted_rows store mk (S k) bs
  end.

(** [t] is on one of the [days] calendar days that start with the day of
    [first]. *)
Definition within_days (first days t : Z) : Prop :=
  midnight first <= t < midnight first + days * DAY.

(** The content tables as [main] of the analytics script reads them. *)
Definition content_of (hh_data menu_data event_data special_data : list string)
  : Analytics.Content :=
  Analytics.mkContent (list_to_set hh_data) (list_to_set menu_data)
                      (list_to_set event_data) (list_to_set special_data).

(** The four shapes of a page view: its type, its path, and the content
    table its restaurant must be in. *)
Definition view_shape (c : Analytics.Content) (pv : PageView) : Prop :=
  (pv_page_type pv = "restaurant" /\
   pv_page_path pv = "/mobile/restaurantdetail/" +:+ pv_restaurant_id pv) \/
  (pv_page_type pv = "happy_hour" /\
   pv_page_path pv = "/mobile/restauranthappyhours/" +:+ pv_restaurant_id pv /\
   pv_restaurant_id pv ∈ Analytics.has_hh c) \/
  (pv_page_type pv = "menu" /\
   pv_page_path pv = "/mobile/restaurantmenu/" +:+ pv_restaurant_id pv /\
   pv_restaurant_id pv ∈ Analytics.has_menu c) \/
  (pv_page_type pv = "events" /\
   pv_page_path pv = "/mobile/restaurantevents/" +:+ pv_restaurant_id pv /\
   pv_restaurant_id pv ∈ Analytics.has_events c).

Definition view_wf (c : Analytics.Content) (restaurant_ids user_ids : list string)
    (pv : PageView) : Prop :=
  pv_restaurant_id pv ∈ restaurant_ids /\
  pool_visitor user_ids (pv_visitor_id pv) /\
  pv_user_agent pv = USER_AGENT /\
  within_days START_DATE BACKFILL_DAYS (pv_viewed_at pv) /\
  view_shape c pv.

(** [pv] comes with a main restaurant view of the same restaurant, visitor
    and time. *)
Definition has_base_view (pvs : list PageView) (pv : PageView) : Prop :=
  exists b, b ∈ pvs /\ pv_page_type b = "restaurant" /\
            pv_restaurant_id b = pv_restaurant_id pv /\
            pv_visitor_id b = pv_visitor_id pv /\
            pv_viewed_at b = pv_viewed_at pv.

Definition views_inv (c : Analytics.Content) (restaurant_ids user_ids : list string)
    (pvs : list PageView) : Prop :=
  Forall (view_wf c restaurant_ids user_ids) pvs /\
  forall pv, pv ∈ pvs -> has_base_view pvs pv.

Definition click_wf (visitor_wf : string -> Prop) (restaurant_ids : list string)
    (ck : Click) : Prop :=
  ck_restaurant_id ck ∈ restaurant_ids /\
  visitor_wf (ck_visitor_id ck) /\
  ck_click_type ck ∈ CLICK_TYPES /\
  within_days START_DATE BACKFILL_DAYS (ck_clicked_at ck).

Definition favorite_wf (restaurant_ids user_ids : list string) (f : Favorite) : Prop :=
  fav_user_id f ∈ user_ids /\
  fav_restaurant_id f ∈ restaurant_ids /\
  NOW - timedelta 45 23 59 <= fav_created_at f <= NOW - timedelta 1 0 0.

(** An impression of the analytics script: shown at position [0 .. 59],
    stamped anywhere in one of the last seven days, the epoch being one of
    the eight that follow noon of that day. *)
Definition analytics_impression_wf (restaurant_ids user_ids : list string)
    (i : Impression) : Prop :=
  imp_restaurant_id i ∈ restaurant_ids /\
  imp_section_name i ∈ SECTIONS /\
  pool_visitor user_ids (imp_visitor_id i) /\
  (0 <= imp_position_index i < 60 /\ imp_position_index i < py_len restaurant_ids) /\
  exists day idx,
    0 <= day < 7 /\ 0 <= idx < 8 /\
    imp_epoch_seed i = (NOW - (6 - day) * DAY) / 1800 + idx /\
    within_days (NOW - (6 - day) * DAY) 1 (imp_impressed_at i).

(** An impression of the clicks-and-impressions script: shown at position
    [0 .. 39], stamped inside its own 30-minute epoch, which starts between
    08:00 and 23:30 of one of the last seven days. *)
Definition clicks_impression_wf (restaurant_ids user_ids : list string)
    (i : Impression) : Prop :=
  imp_restaurant_id i ∈ restaurant_ids /\
  imp_section_name i ∈ SECTIONS /\
  device_visitor user_ids (imp_visitor_id i) /\
  (0 <= imp_position_index i < 40 /\ imp_position_index i < py_len restaurant_ids) /\
  imp_impressed_at i / 1800 = imp_epoch_seed i /\
  exists day, 0 <= day < 7 /\
    midnight (NOW - (6 - day) * DAY) + 8 * 3600 <= imp_impressed_at i
      < midnight (NOW - (6 - day) * DAY) + DAY.

(** The favorites of one user, in the order they were generated. *)
Definition favorites_of (uid : string) (favs : list Favorite) : list Favorite :=
  filter (fun f => fav_user_id f = uid) favs.

(** * Reasoning rules *)

Lemma returns_ret {A} (a : A) w (Q : A -> World -> Prop) :
  Q a w -> returns (ret a) w Q.
Proof. done. Qed.

Lemma returns_bind {A B} (m : M A) (f : A -> M B) w (Q : B -> World -> Prop) :
  returns m w (fun a w' => returns (f a) w' Q) -> returns (bind m f) w Q.
Proof. unfold returns, bind. by destruct (m w). Qed.

Lemma returns_mono {A} (m : M A) w (Q Q' : A -> World -> Prop) :
  returns m w Q -> (forall a w', Q a w' -> Q' a w') -> returns m w Q'.
Proof. unfold returns. destruct (m w); eauto. Qed.

Lemma returns_and {A} (m : M A) w (Q Q' : A -> World -> Prop) :
  returns m w Q -> returns m w Q' -> returns m w (fun a w' => Q a w' /\ Q' a w').
Proof. unfold returns. by destruct (m w). Qed.

Lemma returns_done {A} (m : M A) w (Q : A -> World -> Prop) :
  returns m w Q -> exists a w', m w = Done a w' /\ Q a w'.
Proof. unfold returns. destruct (m w); [eauto | done]. Qed.

(** A loop keeps an invariant that may mention the items already visited. *)
Lemma returns_foldM_prefix {A B} (f : B -> A -> M B)
    (I : list A -> B -> World -> Prop) (l : list A) :
  forall pre b w,
    I pre b w ->
    (forall done_ a b0 w0, a ∈ l -> I done_ b0 w0 ->
       returns (f b0 a) w0 (I (done_ ++ [a]))) ->
    returns (foldM f l b) w (I (pre ++ l)).
Proof.
  induction l as [|a l IH]; intros pre b w HI Hstep; simpl.
  - rewrite app_nil_r. by apply returns_ret.
  - apply returns_bind.
    eapply returns_mono; [apply (Hstep pre); [set_solver | done] |].
    intros b' w' HI'. simpl.
    replace (pre ++ a :: l) with ((pre ++ [a]) ++ l) by (by rewrite <- app_assoc).
    apply IH; [done |]. intros; apply Hstep; [set_solver | done].
Qed.

Lemma returns_foldM {A B} (f : B -> A -> M B) (I : B -> World -> Prop)
    (l : list A) b w :
  I b w ->
  (forall a b0 w0, a ∈ l -> I b0 w0 -> returns (f b0 a) w0 I) ->
  returns (foldM f l b) w I.
Proof.
  intros HI Hstep.
  apply (returns_foldM_prefix f (fun _ => I) l [] b w HI).
  intros; by apply Hstep.
Qed.

Ltac mbind := apply returns_bind.
Ltac mret := apply returns_ret.
Ltac mspec H := eapply returns_mono; [apply H | cbv beta; intros ? ?].

(** ** The library calls *)

Lemma draw_returns w (Q : Draw -> World -> Prop) :
  (forall d w', Q d w') -> returns draw w Q.
Proof. intros H. apply H. Qed.

Lemma random_spec w : returns random w (fun u _ => (0 <= u)%Q /\ (u < 1)%Q).
Proof.
  unfold random. mbind. apply draw_returns; intros d w'. mret.
  pose proof (Z.mod_pos_bound (d_bits d) TWO53 eq_refl) as [H0 H1].
  unfold Qle, Qlt; simpl. unfold TWO53 in *. lia.
Qed.

Lemma randbelow_spec n w :
  0 < n -> returns (randbelow n) w (fun j _ => 0 <= j < n).
Proof.
  intros Hn. unfold randbelow. mbind. apply draw_returns; intros d w'. mret.
  by apply Z.mod_pos_bound.
Qed.

Lemma randint_spec a b w :
  a <= b -> returns (randint a b) w (fun r _ => a <= r <= b).
Proof.
  intros Hab. unfold randint. mbind.
  mspec (randbelow_spec (b - a + 1)); [lia |]. intros Hj. mret. lia.
Qed.

Lemma uniform_returns a b w : returns (uniform a b) w (fun _ _ => True).
Proof. unfold uniform. mbind. mspec random_spec. intros _. by mret. Qed.

Lemma gauss_returns mu sigma w : returns (gauss mu sigma) w (fun _ _ => True).
Proof. unfold gauss. mbind. apply draw_returns; intros. by mret. Qed.

Lemma exp_deviate_nonneg d : (0 <= exp_deviate d)%Q.
Proof. unfold exp_deviate, Qle; simpl. lia. Qed.

Lemma expovariate_spec lambd w :
  (0 < lambd)%Q -> returns (expovariate lambd) w (fun e _ => (0 <= e)%Q).
Proof.
  intros Hl. unfold expovariate. mbind. apply draw_returns; intros d w'. mret.
  apply Qle_shift_div_l; [done |]. rewrite Qmult_0_l. apply exp_deviate_nonneg.
Qed.

Lemma choice_spec {A} (xs : list A) w :
  xs <> [] -> returns (choice xs) w (fun x _ => x ∈ xs).
Proof.
  intros Hne. destruct xs as [|x0 xs]; [done |].
  unfold choice. mbind. mspec (randbelow_spec (py_len (x0 :: xs))).
  { unfold py_len; simpl; lia. }
  intros Hj. mret. apply list_elem_of_In, nth_In.
  unfold py_len in Hj. lia.
Qed.

Lemma sample_loop_spec {A} (k : nat) :
  forall (pool : list A) w,
    (k <= length pool)%nat ->
    returns (sample_loop pool k) w (fun xs _ => length xs = k /\ xs ⊆+ pool).
Proof.
  induction k as [|k IH]; intros pool w Hk; simpl.
  - mret. split; [done | apply submseteq_nil_l].
  - mbind. mspec (randbelow_spec (py_len pool)).
    { unfold py_len. lia. }
    intros Hj. unfold py_len in Hj.
    destruct (pool !! Z.to_nat a) as [x|] eqn:Hx.
    + mbind. mspec (IH (delete (Z.to_nat a) pool)).
      { rewrite length_delete; [lia | eauto]. }
      intros [Hlen Hsub]. mret. split; [simpl; lia |].
      rewrite (delete_Permutation pool _ x Hx). by apply submseteq_skip.
    + apply lookup_ge_None in Hx. lia.
Qed.

Lemma sample_spec {A} (population : list A) k w :
  0 <= k <= py_len population ->
  returns (sample population k) w
          (fun xs _ => py_len xs = k /\ xs ⊆+ population).
Proof.
  intros Hk. unfold sample. rewrite decide_True by done.
  mspec (sample_loop_spec (A:=A) (Z.to_nat k)).
  { unfold py_len in Hk. lia. }
  intros [Hlen Hsub]. split; [unfold py_len; lia | done].
Qed.

Lemma bisect_le cum x : (bisect cum x <= length cum)%nat.
Proof. induction cum as [|c cs IH]; simpl; [lia |]. destruct (Qlt_le_dec _ _); simpl; lia. Qed.

Lemma choices1_click_types w :
  returns (choices1 CLICK_TYPES CLICK_WEIGHTS) w (fun ct _ => ct ∈ CLICK_TYPES).
Proof.
  unfold choices1. mbind. mspec random_spec. intros _.
  match goal with |- context [bisect ?l ?x] =>
    pose proof (bisect_le l x) as Hb; set (i := bisect l x) in * end.
  simpl in Hb.
  destruct (CLICK_TYPES !! i) as [ct|] eqn:Hct.
  - mret. by eapply list_elem_of_lookup_2.
  - apply lookup_ge_None in Hct. simpl in Hct. lia.
Qed.

Lemma uuid4_hex12_returns w : returns uuid4_hex12 w (fun _ _ => True).
Proof. unfold uuid4_hex12. mbind. apply draw_returns; intros. by mret. Qed.

Lemma dt_replace_returns d h m s w :
  0 <= h <= 23 -> 0 <= m <= 59 -> 0 <= s <= 59 ->
  returns (dt_replace d h m s) w (fun t _ => t = midnight d + h * 3600 + m * 60 + s).
Proof.
  intros Hh Hm Hs. unfold dt_replace.
  rewrite !decide_True by done. by mret.
Qed.

Lemma hour_of_range d : 0 <= hour_of d <= 23.
Proof.
  unfold hour_of, DAY.
  pose proof (Z.mod_pos_bound d 86400 eq_refl).
  split; [apply Z.div_pos; lia |].
  apply Z.lt_succ_r, Z.div_lt_upper_bound; lia.
Qed.

Lemma dict_get_spec (d : gmap string Q) k v w :
  d !! k = Some v -> returns (dict_get d k) w (fun x _ => x = v).
Proof. intros H. unfold dict_get. rewrite H. by mret. Qed.

(** ** The growth multiplier *)

Lemma inject_Z_pred n : (inject_Z (n - 1) == inject_Z n - 1)%Q.
Proof. unfold Z.sub. rewrite inject_Z_plus. reflexivity. Qed.

Lemma inject_Z_succ n : (inject_Z (n + 1) == inject_Z n + 1)%Q.
Proof. rewrite inject_Z_plus. reflexivity. Qed.

Lemma inject_Z_nonzero n : n <> 0 -> ~ (inject_Z n == 0)%Q.
Proof. unfold Qeq; simpl. lia. Qed.

(** C5, as the code has it: the ramp is [1/2 + d / (2 N)].  It starts at 1/2,
    climbs by [1 / (2 N)] a day, is [1 - 1 / (2 N)] on the final day
    [N - 1], below 1, and would reach 1 only on day [N], the first day
    after the window. *)
Theorem growth_mult_ramp (N : Z) :
  1 <= N ->
  (growth_mult N 0 == 1 # 2)%Q /\
  (forall d, growth_mult N (d + 1) - growth_mult N d == 1 / (2 * inject_Z N))%Q /\
  (growth_mult N (N - 1) == 1 - 1 / (2 * inject_Z N))%Q /\
  (growth_mult N (N - 1) < 1)%Q /\
  (growth_mult N N == 1)%Q.
Proof.
  intros HN.
  assert (HN0 : ~ (inject_Z N == 0)%Q) by (apply inject_Z_nonzero; lia).
  assert (Hlast : (growth_mult N (N - 1) == 1 - 1 / (2 * inject_Z N))%Q).
  { unfold growth_mult. rewrite inject_Z_pred. field. done. }
  repeat split.
  - unfold growth_mult. field. done.
  - intros d. unfold growth_mult. rewrite inject_Z_succ. field. done.
  - done.
  - rewrite Hlast.
    assert (Hpos : (0 < 1 / (2 * inject_Z N))%Q).
    { assert (HNpos : (0 < inject_Z N)%Q) by (unfold Qlt; simpl; lia).
      apply Qlt_shift_div_l; lra. }
    lra.
  - unfold growth_mult. field. done.
Qed.

Lemma growth_mult_ramp_witness :
  (growth_mult 60 0 == 1 # 2)%Q /\
  (forall d, growth_mult 60 (d + 1) - growth_mult 60 d == 1 / (2 * inject_Z 60))%Q /\
  (growth_mult 60 (60 - 1) == 1 - 1 / (2 * inject_Z 60))%Q /\
  (growth_mult 60 (60 - 1) < 1)%Q /\
  (growth_mult 60 60 == 1)%Q.
Proof. apply (growth_mult_ramp 60). lia. Defined.

(** C5 as stated fails for the 60-day window of both scripts: on the final
    day, day 59, the multiplier is 119/120, not 1, and the multiplier of day 0
    is not half of it. *)
Lemma growth_mult_final_day_below_one :
  (growth_mult BACKFILL_DAYS (BACKFILL_DAYS - 1) == 119 # 120)%Q /\
  ~ (growth_mult BACKFILL_DAYS (BACKFILL_DAYS - 1) == 1)%Q /\
  ~ (growth_mult BACKFILL_DAYS 0
     == (1 # 2) * growth_mult BACKFILL_DAYS (BACKFILL_DAYS - 1))%Q.
Proof. repeat split; vm_compute; congruence. Qed.

(** ** Event counts *)

Lemma py_int_nonneg x : (0 <= x)%Q -> 0 <= py_int x.
Proof.
  unfold Qle, py_int; simpl. intros H.
  apply Z.quot_pos; lia.
Qed.

Lemma py_max_lower a b : (b <= py_max a b)%Q /\ (a <= py_max a b)%Q.
Proof. unfold py_max. destruct (Qlt_le_dec a b); split; lra. Qed.

(** C8: whatever the draw, the count sampled for a cell is a non-negative
    integer, by the Gaussian policy of the analytics script (views and
    clicks) and by the exponential policy of the clicks-and-impressions
    script (where it is also at most 8); with the Gaussian policy an expected
    value of zero gives the count zero. *)
Theorem sample_count_nonneg (base spread : Q) (w : World) :
  returns (Analytics.sample_count base spread) w (fun n _ => 0 <= n) /\
  returns (ClicksImpressions.sample_count base) w (fun n _ => 0 <= n <= 8) /\
  returns (Analytics.sample_count 0 spread) w (fun n _ => n = 0).
Proof.
  split; [| split].
  - unfold Analytics.sample_count. mbind. mspec gauss_returns. intros _. mret. lia.
  - unfold ClicksImpressions.sample_count. mbind.
    mspec expovariate_spec.
    { pose proof (py_max_lower base 0.1) as [Hlo _].
      apply Qlt_shift_div_l; lra. }
    intros He. mret. pose proof (py_int_nonneg _ He). lia.
  - unfold Analytics.sample_count, gauss. mbind. mbind.
    apply draw_returns; intros d w'. mret. mret.
    unfold py_int. simpl. rewrite !Z.mul_0_r. reflexivity.
Qed.

(** ** The popularity model *)

Lemma foldl_py_max_spec (vs : list Q) :
  forall v,
    ((v <= foldl py_max v vs)%Q /\ forall x, x ∈ vs -> (x <= foldl py_max v vs)%Q) /\
    (foldl py_max v vs = v \/ foldl py_max v vs ∈ vs).
Proof.
  induction vs as [|y vs IH]; intros v; simpl.
  - split; [split; [lra | intros x Hx; inversion Hx] | by left].
  - destruct (IH (py_max v y)) as [[Hge Hall] Hin].
    pose proof (py_max_lower v y) as [Hy Hv].
    split; [split |].
    + lra.
    + intros x Hx. apply elem_of_cons in Hx as [-> | Hx]; [lra | by apply Hall].
    + destruct Hin as [Heq | Hin]; [| right; by apply elem_of_cons; right].
      rewrite Heq. unfold py_max. destruct (Qlt_le_dec v y); [right | by left].
      apply elem_of_cons; by left.
Qed.

Lemma max_values_spec (d : gmap string Q) w :
  d <> ∅ ->
  returns (max_values d) w
    (fun mx _ => (forall k v, d !! k = Some v -> (v <= mx)%Q) /\
                 exists k, d !! k = Some mx).
Proof.
  intros Hne. unfold max_values.
  destruct ((map_to_list d).*2) as [|v vs] eqn:Hl.
  - apply fmap_nil_inv in Hl. by apply map_to_list_empty_iff in Hl.
  - mret. destruct (foldl_py_max_spec vs v) as [[Hv Hall] Hin].
    assert (Hmem : forall x, x ∈ v :: vs <-> exists k, d !! k = Some x).
    { intros x. rewrite <- Hl, list_elem_of_fmap. split.
      - intros [[k y] [-> Hk]]. exists k. by apply elem_of_map_to_list.
      - intros [k Hk]. exists (k, x). split; [done | by apply elem_of_map_to_list]. }
    split.
    + intros k x Hk.
      assert (Hx : x ∈ v :: vs) by (apply Hmem; eauto).
      apply elem_of_cons in Hx as [-> | Hx]; [done | by apply Hall].
    + apply Hmem. destruct Hin as [-> | Hin]; [left | by right].
Qed.

Lemma normalize_spec (restaurants : list Restaurant) (scores : gmap string Q) w :
  restaurants <> [] ->
  floored_scores restaurants scores ->
  returns (Analytics.normalize scores) w
          (fun pop _ => normalized_weights restaurants pop).
Proof.
  intros Hne [Hdom Hfloor]. unfold Analytics.normalize. mbind.
  mspec max_values_spec.
  { destruct restaurants as [|r rs]; [done |].
    destruct (Hdom r) as [v Hv]; [left |]. intros ->. by rewrite lookup_empty in Hv. }
  intros [Hmax [kmax Hkmax]]. mret.
  destruct (Hfloor _ _ Hkmax) as [Hmx [rmax [Hrmax Hid]]].
  split; [| split].
  - intros r Hr. rewrite lookup_fmap. destruct (Hdom r Hr) as [v ->]. by eexists.
  - intros rid v. rewrite lookup_fmap.
    destruct (scores !! rid) as [s|] eqn:Hs; [| done].
    intros [= <-]. destruct (Hfloor _ _ Hs) as [Hlo _].
    pose proof (Hmax _ _ Hs). split.
    + apply Qlt_shift_div_l; lra.
    + apply Qle_shift_div_r; lra.
  - exists rmax, (a / a)%Q. split; [done |]. split.
    + by rewrite lookup_fmap, Hid, Hkmax.
    + field. lra.
Qed.

Lemma assign_scores_spec (score : Restaurant -> M Q) (restaurants : list Restaurant) w :
  (forall r w0, returns (score r) w0 (fun s _ => (1 # 2 <= s)%Q)) ->
  returns (foldM (fun popularity r => s ← score r; ret (<[r_id r := s]> popularity))
                 restaurants ∅) w
          (fun pop _ => floored_scores restaurants pop).
Proof.
  intros Hscore.
  apply (returns_foldM_prefix _ (fun pre pop _ => floored_scores pre pop)
           restaurants [] ∅ w).
  - split; [intros r Hr; inversion Hr | intros rid v Hv; by rewrite lookup_empty in Hv].
  - intros pre r pop w0 _ [Hdom Hfloor]. mbind. mspec Hscore. intros Hs. mret.
    split.
    + intros r' Hr'. apply elem_of_app in Hr' as [Hr' | Hr'].
      * destruct (decide (r_id r = r_id r')) as [-> | Hne];
          [rewrite lookup_insert_eq; eauto | rewrite lookup_insert_ne; eauto].
      * apply list_elem_of_singleton in Hr' as ->. rewrite lookup_insert_eq; eauto.
    + intros rid v. destruct (decide (r_id r = rid)) as [<- | Hne].
      * rewrite lookup_insert_eq. intros [= <-]. split; [done |].
        exists r. split; [apply elem_of_app; right; by left | done].
      * rewrite lookup_insert_ne by done. intros Hv.
        destruct (Hfloor _ _ Hv) as [Hlo [r' [Hr' Hid]]]. split; [done |].
        exists r'. split; [apply elem_of_app; by left | done].
Qed.

Lemma raw_score_floor_analytics c r w :
  returns (Analytics.raw_score c r) w (fun s _ => (1 # 2 <= s)%Q).
Proof.
  unfold Analytics.raw_score. mbind. mspec uniform_returns. intros _. mret.
  match goal with |- (_ <= py_max ?x _)%Q => pose proof (py_max_lower x 0.5) as [H _] end.
  lra.
Qed.

Lemma raw_score_floor_clicks hh ev r w :
  returns (ClicksImpressions.raw_score hh ev r) w (fun s _ => (1 # 2 <= s)%Q).
Proof.
  unfold ClicksImpressions.raw_score. mbind. mspec uniform_returns. intros _. mret.
  match goal with |- (_ <= py_max ?x _)%Q => pose proof (py_max_lower x 0.5) as [H _] end.
  lra.
Qed.

Lemma popularity_model_analytics c restaurants w :
  restaurants <> [] ->
  returns (Analytics.popularity_model c restaurants) w
          (fun pop _ => normalized_weights restaurants pop).
Proof.
  intros Hne. unfold Analytics.popularity_model, Analytics.assign_scores. mbind.
  mspec (assign_scores_spec (Analytics.raw_score c)).
  { apply raw_score_floor_analytics. }
  intros Hfl. by apply normalize_spec.
Qed.

Lemma popularity_model_clicks hh ev restaurants w :
  restaurants <> [] ->
  returns (ClicksImpressions.popularity_model hh ev restaurants) w
          (fun pop _ => normalized_weights restaurants pop).
Proof.
  intros Hne.
  unfold ClicksImpressions.popularity_model, ClicksImpressions.assign_scores. mbind.
  mspec (assign_scores_spec (ClicksImpressions.raw_score hh ev)).
  { apply raw_score_floor_clicks. }
  intros Hfl. by apply normalize_spec.
Qed.

(** C3: for a non-empty snapshot and any draws, the Popularity Model of
    either script returns weights that are all in (0, 1], one for every
    restaurant, and some restaurant of the snapshot has weight 1. *)
Theorem popularity_in_unit_interval (c : Analytics.Content)
    (restaurants : list Restaurant) (w : World) :
  restaurants <> [] ->
  returns (Analytics.popularity_model c restaurants) w
          (fun pop _ => normalized_weights restaurants pop) /\
  returns (ClicksImpressions.popularity_model
             (Analytics.has_hh c) (Analytics.has_events c) restaurants) w
          (fun pop _ => normalized_weights restaurants pop).
Proof.
  intros Hne. split.
  - by apply popularity_model_analytics.
  - by apply popularity_model_clicks.
Qed.

Lemma popularity_in_unit_interval_witness :
  returns (Analytics.popularity_model content_1 [R1; R2]) (world_of 359 accept_all)
          (fun pop _ => normalized_weights [R1; R2] pop) /\
  returns (ClicksImpressions.popularity_model
             (Analytics.has_hh content_1) (Analytics.has_events content_1) [R1; R2])
          (world_of 359 accept_all)
          (fun pop _ => normalized_weights [R1; R2] pop).
Proof. apply (popularity_in_unit_interval content_1 [R1; R2]). discriminate. Defined.

(** ** The Batch Ingestion Client *)

Lemma fallback_rows_spec table (batch : list Row) inserted w :
  returns (foldM (Analytics.post_row table) batch inserted) w
    (fun n w' => posted w' = posted w ++ map (row_request table) batch /\
                 respond w' = respond w /\
                 inserted <= n <= inserted + py_len batch).
Proof.
  apply (returns_foldM_prefix _
           (fun pre n w' => posted w' = posted w ++ map (row_request table) pre /\
                            respond w' = respond w /\
                            inserted <= n <= inserted + py_len pre) batch [] inserted w).
  - rewrite app_nil_r. unfold py_len. simpl. repeat split; lia.
  - intros pre row n w0 _ (Hlog & Hresp & Hn).
    unfold Analytics.post_row, returns, bind, urlopen_post, ret. simpl.
    rewrite Hlog, map_app, app_assoc. unfold py_len in *.
    rewrite (length_app pre). simpl.
    split; [done |]. split; [done |].
    match goal with |- context [if ?b then _ else _] => destruct b end; lia.
Qed.

Lemma post_batch_accepted table rows inserted i w :
  respond w (length (posted w)) (batch_request table (py_slice rows i (i + 500))) = true ->
  returns (Analytics.post_batch table rows inserted i) w
    (fun n w' => posted w' = posted w ++ [batch_request table (py_slice rows i (i + 500))] /\
                 respond w' = respond w /\
                 n = inserted + py_len (py_slice rows i (i + 500))).
Proof.
  intros Hok. unfold Analytics.post_batch, returns, bind, urlopen_post. simpl.
  unfold batch_request, Analytics.BATCH in *. rewrite Hok. by simpl.
Qed.

Lemma post_batch_rejected table rows inserted i w :
  respond w (length (posted w)) (batch_request table (py_slice rows i (i + 500))) = false ->
  returns (Analytics.post_batch table rows inserted i) w
    (fun n w' => posted w' = posted w
                   ++ batch_request table (py_slice rows i (i + 500))
                      :: map (row_request table) (py_slice rows i (i + 500)) /\
                 respond w' = respond w /\
                 inserted <= n <= inserted + py_len (py_slice rows i (i + 500))).
Proof.
  intros Hko. unfold Analytics.post_batch. mbind.
  unfold returns at 1, urlopen_post.
  unfold batch_request, Analytics.BATCH in *. rewrite Hko.
  mspec fallback_rows_spec. simpl. intros (Hlog & Hresp & Hn).
  rewrite Hlog, <- app_assoc. by simpl.
Qed.

Lemma py_slice_length {A} (xs : list A) i j :
  0 <= i <= j -> j <= py_len xs -> py_len (py_slice xs i j) = j - i.
Proof.
  unfold py_len, py_slice. intros Hi Hj.
  rewrite length_take, length_drop. lia.
Qed.

Lemma row_request_sizes table (batch : list Row) :
  map (fun rq => py_len (rq_rows rq)) (map (row_request table) batch)
  = repeat 1 (length batch).
Proof. induction batch; simpl; [done | by f_equal]. Qed.

(** [sb_post] of the analytics script on 1,200 rows, the second batch
    rejected. *)
Lemma analytics_sb_post_1200 (table : string) (rows : list Row) (w : World) :
  py_len rows = 1200 ->
  posted w = [] ->
  respond w 0%nat (batch_request table (py_slice rows 0 500)) = true ->
  respond w 1%nat (batch_request table (py_slice rows 500 1000)) = false ->
  respond w 502%nat (batch_request table (py_slice rows 1000 1500)) = true ->
  returns (Analytics.sb_post table rows) w
    (fun inserted w' =>
       posted w' = fallback_trace table rows /\
       map (fun rq => py_len (rq_rows rq)) (posted w')
         = [500; 500] ++ repeat 1 500 ++ [200] /\
       700 <= inserted <= 1200).
Proof.
  intros Hlen Hlog H1 H2 H3.
  assert (Hb2 : length (py_slice rows 500 1000) = 500%nat).
  { pose proof (py_slice_length rows 500 1000) as H. unfold py_len in *. lia. }
  assert (Hb1 : py_len (py_slice rows 0 500) = 500).
  { rewrite py_slice_length; lia. }
  assert (Hb3 : py_len (py_slice rows 1000 1500) = 200).
  { unfold py_len, py_slice in *. rewrite length_take, length_drop. lia. }
  unfold Analytics.sb_post. rewrite Hlen.
  change (py_range3 0 1200 Analytics.BATCH) with [0; 500; 1000].
  simpl foldM. mbind.
  mspec post_batch_accepted; [by rewrite Hlog |].
  change (0 + 500) with 500. intros (Hlog1 & Hr1 & Hn1).
  rewrite Hlog in Hlog1. simpl in Hlog1. mbind.
  mspec post_batch_rejected; [by rewrite Hlog1, Hr1 |].
  change (500 + 500) with 1000. intros (Hlog2 & Hr2 & Hn2).
  rewrite Hlog1 in Hlog2. simpl in Hlog2. mbind.
  mspec post_batch_accepted.
  { change (1000 + 500) with 1500.
    rewrite Hlog2, Hr2, Hr1. simpl. rewrite length_map, Hb2. exact H3. }
  change (1000 + 500) with 1500. intros (Hlog3 & Hr3 & Hn3). mret.
  assert (Htrace : posted w'1 = fallback_trace table rows).
  { rewrite Hlog3, Hlog2. reflexivity. }
  split; [done |]. split; [| unfold py_len in *; lia].
  rewrite Htrace. unfold fallback_trace.
  rewrite !map_app, row_request_sizes, Hb2. simpl.
  fold (py_len (py_slice rows 0 500)). fold (py_len (py_slice rows 1000 1500)).
  fold (py_len (py_slice rows 500 1000)).
  rewrite Hb1, Hb3. unfold py_len. by rewrite Hb2.
Qed.

(** ** The analytics script: page views and clicks *)

Lemma analytics_visitor_id users w :
  returns (Analytics.generate_visitor_id users) w
          (fun v _ => v = "anonymous" \/ v ∈ users).
Proof.
  unfold Analytics.generate_visitor_id. mbind. mspec random_spec. intros _.
  destruct (Qlt_le_dec a 0.4); [| mret; by left].
  destruct users as [|u us]; [mret; by left |].
  mspec (choice_spec (u :: us)); [done | by right].
Qed.

Lemma analytics_random_time d w :
  returns (Analytics.random_time_in_day d) w
          (fun t _ => midnight d <= t < midnight d + DAY).
Proof.
  unfold Analytics.random_time_in_day. mbind. mspec random_spec. intros _. mbind.
  assert (Hhour : returns (if Qlt_le_dec a 0.8 then randint 10 22 else randint 0 23) w'
                          (fun h _ => 0 <= h <= 23)).
  { destruct (Qlt_le_dec a 0.8); [mspec (randint_spec 10 22) | mspec (randint_spec 0 23)]; lia. }
  mspec Hhour. intros Hh. mbind.
  mspec (randint_spec 0 59); [lia |]. intros Hm. mbind.
  mspec (randint_spec 0 59); [lia |]. intros Hs.
  mspec dt_replace_returns; [done.. |]. intros ->. unfold DAY. lia.
Qed.

Lemma hh_views_gated_snoc c pvs pv :
  hh_views_gated c pvs ->
  (pv_page_type pv = "happy_hour" -> pv_restaurant_id pv ∈ Analytics.has_hh c) ->
  hh_views_gated c (pvs ++ [pv]).
Proof.
  intros Hg Hpv x Hx. apply elem_of_app in Hx as [Hx | Hx]; [by apply Hg |].
  by apply list_elem_of_singleton in Hx as ->.
Qed.

Lemma tab_view_spec (P : list PageView -> Prop) (flag : Prop) (dec : Decision flag)
    (p : Q) (pvs : list PageView) (pv : PageView) w :
  P pvs -> (flag -> P (pvs ++ [pv])) ->
  returns (if dec then u ← random; ret (if Qlt_le_dec u p then pvs ++ [pv] else pvs)
           else ret pvs) w
          (fun pvs' _ => P pvs').
Proof.
  intros HP Hflag. destruct dec as [Hf | Hf]; [| by mret].
  mbind. mspec random_spec. intros _. mret.
  destruct (Qlt_le_dec a p); [by apply Hflag | done].
Qed.

Lemma one_view_spec c users d rid pvs w :
  hh_views_gated c pvs ->
  returns (Analytics.one_view c users d rid pvs) w
          (fun pvs' _ => hh_views_gated c pvs').
Proof.
  intros Hg. unfold Analytics.one_view. mbind.
  mspec analytics_visitor_id. intros _. mbind.
  mspec analytics_random_time. intros _. mbind.
  mspec (tab_view_spec (hh_views_gated c)).
  { by apply hh_views_gated_snoc. }
  { intros Hin. apply hh_views_gated_snoc; [by apply hh_views_gated_snoc | done]. }
  intros Hg1. mbind.
  mspec (tab_view_spec (hh_views_gated c)); [done | |].
  { intros _. by apply hh_views_gated_snoc. }
  intros Hg2.
  mspec (tab_view_spec (hh_views_gated c)); [done | | done].
  intros _. by apply hh_views_gated_snoc.
Qed.

Lemma analytics_sample_count_returns base spread w :
  returns (Analytics.sample_count base spread) w (fun n _ => 0 <= n).
Proof.
  unfold Analytics.sample_count. mbind. mspec gauss_returns. intros _. mret. lia.
Qed.

Lemma views_of_restaurant_spec c users pop d weekend growth noise pvs r w :
  is_Some (pop !! r_id r) -> hh_views_gated c pvs ->
  returns (Analytics.views_of_restaurant c users pop d weekend growth noise pvs r) w
          (fun pvs' _ => hh_views_gated c pvs').
Proof.
  intros [v Hv] Hg. unfold Analytics.views_of_restaurant. mbind.
  mspec dict_get_spec; [exact Hv |]. intros _. mbind.
  mspec analytics_sample_count_returns. intros _.
  apply (returns_foldM _ (fun pvs' _ => hh_views_gated c pvs')); [done |].
  intros _ pvs0 w0 _ Hg0. by apply one_view_spec.
Qed.

Lemma views_of_day_spec c restaurants users pop pvs day w :
  covers restaurants pop -> hh_views_gated c pvs ->
  returns (Analytics.views_of_day c restaurants users pop pvs day) w
          (fun pvs' _ => hh_views_gated c pvs').
Proof.
  intros Hcov Hg. unfold Analytics.views_of_day. mbind.
  mspec uniform_returns. intros _.
  apply (returns_foldM _ (fun pvs' _ => hh_views_gated c pvs')); [done |].
  intros r pvs0 w0 Hr Hg0. apply views_of_restaurant_spec; [by apply Hcov | done].
Qed.

Lemma generate_page_views_spec c restaurants users pop w :
  covers restaurants pop ->
  returns (Analytics.generate_page_views c restaurants users pop) w
          (fun pvs _ => hh_views_gated c pvs).
Proof.
  intros Hcov. unfold Analytics.generate_page_views.
  apply (returns_foldM _ (fun pvs' _ => hh_views_gated c pvs')).
  - intros pv Hpv. inversion Hpv.
  - intros day pvs0 w0 _ Hg0. by apply views_of_day_spec.
Qed.

Lemma analytics_one_click_returns users d rid cks w :
  returns (Analytics.one_click users d rid cks) w (fun _ _ => True).
Proof.
  unfold Analytics.one_click. mbind. mspec choices1_click_types. intros _. mbind.
  mspec analytics_visitor_id. intros _. mbind.
  mspec analytics_random_time. intros _. by mret.
Qed.

Lemma analytics_generate_clicks_returns restaurants users pop w :
  covers restaurants pop ->
  returns (Analytics.generate_clicks restaurants users pop) w (fun _ _ => True).
Proof.
  intros Hcov. unfold Analytics.generate_clicks.
  apply (returns_foldM _ (fun _ _ => True)); [done |].
  intros day cks w0 _ _. unfold Analytics.clicks_of_day. mbind.
  mspec uniform_returns. intros _.
  apply (returns_foldM _ (fun _ _ => True)); [done |].
  intros r cks0 w1 Hr _. unfold Analytics.clicks_of_restaurant. mbind.
  destruct (Hcov r Hr) as [v Hv].
  mspec dict_get_spec; [exact Hv |]. intros _. mbind.
  mspec analytics_sample_count_returns. intros _.
  apply (returns_foldM _ (fun _ _ => True)); [done |].
  intros _ cks1 w2 _ _. apply analytics_one_click_returns.
Qed.

(** ** The analytics script: favorites *)

Lemma favorite_date_spec w :
  returns Analytics.favorite_date w
    (fun t _ => NOW - timedelta 45 23 59 <= t <= NOW - timedelta 1 0 0).
Proof.
  unfold Analytics.favorite_date. mbind.
  mspec (randint_spec 1 45); [lia |]. intros Hd. mbind.
  mspec (randint_spec 0 23); [lia |]. intros Hh. mbind.
  mspec (randint_spec 0 59); [lia |]. intros Hm. mret.
  unfold timedelta, DAY. lia.
Qed.

Lemma one_favorite_collision (uid : string)
    (st : list Favorite * gset (string * string)) (rid : string) (w : World) :
  (uid, rid) ∈ st.2 -> Analytics.one_favorite uid st rid w = Done st w.
Proof. intros Hin. unfold Analytics.one_favorite. by rewrite decide_True. Qed.

Lemma one_favorite_spec (uid : string)
    (st : list Favorite * gset (string * string)) (rid : string) (w : World) :
  fav_inv st -> returns (Analytics.one_favorite uid st rid) w (fun st' _ => fav_inv st').
Proof.
  intros [Hnd Hused]. unfold Analytics.one_favorite.
  destruct (decide ((uid, rid) ∈ st.2)) as [Hin | Hnew]; [by mret |].
  mbind. mspec favorite_date_spec. intros _. mret. split; simpl.
  - rewrite map_app. apply NoDup_app. split; [done |]. split.
    + intros pair Hpair Hsingle. apply list_elem_of_singleton in Hsingle.
      apply list_elem_of_fmap in Hpair as [f [-> Hf]].
      apply Hnew. change (uid, rid) with (fav_pair (mkFavorite uid rid a)).
      rewrite <- Hsingle. by apply Hused.
    + apply NoDup_singleton.
  - intros f Hf. apply elem_of_app in Hf as [Hf | Hf].
    + apply elem_of_union; right. by apply Hused.
    + apply list_elem_of_singleton in Hf as ->. apply elem_of_union; left.
      by apply elem_of_singleton.
Qed.

Lemma sample_min_spec {A} (population : list A) n w :
  0 <= n ->
  returns (sample population (Z.min n (py_len population))) w
          (fun xs _ => xs ⊆+ population).
Proof.
  intros Hn. mspec (sample_spec population).
  { unfold py_len. lia. }
  by intros [_ Hsub].
Qed.

Lemma favorites_of_user_spec rids pop st uid w :
  fav_inv st ->
  returns (Analytics.favorites_of_user rids pop st uid) w (fun st' _ => fav_inv st').
Proof.
  intros Hinv. unfold Analytics.favorites_of_user. mbind.
  mspec (randint_spec 8 30); [lia |]. intros Hn. mbind.
  mspec (sample_min_spec rids); [lia |]. intros _.
  apply (returns_foldM _ (fun st' _ => fav_inv st')); [done |].
  intros rid st0 w0 _ Hinv0. by apply one_favorite_spec.
Qed.

Lemma generate_favorites_spec rids uids pop w :
  returns (Analytics.generate_favorites rids uids pop) w
          (fun favs _ => NoDup (map fav_pair favs)).
Proof.
  unfold Analytics.generate_favorites. mbind.
  eapply returns_mono.
  - apply (returns_foldM _ (fun st' _ => fav_inv st')).
    + split; [apply NoDup_nil_2 | intros f Hf; inversion Hf].
    + intros uid st0 w0 _ Hinv0. by apply favorites_of_user_spec.
  - intros st w' [Hnd _]. by mret.
Qed.

(** C2: whatever the users, the restaurants, the weights and the draws, the
    favorites generated by the script hold no (user, restaurant) pair twice;
    and a pair that is already in [used_pairs] is passed over: nothing is
    emitted for it, no draw is consumed, and no other restaurant is tried
    in its place. *)
Theorem favorites_pairs_unique (restaurant_ids user_ids : list string)
    (popularity : gmap string Q) (w : World) :
  returns (Analytics.generate_favorites restaurant_ids user_ids popularity) w
          (fun favs _ => NoDup (map fav_pair favs)) /\
  (forall uid rid (st : list Favorite * gset (string * string)),
     (uid, rid) ∈ st.2 -> Analytics.one_favorite uid st rid w = Done st w).
Proof.
  split; [apply generate_favorites_spec |].
  intros uid rid st. apply one_favorite_collision.
Qed.

(** ** The analytics script: impressions and uploads *)

Lemma analytics_generate_impressions_returns rids users w :
  returns (Analytics.generate_impressions rids users) w (fun _ _ => True).
Proof.
  unfold Analytics.generate_impressions.
  apply (returns_foldM _ (fun _ _ => True)); [done |].
  intros day imps w0 _ _. unfold Analytics.impressions_of_day.
  apply (returns_foldM _ (fun _ _ => True)); [done |].
  intros idx imps0 w1 _ _. unfold Analytics.impressions_of_epoch.
  apply (returns_foldM _ (fun _ _ => True)); [done |].
  intros section imps1 w2 _ _. unfold Analytics.impressions_of_section. mbind.
  mspec (randint_spec 20 60); [lia |]. intros Hn. mbind.
  mspec (sample_min_spec rids); [lia |]. intros _.
  apply (returns_foldM _ (fun _ _ => True)); [done |].
  intros shown imps2 w3 _ _. unfold Analytics.impressions_of_shown. mbind.
  mspec (randint_spec 2 8); [lia |]. intros _.
  apply (returns_foldM _ (fun _ _ => True)); [done |].
  intros _ imps3 w4 _ _. unfold Analytics.one_impression. mbind.
  mspec analytics_visitor_id. intros _. mbind.
  mspec analytics_random_time. intros _. by mret.
Qed.

Lemma urlopen_post_returns rq w (Q : bool -> World -> Prop) :
  (forall ok w', Q ok w') -> returns (urlopen_post rq) w Q.
Proof. intros H. apply H. Qed.

Lemma analytics_sb_post_returns table rows w :
  returns (Analytics.sb_post table rows) w (fun _ _ => True).
Proof.
  unfold Analytics.sb_post.
  apply (returns_foldM _ (fun _ _ => True)); [done |].
  intros i n w0 _ _. unfold Analytics.post_batch. mbind.
  apply urlopen_post_returns. intros [|] w1; [by mret |].
  mspec fallback_rows_spec. done.
Qed.

Lemma upsert_impressions_returns rows w :
  returns (Analytics.upsert_impressions rows) w (fun _ _ => True).
Proof.
  unfold Analytics.upsert_impressions.
  apply (returns_foldM _ (fun _ _ => True)); [done |].
  intros i n w0 _ _. unfold Analytics.upsert_batch. mbind.
  apply urlopen_post_returns. intros ok w1. by mret.
Qed.

Lemma normalized_weights_covers restaurants pop :
  normalized_weights restaurants pop -> covers restaurants pop.
Proof. by intros [Hdom _]. Qed.

(** What a run of the analytics script over a non-empty snapshot gives. *)
Lemma analytics_main_spec restaurants hh_data menu_data event_data special_data user_ids w :
  restaurants <> [] ->
  returns (Analytics.main restaurants hh_data menu_data event_data special_data user_ids) w
    (fun s _ =>
       (forall pv, pv ∈ Analytics.page_views s -> pv_page_type pv = "happy_hour" ->
                   pv_restaurant_id pv ∈ hh_data) /\
       NoDup (map fav_pair (Analytics.favorites s))).
Proof.
  intros Hne. unfold Analytics.main.
  set (c := Analytics.mkContent _ _ _ _). mbind.
  mspec popularity_model_analytics; [done |].
  intros Hcov%normalized_weights_covers. mbind.
  mspec generate_page_views_spec; [done |]. intros Hg. mbind.
  mspec analytics_sb_post_returns. intros _. mbind.
  mspec analytics_generate_clicks_returns; [done |]. intros _. mbind.
  mspec analytics_sb_post_returns. intros _. mbind.
  mspec generate_favorites_spec. intros Hnd. mbind.
  mspec analytics_sb_post_returns. intros _. mbind.
  mspec analytics_generate_impressions_returns. intros _. mbind.
  mspec upsert_impressions_returns. intros _. mret. simpl.
  split; [| done].
  intros pv Hpv Hty. specialize (Hg pv Hpv Hty). simpl in Hg.
  by apply elem_of_list_to_set in Hg.
Qed.

(** ** The clicks-and-impressions script: generation *)

Lemma NoDup_submseteq_inv {A} (l k : list A) : l ⊆+ k -> NoDup k -> NoDup l.
Proof.
  intros [k' Hk]%submseteq_Permutation Hnd. rewrite Hk in Hnd.
  by apply NoDup_app in Hnd as [? _].
Qed.

Lemma clicks_visitor_id_returns users w :
  returns (ClicksImpressions.generate_visitor_id users) w (fun _ _ => True).
Proof.
  unfold ClicksImpressions.generate_visitor_id. mbind. mspec random_spec. intros _.
  assert (Hanon : forall w0, returns (h ← uuid4_hex12; ret ("anon-" +:+ h)) w0 (fun _ _ => True)).
  { intros w0. mbind. mspec uuid4_hex12_returns. intros _. by mret. }
  destruct (Qlt_le_dec a 0.35); [| apply Hanon].
  destruct users as [|u us]; [apply Hanon |].
  mspec (choice_spec (u :: us)); done.
Qed.

Lemma clicks_random_time_returns d w :
  returns (ClicksImpressions.random_time_in_day d) w (fun _ _ => True).
Proof. mspec (analytics_random_time d). done. Qed.

Lemma clicks_sample_count_returns base w :
  returns (ClicksImpressions.sample_count base) w (fun n _ => 0 <= n <= 8).
Proof.
  unfold ClicksImpressions.sample_count. mbind.
  mspec expovariate_spec.
  { pose proof (py_max_lower base 0.1) as [Hlo _]. apply Qlt_shift_div_l; lra. }
  intros He. mret. pose proof (py_int_nonneg _ He). lia.
Qed.

Lemma clicks_generate_clicks_returns restaurants users pop w :
  covers restaurants pop ->
  returns (ClicksImpressions.generate_clicks restaurants users pop) w (fun _ _ => True).
Proof.
  intros Hcov. unfold ClicksImpressions.generate_clicks.
  apply (returns_foldM _ (fun _ _ => True)); [done |].
  intros day cks w0 _ _. unfold ClicksImpressions.clicks_of_day. mbind.
  mspec uniform_returns. intros _.
  apply (returns_foldM _ (fun _ _ => True)); [done |].
  intros r cks0 w1 Hr _. unfold ClicksImpressions.clicks_of_restaurant. mbind.
  destruct (Hcov r Hr) as [v Hv].
  mspec dict_get_spec; [exact Hv |]. intros _. mbind.
  mspec clicks_sample_count_returns. intros _.
  apply (returns_foldM _ (fun _ _ => True)); [done |].
  intros _ cks1 w2 _ _. unfold ClicksImpressions.one_click. mbind.
  mspec choices1_click_types. intros _. mbind.
  mspec clicks_visitor_id_returns. intros _. mbind.
  mspec clicks_random_time_returns. intros _. by mret.
Qed.

Lemma imp_inv_snoc (st : list Impression * gset (string * string * string * Z))
    (i : Impression) :
  imp_inv st -> imp_key i ∉ st.2 -> imp_inv (st.1 ++ [i], {[imp_key i]} ∪ st.2).
Proof.
  intros [Hnd Hseen] Hnew. split; simpl.
  - rewrite map_app. apply NoDup_app. split; [done |]. split; [| apply NoDup_singleton].
    intros key Hkey Hsingle. apply list_elem_of_singleton in Hsingle.
    apply list_elem_of_fmap in Hkey as [j [-> Hj]].
    apply Hnew. rewrite <- Hsingle. by apply Hseen.
  - intros j Hj. apply elem_of_app in Hj as [Hj | Hj].
    + apply elem_of_union; right. by apply Hseen.
    + apply list_elem_of_singleton in Hj as ->. apply elem_of_union; left.
      by apply elem_of_singleton.
Qed.

Lemma clicks_one_impression_spec (users : list string) (epoch_time epoch_half : Z)
    (section : string) (epoch_seed position : Z) (rid : string)
    (st : list Impression * gset (string * string * string * Z)) (w : World) :
  0 <= epoch_half <= 1 -> imp_inv st ->
  returns (ClicksImpressions.one_impression users epoch_time epoch_half section
             epoch_seed position rid st) w
          (fun st' _ => imp_inv st').
Proof.
  intros Hhalf Hinv. unfold ClicksImpressions.one_impression. mbind.
  mspec clicks_visitor_id_returns. intros _.
  destruct (decide ((rid, section, a, epoch_seed) ∈ st.2)) as [Hin | Hnew]; [by mret |].
  mbind. mspec (randint_spec 0 29); [lia |]. intros Hm. mbind.
  mspec (randint_spec 0 59); [lia |]. intros Hs. mbind.
  unfold dt_replace_ms.
  mspec dt_replace_returns; [apply hour_of_range | lia | lia |]. intros _. mret.
  by apply (imp_inv_snoc st (mkImpression rid section position a epoch_seed a2)).
Qed.

Lemma epoch_hours_range h : h ∈ py_range3 8 24 1 -> 8 <= h <= 23.
Proof.
  unfold py_range3. intros [k [-> Hk]]%list_elem_of_fmap.
  apply elem_of_seq in Hk. change (Z.to_nat ((24 - 8 + 1 - 1) / 1)) with 16%nat in Hk.
  lia.
Qed.

Lemma clicks_impressions_of_half_spec (rids users : list string) (day hr : Z)
    (st : list Impression * gset (string * string * string * Z)) (half : Z)
    (w : World) :
  8 <= hr <= 23 -> 0 <= half <= 1 -> imp_inv st ->
  returns (ClicksImpressions.impressions_of_half rids users day hr st half) w
          (fun st' _ => imp_inv st').
Proof.
  intros Hhr Hhalf Hinv. unfold ClicksImpressions.impressions_of_half. mbind.
  mspec dt_replace_returns; [lia.. |]. intros _.
  apply (returns_foldM _ (fun st' _ => imp_inv st')); [done |].
  intros section st0 w0 _ Hinv0. unfold ClicksImpressions.impressions_of_section. mbind.
  mspec (randint_spec 15 40); [lia |]. intros Hn. mbind.
  mspec (sample_min_spec rids); [lia |]. intros _.
  apply (returns_foldM _ (fun st' _ => imp_inv st')); [done |].
  intros shown st1 w1 _ Hinv1. unfold ClicksImpressions.impressions_of_shown. mbind.
  mspec (randint_spec 1 4); [lia |]. intros _.
  apply (returns_foldM _ (fun st' _ => imp_inv st')); [done |].
  intros _ st2 w2 _ Hinv2. by apply clicks_one_impression_spec.
Qed.

Lemma clicks_generate_impressions_spec rids users w :
  returns (ClicksImpressions.generate_impressions rids users) w
          (fun imps _ => NoDup (map imp_key imps)).
Proof.
  unfold ClicksImpressions.generate_impressions. mbind.
  eapply returns_mono.
  - apply (returns_foldM _ (fun st' _ => imp_inv st')).
    + split; [apply NoDup_nil_2 | intros i Hi; inversion Hi].
    + intros day st0 w0 _ Hinv0. unfold ClicksImpressions.impressions_of_day.
      apply (returns_foldM _ (fun st' _ => imp_inv st')); [done |].
      intros hr st1 w1 Hhr%epoch_hours_range Hinv1.
      unfold ClicksImpressions.impressions_of_hour.
      apply (returns_foldM _ (fun st' _ => imp_inv st')); [done |].
      intros half st2 w2 Hhalf Hinv2.
      apply clicks_impressions_of_half_spec; [done | | done].
      apply elem_of_cons in Hhalf as [-> | Hhalf]; [lia |].
      apply list_elem_of_singleton in Hhalf as ->. lia.
  - intros st w' [Hnd _]. by mret.
Qed.

Lemma cap_impressions_spec imps w :
  returns (ClicksImpressions.cap_impressions imps) w
    (fun out _ =>
       py_len out = Z.min (py_len imps) ClicksImpressions.IMPRESSION_CAP /\
       out ⊆+ imps /\
       (py_len imps <= ClicksImpressions.IMPRESSION_CAP -> out = imps)).
Proof.
  unfold ClicksImpressions.cap_impressions.
  destruct (decide (py_len imps > ClicksImpressions.IMPRESSION_CAP)) as [Hbig | Hsmall].
  - mspec (sample_spec imps).
    { unfold ClicksImpressions.IMPRESSION_CAP in *. lia. }
    intros [Hlen Hsub]. split; [lia |]. split; [done | lia].
  - mret. split; [lia |]. split; [done | done].
Qed.

(** ** Programs that leave the store alone *)

Lemma same_store_refl w : same_store w w.
Proof. by split. Qed.

Lemma same_store_trans w1 w2 w3 : same_store w1 w2 -> same_store w2 w3 -> same_store w1 w3.
Proof. intros [? ?] [? ?]. split; congruence. Qed.

Lemma rng_only_ret {A} (a : A) : rng_only (ret a).
Proof. intros w. apply same_store_refl. Qed.

Lemma rng_only_raise {A} e : rng_only (raise (A:=A) e).
Proof. intros w. apply same_store_refl. Qed.

Lemma rng_only_draw : rng_only draw.
Proof. intros w. by split. Qed.

Lemma rng_only_bind {A B} (m : M A) (f : A -> M B) :
  rng_only m -> (forall a, rng_only (f a)) -> rng_only (bind m f).
Proof.
  intros Hm Hf w. specialize (Hm w). unfold bind.
  destruct (m w) as [a w' | e w']; [| done].
  eapply same_store_trans; [exact Hm | apply Hf].
Qed.

Lemma rng_only_foldM {A B} (f : B -> A -> M B) (l : list A) :
  (forall b a, rng_only (f b a)) -> forall b, rng_only (foldM f l b).
Proof.
  intros Hf. induction l as [|a l IH]; intros b; simpl.
  - apply rng_only_ret.
  - apply rng_only_bind; [apply Hf | apply IH].
Qed.

Lemma rng_only_sample_loop {A} (k : nat) : forall pool : list A, rng_only (sample_loop pool k).
Proof.
  induction k as [|k IH]; intros pool; simpl; [apply rng_only_ret |].
  apply rng_only_bind; [apply rng_only_bind; [apply rng_only_draw | intros; apply rng_only_ret] |].
  intros j. destruct (pool !! Z.to_nat j); [| apply rng_only_raise].
  apply rng_only_bind; [apply IH | intros; apply rng_only_ret].
Qed.

Ltac head_of t := lazymatch t with ?f _ => head_of f | _ => t end.

(** Walks through a program of binds, loops and conditionals down to its
    draws, unfolding the functions it meets. *)
Ltac rng_only_step :=
  lazymatch goal with
  | |- rng_only (ret _) => apply rng_only_ret
  | |- rng_only (raise _) => apply rng_only_raise
  | |- rng_only draw => apply rng_only_draw
  | |- rng_only (sample_loop _ _) => apply rng_only_sample_loop
  | |- rng_only (foldM _ _ _) => apply rng_only_foldM; intros ? ?
  | |- rng_only (bind _ _) => apply rng_only_bind; [| intros ?]
  | |- rng_only (if ?c then _ else _) => destruct c
  | |- rng_only (match ?x with _ => _ end) => destruct x
  | |- rng_only (let x := _ in _) => cbv zeta
  | |- rng_only ?m => let h := head_of m in progress unfold h
  end.

Ltac rng_only_tac := repeat rng_only_step.

Lemma rng_only_returns {A} (m : M A) w (Q : A -> World -> Prop) :
  rng_only m -> returns m w Q -> returns m w (fun a w' => Q a w' /\ same_store w w').
Proof.
  intros Hm. specialize (Hm w). unfold returns.
  destruct (m w); [by split | done].
Qed.

Lemma rng_only_clicks_popularity hh ev restaurants :
  rng_only (ClicksImpressions.popularity_model hh ev restaurants).
Proof. rng_only_tac. Qed.

Lemma rng_only_clicks_generate_clicks restaurants users pop :
  rng_only (ClicksImpressions.generate_clicks restaurants users pop).
Proof. rng_only_tac. Qed.

Lemma rng_only_clicks_generate_impressions rids users :
  rng_only (ClicksImpressions.generate_impressions rids users).
Proof. rng_only_tac. Qed.

Lemma rng_only_cap_impressions imps :
  rng_only (ClicksImpressions.cap_impressions imps).
Proof. rng_only_tac. Qed.

(** ** Batches *)

Lemma concat_chunks {A} (size m : nat) :
  forall xs : list A,
    (length xs <= m * size)%nat ->
    concat (map (fun k => take size (drop (k * size) xs)) (seq 0 m)) = xs.
Proof.
  induction m as [|m IH]; intros xs Hlen; simpl.
  - destruct xs; [done | simpl in Hlen; lia].
  - rewrite <- fmap_S_seq. change (S <$> seq 0 m) with (map S (seq 0 m)).
    rewrite map_map.
    rewrite (map_ext _ (fun k => take size (drop (k * size) (drop size xs)))).
    + rewrite IH; [apply take_drop |]. rewrite length_drop. lia.
    + intros k. by rewrite drop_drop.
Qed.

Lemma batches_of_concat (rows : list Row) : concat (batches_of rows) = rows.
Proof.
  unfold batches_of, py_range3. rewrite map_map.
  rewrite (map_ext _ (fun k => take 500 (drop (k * 500) rows))).
  - apply concat_chunks. unfold py_len.
    pose proof (Z.div_mod (Z.of_nat (length rows) - 0 + 500 - 1) 500).
    pose proof (Z.mod_pos_bound (Z.of_nat (length rows) - 0 + 500 - 1) 500).
    lia.
  - intros k. unfold py_slice. f_equal; [| f_equal]; lia.
Qed.

Lemma batches_of_size (rows batch : list Row) :
  batch ∈ batches_of rows -> py_len batch <= 500.
Proof.
  unfold batches_of. intros [i [-> _]]%list_elem_of_fmap.
  unfold py_len, py_slice. rewrite length_take. lia.
Qed.

Lemma clicks_sb_post_spec table rows w :
  returns (ClicksImpressions.sb_post table rows) w
    (fun _ w' => posted w' = posted w ++ map (batch_request table) (batches_of rows) /\
                 respond w' = respond w).
Proof.
  unfold ClicksImpressions.sb_post, batches_of.
  set (slice := fun i => py_slice rows i (i + 500)).
  apply (returns_foldM_prefix _
           (fun pre _ w' => posted w' = posted w ++ map (batch_request table) (map slice pre) /\
                            respond w' = respond w)
           (py_range3 0 (py_len rows) ClicksImpressions.BATCH) [] 0 w).
  - rewrite app_nil_r. by split.
  - intros pre i n w0 _ [Hlog Hresp].
    unfold ClicksImpressions.post_batch, returns, bind, urlopen_post, ret. simpl.
    rewrite Hlog, !map_app, app_assoc. by split.
Qed.

Lemma clicks_main_spec restaurants hh_data event_data user_ids w :
  restaurants <> [] ->
  returns (ClicksImpressions.main restaurants hh_data event_data user_ids) w
    (fun s w' =>
       NoDup (map imp_key (ClicksImpressions.impressions s)) /\
       py_len (ClicksImpressions.impressions s) <= ClicksImpressions.IMPRESSION_CAP /\
       posted w' = posted w
         ++ map (batch_request "analytics_clicks")
                (batches_of (map RowClick (ClicksImpressions.clicks s)))
         ++ map (batch_request "section_impressions")
                (batches_of (map RowImpression (ClicksImpressions.impressions s)))).
Proof.
  intros Hne. unfold ClicksImpressions.main. mbind.
  eapply returns_mono;
    [apply rng_only_returns;
       [apply rng_only_clicks_popularity | by apply popularity_model_clicks] |].
  cbv beta. intros pop w1 [Hcov%normalized_weights_covers [_ Hlog1]]. mbind.
  eapply returns_mono;
    [apply rng_only_returns;
       [apply rng_only_clicks_generate_clicks
       | by apply clicks_generate_clicks_returns] |].
  cbv beta. intros cks w2 [_ [Hresp2 Hlog2]]. mbind.
  mspec clicks_sb_post_spec. intros [Hlog3 _]. mbind.
  eapply returns_mono;
    [apply rng_only_returns;
       [apply rng_only_clicks_generate_impressions
       | apply clicks_generate_impressions_spec] |].
  cbv beta. intros imps w4 [Hnd [_ Hlog4]]. mbind.
  eapply returns_mono;
    [apply rng_only_returns;
       [apply rng_only_cap_impressions | apply cap_impressions_spec] |].
  cbv beta. intros capped w5 [(Hlen & Hsub & _) [_ Hlog5]]. mbind.
  mspec clicks_sb_post_spec. intros [Hlog6 _]. mret. simpl.
  split; [| split].
  - eapply NoDup_submseteq_inv; [| exact Hnd]. by apply fmap_submseteq.
  - lia.
  - rewrite Hlog6, Hlog5, Hlog4, Hlog3, Hlog2, Hlog1. by rewrite <- app_assoc.
Qed.

(** * The claims *)

Lemma upsert_impressions_spec rows w :
  returns (Analytics.upsert_impressions rows) w
    (fun _ w' => exists new,
       posted w' = posted w ++ new /\
       Forall (fun rq => rq_table rq = "section_impressions" /\
                         rq_ignore_duplicates rq = true) new).
Proof.
  unfold Analytics.upsert_impressions.
  apply (returns_foldM _
           (fun _ w' => exists new,
              posted w' = posted w ++ new /\
              Forall (fun rq => rq_table rq = "section_impressions" /\
                                rq_ignore_duplicates rq = true) new)).
  - exists []. by rewrite app_nil_r.
  - intros i n w0 _ (new & Hlog & Hall).
    unfold Analytics.upsert_batch, returns, bind, urlopen_post, ret. simpl.
    eexists (new ++ [_]). rewrite Hlog, app_assoc. split; [done |].
    apply Forall_app. split; [done |]. by apply Forall_singleton.
Qed.

(** C1, as the code has it.  The clicks-and-impressions script checks every
    key against [seen_keys]: whatever the restaurants, the users and the
    draws, no (restaurant, section, visitor, epoch) key occurs twice among the
    impressions it generates, nor among those left by the cap.  The analytics
    script has no such check; it posts every batch of impressions with
    [resolution=ignore-duplicates] and leaves duplicates to the store. *)
Theorem impression_keys_unique (restaurant_ids user_ids : list string)
    (rows : list Row) (w : World) :
  returns (ClicksImpressions.generate_impressions restaurant_ids user_ids) w
          (fun imps _ => NoDup (map imp_key imps)) /\
  returns (imps ← ClicksImpressions.generate_impressions restaurant_ids user_ids;
           ClicksImpressions.cap_impressions imps) w
          (fun imps _ => NoDup (map imp_key imps)) /\
  returns (Analytics.upsert_impressions rows) w
    (fun _ w' => exists new,
       posted w' = posted w ++ new /\
       Forall (fun rq => rq_table rq = "section_impressions" /\
                         rq_ignore_duplicates rq = true) new).
Proof.
  split; [apply clicks_generate_impressions_spec |].
  split; [| apply upsert_impressions_spec].
  mbind. mspec clicks_generate_impressions_spec. intros Hnd.
  mspec cap_impressions_spec. intros (_ & Hsub & _).
  eapply NoDup_submseteq_inv; [| exact Hnd]. by apply fmap_submseteq.
Qed.

(** The first two impressions of a run of the analytics script over one
    restaurant and one user, with every [random()] equal to 1/2: the same
    anonymous visitor, twice. *)
Lemma analytics_impressions_head :
  match Analytics.generate_impressions ["r1"] ["u1"] (world_of (2 ^ 52) accept_all) with
  | Done (i1 :: i2 :: _) _ =>
      imp_key i1 = ("r1", "featured", "anonymous", 983352) /\
      imp_key i2 = ("r1", "featured", "anonymous", 983352)
  | _ => False
  end.
Proof. vm_compute. by split. Qed.

(** C1 as stated fails for the analytics script: the impressions it
    generates for one restaurant and one user, with every [random()] equal to
    1/2, repeat a key. *)
Lemma analytics_impressions_repeat_keys :
  ~ returns (Analytics.generate_impressions ["r1"] ["u1"])
            (world_of (2 ^ 52) accept_all)
            (fun imps _ => NoDup (map imp_key imps)).
Proof.
  pose proof analytics_impressions_head as Hhead. unfold returns.
  destruct (Analytics.generate_impressions _ _ _) as [[|i1 [|i2 rest]] w'|]; try done.
  destruct Hhead as [Hk1 Hk2]. simpl. rewrite Hk1, Hk2. intros Hnd.
  apply NoDup_cons in Hnd as [Hnotin _]. apply Hnotin. by left.
Qed.

Lemma batches_of_1200 (rows : list Row) :
  py_len rows = 1200 ->
  batches_of rows
  = [py_slice rows 0 500; py_slice rows 500 1000; py_slice rows 1000 1500].
Proof. intros Hlen. unfold batches_of. by rewrite Hlen. Qed.

(** C4, as the code has it.  For 1,200 rows and a fresh log, [sb_post] of
    either script cuts the rows into three batches of 500, 500 and 200 rows.
    The clicks-and-impressions script posts these three batches and nothing
    else, whatever the store answers.  The analytics script, when the store
    rejects the second batch and accepts the other two, posts the 500 rows of
    the second batch one by one right after it, whatever the store answers to
    them, and makes no other request. *)
Theorem sb_post_1200 (table : string) (rows : list Row) (w : World) :
  py_len rows = 1200 ->
  posted w = [] ->
  (py_len (py_slice rows 0 500) = 500 /\
   py_len (py_slice rows 500 1000) = 500 /\
   py_len (py_slice rows 1000 1500) = 200) /\
  returns (ClicksImpressions.sb_post table rows) w
    (fun _ w' =>
       posted w' = [batch_request table (py_slice rows 0 500);
                    batch_request table (py_slice rows 500 1000);
                    batch_request table (py_slice rows 1000 1500)]) /\
  (respond w 0%nat (batch_request table (py_slice rows 0 500)) = true ->
   respond w 1%nat (batch_request table (py_slice rows 500 1000)) = false ->
   respond w 502%nat (batch_request table (py_slice rows 1000 1500)) = true ->
   returns (Analytics.sb_post table rows) w
     (fun inserted w' =>
        posted w' = fallback_trace table rows /\
        map (fun rq => py_len (rq_rows rq)) (posted w')
          = [500; 500] ++ repeat 1 500 ++ [200] /\
        700 <= inserted <= 1200)).
Proof.
  intros Hlen Hlog. split; [| split].
  - unfold py_len, py_slice in *. rewrite !length_take, !length_drop. lia.
  - mspec clicks_sb_post_spec. intros [Hposted _].
    by rewrite Hposted, Hlog, batches_of_1200.
  - by apply analytics_sb_post_1200.
Qed.

Lemma sb_post_1200_witness :
  (py_len (py_slice rows_1200 0 500) = 500 /\
   py_len (py_slice rows_1200 500 1000) = 500 /\
   py_len (py_slice rows_1200 1000 1500) = 200) /\
  returns (ClicksImpressions.sb_post "analytics_clicks" rows_1200)
    (world_of 0 (reject_nth 1))
    (fun _ w' =>
       posted w' = [batch_request "analytics_clicks" (py_slice rows_1200 0 500);
                    batch_request "analytics_clicks" (py_slice rows_1200 500 1000);
                    batch_request "analytics_clicks" (py_slice rows_1200 1000 1500)]) /\
  returns (Analytics.sb_post "analytics_clicks" rows_1200) (world_of 0 (reject_nth 1))
     (fun inserted w' =>
        posted w' = fallback_trace "analytics_clicks" rows_1200 /\
        map (fun rq => py_len (rq_rows rq)) (posted w')
          = [500; 500] ++ repeat 1 500 ++ [200] /\
        700 <= inserted <= 1200).
Proof.
  destruct (sb_post_1200 "analytics_clicks" rows_1200 (world_of 0 (reject_nth 1)))
    as (Hsizes & Hclicks & Hanalytics); [reflexivity | reflexivity |].
  split; [exact Hsizes |]. split; [exact Hclicks |].
  apply Hanalytics; reflexivity.
Defined.

(** C4 as stated fails for [sb_post] of the clicks-and-impressions script:
    with 1,200 rows and a store that rejects exactly the second POST, it makes
    three requests and no row-by-row submission. *)
Lemma clicks_sb_post_has_no_fallback :
  py_len rows_1200 = 1200 /\
  reject_nth 1 1%nat (batch_request "analytics_clicks" (py_slice rows_1200 500 1000))
    = false /\
  returns (ClicksImpressions.sb_post "analytics_clicks" rows_1200)
          (world_of 0 (reject_nth 1))
          (fun inserted w' => length (posted w') = 3%nat /\ inserted = 700) /\
  ~ returns (ClicksImpressions.sb_post "analytics_clicks" rows_1200)
            (world_of 0 (reject_nth 1))
            (fun _ w' => posted w' = fallback_trace "analytics_clicks" rows_1200).
Proof.
  split; [reflexivity |]. split; [reflexivity |]. split.
  - vm_compute. by split.
  - intros Hbad.
    pose proof (returns_and _ _ _ _ Hbad
                  (clicks_sb_post_spec "analytics_clicks" rows_1200
                     (world_of 0 (reject_nth 1)))) as Hboth.
    apply returns_done in Hboth as (n & w' & _ & Htrace & Hlog & _).
    rewrite Hlog in Htrace. apply (f_equal length) in Htrace.
    vm_compute in Htrace. discriminate.
Qed.

(** C6: whatever the snapshot, the content tables, the users, the draws and
    the answers of the store, a run of the analytics script emits no
    happy-hour-tab view for a restaurant that is not in the happy-hour
    table. *)
Theorem no_happy_hour_view_without_flag (restaurants : list Restaurant)
    (hh_data menu_data event_data special_data user_ids : list string)
    (r : Restaurant) (w : World) :
  r ∈ restaurants ->
  r_id r ∉ hh_data ->
  returns (Analytics.main restaurants hh_data menu_data event_data special_data user_ids) w
    (fun s _ => forall pv, pv ∈ Analytics.page_views s ->
                           pv_restaurant_id pv = r_id r ->
                           pv_page_type pv <> "happy_hour").
Proof.
  intros Hr Hflag.
  mspec analytics_main_spec.
  { intros ->. inversion Hr. }
  intros [Hgated _] pv Hpv Hid Hty. apply Hflag. rewrite <- Hid. by apply Hgated.
Qed.

Lemma no_happy_hour_view_without_flag_witness :
  returns (Analytics.main [R1; R2] ["r1"] [] [] [] ["u1"]) (world_of 359 accept_all)
    (fun s _ => forall pv, pv ∈ Analytics.page_views s ->
                           pv_restaurant_id pv = r_id R2 ->
                           pv_page_type pv <> "happy_hour").
Proof.
  apply (no_happy_hour_view_without_flag [R1; R2] ["r1"] [] [] [] ["u1"] R2).
  - right. left.
  - intros Hin. apply list_elem_of_singleton in Hin. discriminate.
Defined.

Lemma max_values_empty w :
  max_values ∅ w = Raised (ValueError "max() arg is an empty sequence") w.
Proof. unfold max_values. by rewrite map_to_list_empty. Qed.

Lemma bind_raised {A B} (m : M A) (f : A -> M B) w e w' :
  m w = Raised e w' -> bind m f w = Raised e w'.
Proof. unfold bind. by intros ->. Qed.

Lemma analytics_main_empty hh_data menu_data event_data special_data user_ids w :
  Analytics.main [] hh_data menu_data event_data special_data user_ids w
  = Raised (ValueError "max() arg is an empty sequence") w.
Proof.
  unfold Analytics.main. apply bind_raised.
  unfold Analytics.popularity_model, Analytics.assign_scores, Analytics.normalize.
  cbn [foldM]. unfold bind at 1. unfold ret at 1. apply bind_raised, max_values_empty.
Qed.

Lemma clicks_main_empty hh_data event_data user_ids w :
  ClicksImpressions.main [] hh_data event_data user_ids w
  = Raised (ValueError "max() arg is an empty sequence") w.
Proof.
  unfold ClicksImpressions.main. apply bind_raised.
  unfold ClicksImpressions.popularity_model, ClicksImpressions.assign_scores,
    ClicksImpressions.normalize.
  cbn [foldM]. unfold bind at 1. unfold ret at 1. apply bind_raised, max_values_empty.
Qed.

(** C7, as the code has it.  With an empty restaurant snapshot either script
    stops at [max(popularity.values())], on the uncaught [ValueError] of
    [max] over an empty sequence, before any draw is made and before
    anything is posted.  With a non-empty snapshot either script runs to its
    end, whatever the user pool (the empty pool included), the draws and the
    answers of the store to the inserts. *)
Theorem run_aborts_only_on_empty_snapshot
    (hh_data menu_data event_data special_data user_ids : list string) (w : World) :
  Analytics.main [] hh_data menu_data event_data special_data user_ids w
    = Raised (ValueError "max() arg is an empty sequence") w /\
  ClicksImpressions.main [] hh_data event_data user_ids w
    = Raised (ValueError "max() arg is an empty sequence") w /\
  (forall r rs,
     returns (Analytics.main (r :: rs) hh_data menu_data event_data special_data user_ids)
             w (fun _ _ => True) /\
     returns (ClicksImpressions.main (r :: rs) hh_data event_data user_ids)
             w (fun _ _ => True)).
Proof.
  split; [apply analytics_main_empty |]. split; [apply clicks_main_empty |].
  intros r rs. split.
  - mspec analytics_main_spec; done.
  - mspec clicks_main_spec; done.
Qed.

(** C7 as stated fails: with one restaurant and an empty user pool, both
    scripts run to their end. *)
Lemma empty_user_pool_is_not_fatal :
  returns (Analytics.main [R1] ["r1"] [] [] [] []) (world_of 359 accept_all)
          (fun _ _ => True) /\
  returns (ClicksImpressions.main [R1] ["r1"] [] []) (world_of 359 accept_all)
          (fun _ _ => True).
Proof.
  split.
  - mspec analytics_main_spec; done.
  - mspec clicks_main_spec; done.
Qed.

(** C9 fails on the code: with one user, one restaurant and draws that give
    [days_ago = 45], [hours = 23] and [minutes = 59], the favorite is dated
    45 days, 23 hours and 59 minutes before [NOW], which is earlier than
    [NOW - 45 days]. *)
Theorem favorite_dated_before_the_45_day_window :
  Analytics.generate_favorites ["r1"] ["u1"] ∅ (world_of 359 accept_all)
    = Done [mkFavorite "u1" "r1" (NOW - timedelta 45 23 59)]
           (mkWorld (constant_tape 359) 5 accept_all []) /\
  NOW - timedelta 45 23 59 < NOW - timedelta 45 0 0.
Proof. split; [by vm_compute | reflexivity]. Qed.

(** C10: the cap leaves a list of at most 200,000 impressions alone and cuts
    a longer one down to exactly 200,000 of its records; and in every run of
    the clicks-and-impressions script over a non-empty snapshot, the rows
    posted to [section_impressions] are the impressions of the summary, cut
    into batches, at most 200,000 rows in all. *)
Theorem impressions_capped :
  (forall imps w,
     returns (ClicksImpressions.cap_impressions imps) w
       (fun out _ =>
          py_len out <= 200000 /\
          out ⊆+ imps /\
          (py_len imps > 200000 -> py_len out = 200000) /\
          (py_len imps <= 200000 -> out = imps))) /\
  (forall r rs hh_data event_data user_ids w,
     returns (ClicksImpressions.main (r :: rs) hh_data event_data user_ids) w
       (fun s w' =>
          py_len (ClicksImpressions.impressions s) <= 200000 /\
          exists click_batches imp_batches,
            posted w' = posted w
              ++ map (batch_request "analytics_clicks") click_batches
              ++ map (batch_request "section_impressions") imp_batches /\
            concat imp_batches = map RowImpression (ClicksImpressions.impressions s) /\
            py_len (concat imp_batches) <= 200000)).
Proof.
  split.
  - intros imps w. mspec cap_impressions_spec.
    unfold ClicksImpressions.IMPRESSION_CAP. intros (Hlen & Hsub & Hsame).
    split; [lia |]. split; [done |]. split; [lia | done].
  - intros r rs hh_data event_data user_ids w.
    mspec clicks_main_spec; [done |].
    unfold ClicksImpressions.IMPRESSION_CAP. intros (_ & Hlen & Hlog).
    split; [done |].
    eexists _, _. split; [exact Hlog |].
    rewrite batches_of_concat. split; [done |].
    unfold py_len in *. by rewrite length_map.
Qed.

(** * More of the two scripts *)

(** ** Visitors and timestamps *)

Lemma hex_digit_in n : hex_digit n ∈ hex_chars.
Proof.
  unfold hex_digit.
  destruct (decide (Z.to_nat n < 16)%nat) as [Hlt | Hge].
  - apply list_elem_of_In, nth_In. simpl. lia.
  - rewrite nth_overflow by (simpl; lia). by left.
Qed.

Lemma hex_digits_spec k :
  forall n suffix,
    String.length (hex_digits k n suffix) = (k + String.length suffix)%nat /\
    (Forall (fun c => c ∈ hex_chars) (list_ascii_of_string suffix) ->
     Forall (fun c => c ∈ hex_chars) (list_ascii_of_string (hex_digits k n suffix))).
Proof.
  induction k as [|k IH]; intros n suffix; simpl; [done |].
  destruct (IH (n / 16) (String (hex_digit (n mod 16)) suffix)) as [Hlen Hall].
  split; [rewrite Hlen; simpl; lia |].
  intros Hs. apply Hall. simpl. constructor; [apply hex_digit_in | done].
Qed.

Lemma uuid4_hex12_spec w :
  returns uuid4_hex12 w
    (fun h _ => String.length h = 12%nat /\
                Forall (fun c => c ∈ hex_chars) (list_ascii_of_string h)).
Proof.
  unfold uuid4_hex12. mbind. apply draw_returns; intros d w'. mret.
  destruct (hex_digits_spec 12 (d_bits d mod 2 ^ 48) "") as [Hlen Hall].
  split; [by rewrite Hlen | apply Hall; constructor].
Qed.

Lemma clicks_visitor_id_spec users w :
  returns (ClicksImpressions.generate_visitor_id users) w
          (fun v _ => device_visitor users v).
Proof.
  unfold ClicksImpressions.generate_visitor_id. mbind. mspec random_spec. intros _.
  assert (Hanon : forall w0, returns (h ← uuid4_hex12; ret ("anon-" +:+ h)) w0
                               (fun v _ => device_visitor users v)).
  { intros w0. mbind. mspec uuid4_hex12_spec. intros [Hlen Hhex]. mret.
    right. by exists a0. }
  destruct (Qlt_le_dec a 0.35); [| apply Hanon].
  destruct users as [|u us]; [apply Hanon |].
  mspec (choice_spec (u :: us)); [done |]. by left.
Qed.

(** X1: a visitor id of the analytics script is the shared token
    ["anonymous"] or a member of the user pool; a visitor id of the
    clicks-and-impressions script is a member of the user pool or [anon-]
    followed by twelve hexadecimal digits.  With an empty pool the first is
    always ["anonymous"] and the second always an [anon-] id. *)
Theorem visitor_ids_wellformed (user_ids : list string) (w : World) :
  returns (Analytics.generate_visitor_id user_ids) w
          (fun v _ => pool_visitor user_ids v) /\
  returns (ClicksImpressions.generate_visitor_id user_ids) w
          (fun v _ => device_visitor user_ids v) /\
  returns (Analytics.generate_visitor_id []) w (fun v _ => v = "anonymous") /\
  returns (ClicksImpressions.generate_visitor_id []) w
          (fun v _ => exists h, v = "anon-" +:+ h /\ String.length h = 12%nat).
Proof.
  split; [apply analytics_visitor_id |]. split; [apply clicks_visitor_id_spec |].
  split.
  - mspec (analytics_visitor_id []). intros [-> | Hin]; [done | inversion Hin].
  - mspec (clicks_visitor_id_spec []). intros [Hin | (h & -> & Hlen & _)].
    + inversion Hin.
    + by exists h.
Qed.

Lemma midnight_multiple d : midnight d = DAY * (d / DAY).
Proof. unfold midnight, DAY. pose proof (Z.div_mod d 86400). lia. Qed.

Lemma midnight_within d t :
  midnight d <= t < midnight d + DAY -> midnight t = midnight d.
Proof.
  rewrite (midnight_multiple d). intros Ht.
  rewrite (midnight_multiple t). f_equal.
  unfold DAY in *. symmetry. apply (Z.div_unique t 86400 (d / 86400) (t - 86400 * (d / 86400)));
    lia.
Qed.

(** X2: whatever the time of day of [day_date], the timestamp drawn by
    [random_time_in_day] is on the same calendar day, in either script. *)
Theorem random_time_stays_in_day (day_date : Z) (w : World) :
  returns (Analytics.random_time_in_day day_date) w
          (fun t _ => midnight t = midnight day_date /\
                      midnight day_date <= t < midnight day_date + DAY) /\
  returns (ClicksImpressions.random_time_in_day day_date) w
          (fun t _ => midnight t = midnight day_date /\
                      midnight day_date <= t < midnight day_date + DAY).
Proof.
  assert (H : returns (Analytics.random_time_in_day day_date) w
                (fun t _ => midnight t = midnight day_date /\
                            midnight day_date <= t < midnight day_date + DAY)).
  { mspec analytics_random_time. intros Ht. split; [by apply midnight_within | done]. }
  split; [exact H | exact H].
Qed.

(** ** The ingestion loops in general *)

Lemma fallback_requests_app store table bs1 :
  forall k bs2,
    fallback_requests store table k (bs1 ++ bs2)
    = fallback_requests store table k bs1
      ++ fallback_requests store table
           (k + length (fallback_requests store table k bs1)) bs2.
Proof.
  induction bs1 as [|b bs1 IH]; intros k bs2; simpl.
  - by rewrite Nat.add_0_r.
  - destruct (store k (batch_request table b)); simpl.
    + rewrite IH. by rewrite Nat.add_succ_r.
    + rewrite IH, <- app_assoc, length_app, length_map.
      by rewrite Nat.add_succ_r, Nat.add_assoc.
Qed.

Lemma accepted_rows_app store mk bs1 :
  forall k bs2,
    accepted_rows store mk k (bs1 ++ bs2)
    = accepted_rows store mk k bs1 + accepted_rows store mk (k + length bs1) bs2.
Proof.
  induction bs1 as [|b bs1 IH]; intros k bs2; simpl.
  - by rewrite Nat.add_0_r.
  - rewrite IH. replace (S k + length bs1)%nat with (k + S (length bs1))%nat by lia. lia.
Qed.

Lemma accepted_rows_bounds store mk bs :
  forall k, 0 <= accepted_rows store mk k bs <= py_len (concat bs).
Proof.
  induction bs as [|b bs IH]; intros k; simpl; [unfold py_len; simpl; lia |].
  specialize (IH (S k)). unfold py_len in *. rewrite length_app.
  destruct (store k (mk b)); lia.
Qed.

Lemma accepted_rows_all store mk bs :
  (forall k rq, store k rq = true) ->
  forall k, accepted_rows store mk k bs = py_len (concat bs).
Proof.
  intros Hall. induction bs as [|b bs IH]; intros k; simpl; [done |].
  rewrite Hall, IH. unfold py_len. rewrite length_app. lia.
Qed.

Lemma py_len_concat_snoc {A} (bs : list (list A)) (b : list A) :
  py_len (concat (bs ++ [b])) = py_len (concat bs) + py_len b.
Proof. unfold py_len. rewrite concat_app, length_app. simpl. rewrite app_nil_r. lia. Qed.

(** A loop that posts each batch once and counts the accepted ones. *)
Lemma one_request_per_batch (mk : list Row -> Request) (rows : list Row) w :
  returns
    (foldM (fun inserted i =>
              ok ← urlopen_post (mk (py_slice rows i (i + 500)));
              ret (if ok then inserted + py_len (py_slice rows i (i + 500))
                   else inserted))
           (py_range3 0 (py_len rows) 500) 0) w
    (fun n w' =>
       posted w' = posted w ++ map mk (batches_of rows) /\
       respond w' = respond w /\
       n = accepted_rows (respond w) mk (length (posted w)) (batches_of rows)).
Proof.
  unfold batches_of. set (slice := fun i => py_slice rows i (i + 500)).
  apply (returns_foldM_prefix _
           (fun pre n w' =>
              posted w' = posted w ++ map mk (map slice pre) /\
              respond w' = respond w /\
              n = accepted_rows (respond w) mk (length (posted w)) (map slice pre))
           (py_range3 0 (py_len rows) 500) [] 0 w).
  - rewrite app_nil_r. by repeat split.
  - intros pre i n w0 _ (Hlog & Hresp & Hn).
    unfold returns, bind, urlopen_post, ret. simpl.
    rewrite Hlog, Hresp, !map_app, app_assoc. split; [done |]. split; [done |].
    rewrite accepted_rows_app. simpl.
    rewrite length_app, !length_map, <- Hn. fold (slice i).
    destruct (respond w _ _); lia.
Qed.

Lemma analytics_sb_post_batches table rows w :
  returns (Analytics.sb_post table rows) w
    (fun inserted w' =>
       posted w' = posted w
         ++ fallback_requests (respond w) table (length (posted w)) (batches_of rows) /\
       respond w' = respond w /\
       0 <= inserted <= py_len (concat (batches_of rows)) /\
       ((forall k rq, respond w k rq = true) ->
        inserted = py_len (concat (batches_of rows)))).
Proof.
  unfold Analytics.sb_post, batches_of. set (slice := fun i => py_slice rows i (i + 500)).
  apply (returns_foldM_prefix _
           (fun pre n w' =>
              posted w' = posted w
                ++ fallback_requests (respond w) table (length (posted w)) (map slice pre) /\
              respond w' = respond w /\
              0 <= n <= py_len (concat (map slice pre)) /\
              ((forall k rq, respond w k rq = true) -> n = py_len (concat (map slice pre))))
           (py_range3 0 (py_len rows) Analytics.BATCH) [] 0 w).
  - rewrite app_nil_r. by repeat split.
  - intros pre i n w0 _ (Hlog & Hresp & Hn & Hall).
    assert (Hpos : (length (posted w)
                    + length (fallback_requests (respond w) table (length (posted w))
                                (map slice pre)))%nat = length (posted w0)).
    { by rewrite Hlog, length_app. }
    cbv beta. rewrite map_app. cbn [map].
    rewrite py_len_concat_snoc, fallback_requests_app, Hpos. cbn [fallback_requests].
    destruct (respond w (length (posted w0)) (batch_request table (slice i))) eqn:Hans.
    + mspec post_batch_accepted; [by rewrite Hresp |].
      intros (Hlog' & Hresp' & ->). fold (slice i) in *.
      rewrite Hlog', Hlog, <- app_assoc. split; [done |]. split; [congruence |].
      split; [unfold py_len in *; lia |]. intros Hyes. rewrite (Hall Hyes). done.
    + mspec post_batch_rejected; [by rewrite Hresp |].
      intros (Hlog' & Hresp' & Hn'). fold (slice i) in *.
      rewrite Hlog', Hlog, <- app_assoc. rewrite app_nil_r.
      split; [done |]. split; [congruence |].
      split; [unfold py_len in *; lia |]. intros Hyes. by rewrite Hyes in Hans.
Qed.

Lemma analytics_sb_post_trace table rows w :
  returns (Analytics.sb_post table rows) w
    (fun inserted w' =>
       posted w' = posted w
         ++ fallback_requests (respond w) table (length (posted w)) (batches_of rows) /\
       respond w' = respond w /\
       0 <= inserted <= py_len rows /\
       ((forall k rq, respond w k rq = true) -> inserted = py_len rows)).
Proof.
  mspec analytics_sb_post_batches. by rewrite batches_of_concat.
Qed.

Lemma batches_of_nonempty (rows batch : list Row) :
  batch ∈ batches_of rows -> 1 <= py_len batch <= 500.
Proof.
  intros Hb. split; [| by eapply batches_of_size].
  unfold batches_of, py_range3 in Hb.
  apply list_elem_of_fmap in Hb as [i [-> Hi]].
  apply list_elem_of_fmap in Hi as [k [-> Hk]].
  apply elem_of_seq in Hk.
  unfold py_len, py_slice in *. rewrite length_take, length_drop.
  pose proof (Z.div_mod (Z.of_nat (length rows) - 0 + 500 - 1) 500).
  pose proof (Z.mod_pos_bound (Z.of_nat (length rows) - 0 + 500 - 1) 500).
  lia.
Qed.

Lemma fallback_requests_all_accepted store table batches :
  (forall k rq, store k rq = true) ->
  forall k, fallback_requests store table k batches = map (batch_request table) batches.
Proof.
  intros Hall. induction batches as [|b bs IH]; intros k; simpl; [done |].
  by rewrite Hall, IH.
Qed.

Lemma fallback_requests_elem store table batches :
  forall k rq,
    rq ∈ fallback_requests store table k batches ->
    exists b, b ∈ batches /\
      (rq = batch_request table b \/ exists row, row ∈ b /\ rq = row_request table row).
Proof.
  induction batches as [|b bs IH]; intros k rq Hrq; simpl in Hrq; [inversion Hrq |].
  destruct (store k (batch_request table b)).
  - apply elem_of_cons in Hrq as [-> | Hrq].
    + exists b. split; [by left | by left].
    + destruct (IH _ _ Hrq) as (b' & Hb' & H). exists b'. split; [by right | done].
  - apply elem_of_cons in Hrq as [-> | Hrq].
    + exists b. split; [by left | by left].
    + apply elem_of_app in Hrq as [Hrq | Hrq].
      * apply list_elem_of_fmap in Hrq as [row [-> Hrow]].
        exists b. split; [by left |]. right. by exists row.
      * destruct (IH _ _ Hrq) as (b' & Hb' & H). exists b'. split; [by right | done].
Qed.

Lemma fallback_requests_batches store table batches :
  forall k b, b ∈ batches -> batch_request table b ∈ fallback_requests store table k batches.
Proof.
  induction batches as [|b0 bs IH]; intros k b Hb; [inversion Hb |]. simpl.
  apply elem_of_cons in Hb as [-> | Hb].
  - destruct (store k _); by left.
  - destruct (store k _); right; [by apply IH |].
    apply elem_of_app; right. by apply IH.
Qed.

Lemma elem_of_batches_of (rows : list Row) row :
  row ∈ rows -> exists b, b ∈ batches_of rows /\ row ∈ b.
Proof.
  rewrite <- (batches_of_concat rows) at 1.
  intros Hrow. apply list_elem_of_In, in_concat in Hrow as (b & Hb & Hin).
  exists b. by rewrite !list_elem_of_In.
Qed.

(** X3: [sb_post] of the analytics script, for any rows and any store.  The
    rows are cut into consecutive batches of 1 to 500 rows; each batch is
    posted once, and a rejected batch is followed by one POST per row of that
    batch, before the next batch.  Every request goes to the given table
    without the duplicate-tolerant mode, and carries between 1 and 500
    rows. *)
Theorem analytics_sb_post_requests (table : string) (rows : list Row) (w : World) :
  concat (batches_of rows) = rows /\
  returns (Analytics.sb_post table rows) w
    (fun _ w' =>
       posted w' = posted w
         ++ fallback_requests (respond w) table (length (posted w)) (batches_of rows) /\
       forall rq,
         rq ∈ fallback_requests (respond w) table (length (posted w)) (batches_of rows) ->
         rq_table rq = table /\ rq_ignore_duplicates rq = false /\
         1 <= py_len (rq_rows rq) <= 500).
Proof.
  split; [apply batches_of_concat |].
  mspec analytics_sb_post_trace. intros (Hlog & _). split; [done |].
  intros rq Hrq. apply fallback_requests_elem in Hrq as (b & Hb & [-> | (row & _ & ->)]).
  - repeat split; try done; by apply (batches_of_nonempty rows).
  - repeat split; done.
Qed.

(** X4: whatever the store answers, every row handed to one of the three
    ingestion loops ([sb_post] of either script, the impression upload of the
    analytics script) is sent to the store in at least one request, and the
    count a loop returns is between 0 and the number of rows. *)
Theorem every_row_is_submitted (table : string) (rows : list Row) (w : World) :
  returns (Analytics.sb_post table rows) w
    (fun inserted w' =>
       0 <= inserted <= py_len rows /\
       exists new, posted w' = posted w ++ new /\
         forall row, row ∈ rows -> exists rq, rq ∈ new /\ row ∈ rq_rows rq) /\
  returns (ClicksImpressions.sb_post table rows) w
    (fun inserted w' =>
       0 <= inserted <= py_len rows /\
       exists new, posted w' = posted w ++ new /\
         forall row, row ∈ rows -> exists rq, rq ∈ new /\ row ∈ rq_rows rq) /\
  returns (Analytics.upsert_impressions rows) w
    (fun inserted w' =>
       0 <= inserted <= py_len rows /\
       exists new, posted w' = posted w ++ new /\
         forall row, row ∈ rows -> exists rq, rq ∈ new /\ row ∈ rq_rows rq).
Proof.
  assert (Hsimple : forall mk : list Row -> Request,
            (forall b, rq_rows (mk b) = b) ->
            forall n w',
              posted w' = posted w ++ map mk (batches_of rows) /\
              respond w' = respond w /\
              n = accepted_rows (respond w) mk (length (posted w)) (batches_of rows) ->
              0 <= n <= py_len rows /\
              exists new, posted w' = posted w ++ new /\
                forall row, row ∈ rows -> exists rq, rq ∈ new /\ row ∈ rq_rows rq).
  { intros mk Hmk n w' (Hlog & _ & ->). split.
    - pose proof (accepted_rows_bounds (respond w) mk (batches_of rows) (length (posted w))).
      by rewrite batches_of_concat in *.
    - eexists. split; [exact Hlog |]. intros row [b [Hb Hrow]]%elem_of_batches_of.
      exists (mk b). split; [by apply list_elem_of_fmap_2 | by rewrite Hmk]. }
  split; [| split].
  - mspec analytics_sb_post_trace. intros (Hlog & _ & Hn & _). split; [done |].
    eexists. split; [exact Hlog |]. intros row [b [Hb Hrow]]%elem_of_batches_of.
    exists (batch_request table b). split; [by apply fallback_requests_batches | done].
  - mspec (one_request_per_batch (batch_request table)). by apply Hsimple.
  - mspec (one_request_per_batch upsert_request). by apply Hsimple.
Qed.

(** X5: when the store accepts every request, each of the three ingestion
    loops posts exactly the batches, in order, and returns the number of
    rows. *)
Theorem accepting_store_takes_every_row (table : string) (rows : list Row) (w : World) :
  (forall k rq, respond w k rq = true) ->
  returns (Analytics.sb_post table rows) w
    (fun inserted w' =>
       inserted = py_len rows /\
       posted w' = posted w ++ map (batch_request table) (batches_of rows)) /\
  returns (ClicksImpressions.sb_post table rows) w
    (fun inserted w' =>
       inserted = py_len rows /\
       posted w' = posted w ++ map (batch_request table) (batches_of rows)) /\
  returns (Analytics.upsert_impressions rows) w
    (fun inserted w' =>
       inserted = py_len rows /\
       posted w' = posted w ++ map upsert_request (batches_of rows)).
Proof.
  intros Hall. split; [| split].
  - mspec analytics_sb_post_trace. intros (Hlog & _ & _ & Hn). split; [by apply Hn |].
    by rewrite Hlog, fallback_requests_all_accepted.
  - mspec (one_request_per_batch (batch_request table)). intros (Hlog & _ & ->).
    split; [| done]. by rewrite accepted_rows_all, batches_of_concat.
  - mspec (one_request_per_batch upsert_request). intros (Hlog & _ & ->).
    split; [| done]. by rewrite accepted_rows_all, batches_of_concat.
Qed.

Lemma accepting_store_takes_every_row_witness :
  returns (Analytics.sb_post "favorites" rows_1200) (world_of 0 accept_all)
    (fun inserted w' =>
       inserted = py_len rows_1200 /\
       posted w' = posted (world_of 0 accept_all)
                     ++ map (batch_request "favorites") (batches_of rows_1200)) /\
  returns (ClicksImpressions.sb_post "favorites" rows_1200) (world_of 0 accept_all)
    (fun inserted w' =>
       inserted = py_len rows_1200 /\
       posted w' = posted (world_of 0 accept_all)
                     ++ map (batch_request "favorites") (batches_of rows_1200)) /\
  returns (Analytics.upsert_impressions rows_1200) (world_of 0 accept_all)
    (fun inserted w' =>
       inserted = py_len rows_1200 /\
       posted w' = posted (world_of 0 accept_all)
                     ++ map upsert_request (batches_of rows_1200)).
Proof.
  apply (accepting_store_takes_every_row "favorites" rows_1200 (world_of 0 accept_all)).
  reflexivity.
Defined.

(** X6: [sb_post] of the clicks-and-impressions script and the impression
    upload of the analytics script make exactly one request per batch,
    whatever the answers; the count they return is the number of rows of the
    batches the store accepted, so the rows of a rejected batch are neither
    counted nor sent again. *)
Theorem rejected_batches_are_dropped (table : string) (rows : list Row) (w : World) :
  returns (ClicksImpressions.sb_post table rows) w
    (fun inserted w' =>
       posted w' = posted w ++ map (batch_request table) (batches_of rows) /\
       inserted = accepted_rows (respond w) (batch_request table)
                    (length (posted w)) (batches_of rows)) /\
  returns (Analytics.upsert_impressions rows) w
    (fun inserted w' =>
       posted w' = posted w ++ map upsert_request (batches_of rows) /\
       inserted = accepted_rows (respond w) upsert_request
                    (length (posted w)) (batches_of rows)).
Proof.
  split.
  - mspec (one_request_per_batch (batch_request table)). by intros (Hlog & _ & ->).
  - mspec (one_request_per_batch upsert_request). by intros (Hlog & _ & ->).
Qed.

(** ** The records of the analytics script *)

Lemma py_range_elem n k : k ∈ py_range n -> 0 <= k < n.
Proof.
  unfold py_range. intros [i [-> Hi]]%list_elem_of_fmap.
  apply elem_of_seq in Hi. lia.
Qed.

Lemma midnight_add_days d k : midnight (d + k * DAY) = midnight d + k * DAY.
Proof.
  rewrite !midnight_multiple. unfold DAY.
  rewrite Z.div_add by lia. lia.
Qed.

Lemma day_within_window (first days k t : Z) :
  0 <= k < days ->
  midnight (first + timedelta k 0 0) <= t < midnight (first + timedelta k 0 0) + DAY ->
  within_days first days t.
Proof.
  unfold within_days, timedelta. intros Hk.
  replace (first + (k * DAY + 0 * 3600 + 0 * 60)) with (first + k * DAY) by lia.
  rewrite midnight_add_days. unfold DAY. nia.
Qed.

Lemma enumerate_elem {A} (xs : list A) pos x :
  (pos, x) ∈ enumerate xs -> 0 <= pos < py_len xs /\ x ∈ xs.
Proof.
  unfold enumerate. intros Hin. split.
  - apply elem_of_zip_l in Hin. by apply py_range_elem.
  - by apply elem_of_zip_r in Hin.
Qed.

Lemma sample_min_spec_len {A} (population : list A) n w :
  0 <= n ->
  returns (sample population (Z.min n (py_len population))) w
          (fun xs _ => xs ⊆+ population /\ py_len xs = Z.min n (py_len population)).
Proof.
  intros Hn. mspec (sample_spec population).
  { unfold py_len. lia. }
  by intros [Hlen Hsub].
Qed.

Lemma has_base_view_mono pvs l pv : has_base_view pvs pv -> has_base_view (pvs ++ l) pv.
Proof.
  intros (b & Hb & H). exists b. split; [apply elem_of_app; by left | done].
Qed.

Lemma views_inv_snoc c ids users pvs pv :
  views_inv c ids users pvs ->
  view_wf c ids users pv ->
  has_base_view (pvs ++ [pv]) pv ->
  views_inv c ids users (pvs ++ [pv]).
Proof.
  intros [Hwf Hbase] Hpv Hb. split.
  - apply Forall_app. split; [done | by apply Forall_singleton].
  - intros x Hx. apply elem_of_app in Hx as [Hx | Hx].
    + by apply has_base_view_mono, Hbase.
    + by apply list_elem_of_singleton in Hx as ->.
Qed.

Lemma one_view_inv c ids users d rid pvs w :
  views_inv c ids users pvs ->
  rid ∈ ids ->
  (forall t, midnight d <= t < midnight d + DAY ->
             within_days START_DATE BACKFILL_DAYS t) ->
  returns (Analytics.one_view c users d rid pvs) w
          (fun pvs' _ => views_inv c ids users pvs').
Proof.
  intros Hinv Hrid Hday. unfold Analytics.one_view. mbind.
  mspec analytics_visitor_id. intros Hv. mbind.
  mspec analytics_random_time. intros Ht%Hday.
  set (base := Analytics.mk_view "restaurant" "/mobile/restaurantdetail/" rid a a0).
  assert (Hstart : views_inv c ids users (pvs ++ [base]) /\ base ∈ pvs ++ [base]).
  { split; [| apply elem_of_app; right; by left].
    apply views_inv_snoc; [done | |].
    - split; [done |]. split; [done |]. split; [done |]. split; [exact Ht |]. by left.
    - exists base. split; [apply elem_of_app; right; by left | done]. }
  assert (Htab : forall l ty path,
            views_inv c ids users l /\ base ∈ l ->
            view_shape c (Analytics.mk_view ty path rid a a0) ->
            views_inv c ids users (l ++ [Analytics.mk_view ty path rid a a0]) /\
            base ∈ l ++ [Analytics.mk_view ty path rid a a0]).
  { intros l ty path [Hl Hb] Hshape. split; [| apply elem_of_app; by left].
    apply views_inv_snoc; [done | |].
    - split; [done |]. split; [done |]. split; [done |]. split; [exact Ht | done].
    - exists base. split; [apply elem_of_app; by left | done]. }
  mbind.
  mspec (tab_view_spec (fun l => views_inv c ids users l /\ base ∈ l)); [exact Hstart | |].
  { intros Hflag. apply Htab; [done |]. right; left. by repeat split. }
  intros H1. mbind.
  mspec (tab_view_spec (fun l => views_inv c ids users l /\ base ∈ l)); [exact H1 | |].
  { intros Hflag. apply Htab; [done |]. right; right; left. by repeat split. }
  intros H2.
  mspec (tab_view_spec (fun l => views_inv c ids users l /\ base ∈ l)); [exact H2 | |].
  { intros Hflag. apply Htab; [done |]. right; right; right. by repeat split. }
  by intros [H3 _].
Qed.

Lemma generate_page_views_inv c restaurants users pop w :
  covers restaurants pop ->
  returns (Analytics.generate_page_views c restaurants users pop) w
          (fun pvs _ => views_inv c (map r_id restaurants) users pvs).
Proof.
  intros Hcov. unfold Analytics.generate_page_views.
  apply (returns_foldM _ (fun pvs _ => views_inv c (map r_id restaurants) users pvs)).
  { split; [constructor | intros pv Hpv; inversion Hpv]. }
  intros day pvs0 w0 Hday%py_range_elem Hinv0. unfold Analytics.views_of_day. mbind.
  mspec uniform_returns. intros _.
  apply (returns_foldM _ (fun pvs _ => views_inv c (map r_id restaurants) users pvs));
    [done |].
  intros r pvs1 w1 Hr Hinv1. unfold Analytics.views_of_restaurant. mbind.
  destruct (Hcov r Hr) as [v Hv].
  mspec dict_get_spec; [exact Hv |]. intros _. mbind.
  mspec analytics_sample_count_returns. intros _.
  apply (returns_foldM _ (fun pvs _ => views_inv c (map r_id restaurants) users pvs));
    [done |].
  intros _ pvs2 w2 _ Hinv2. apply one_view_inv; [done | by apply list_elem_of_fmap_2 |].
  intros t Ht. by apply (day_within_window START_DATE BACKFILL_DAYS day).
Qed.

Lemma analytics_generate_clicks_wf restaurants users pop w :
  covers restaurants pop ->
  returns (Analytics.generate_clicks restaurants users pop) w
          (fun cks _ => Forall (click_wf (pool_visitor users) (map r_id restaurants)) cks).
Proof.
  intros Hcov. unfold Analytics.generate_clicks.
  set (P := Forall (click_wf (pool_visitor users) (map r_id restaurants))).
  apply (returns_foldM _ (fun cks _ => P cks)); [constructor |].
  intros day cks w0 Hday%py_range_elem Hcks. unfold Analytics.clicks_of_day. mbind.
  mspec uniform_returns. intros _.
  apply (returns_foldM _ (fun cks _ => P cks)); [done |].
  intros r cks0 w1 Hr Hcks0. unfold Analytics.clicks_of_restaurant. mbind.
  destruct (Hcov r Hr) as [v Hv].
  mspec dict_get_spec; [exact Hv |]. intros _. mbind.
  mspec analytics_sample_count_returns. intros _.
  apply (returns_foldM _ (fun cks _ => P cks)); [done |].
  intros _ cks1 w2 _ Hcks1. unfold Analytics.one_click. mbind.
  mspec choices1_click_types. intros Hty. mbind.
  mspec analytics_visitor_id. intros Hvis. mbind.
  mspec analytics_random_time. intros Ht. mret.
  apply Forall_app. split; [done |]. apply Forall_singleton.
  split; [by apply (list_elem_of_fmap_2 r_id) |]. split; [done |]. split; [done |].
  by apply (day_within_window START_DATE BACKFILL_DAYS day).
Qed.

Lemma insert_desc_perm {A} (key : A -> Q) (x : A) (l : list A) :
  insert_desc key x l ≡ₚ x :: l.
Proof.
  induction l as [|y l IH]; simpl; [done |].
  destruct (Qlt_le_dec (key x) (key y)); [| done].
  rewrite IH. apply Permutation_swap.
Qed.

Lemma sort_desc_perm {A} (key : A -> Q) (l : list A) : sort_desc key l ≡ₚ l.
Proof.
  unfold sort_desc. induction l as [|x l IH]; simpl; [done |].
  by rewrite insert_desc_perm, IH.
Qed.

Lemma py_slice_elem {A} (xs : list A) i j x : x ∈ py_slice xs i j -> x ∈ xs.
Proof.
  unfold py_slice. intros Hx.
  eapply elem_of_submseteq; [exact Hx |].
  etrans; [apply submseteq_take | apply submseteq_drop].
Qed.

Lemma timedelta_days k : timedelta k 0 0 = k * DAY.
Proof. unfold timedelta. lia. Qed.

Lemma generate_favorites_wf rids uids pop w :
  returns (Analytics.generate_favorites rids uids pop) w
          (fun favs _ => Forall (favorite_wf rids uids) favs).
Proof.
  unfold Analytics.generate_favorites. mbind.
  eapply returns_mono.
  - apply (returns_foldM _ (fun st _ => Forall (favorite_wf rids uids) st.1));
      [constructor |].
    intros uid st0 w0 Huid Hwf0. unfold Analytics.favorites_of_user. mbind.
    mspec (randint_spec 8 30); [lia |]. intros Hn. mbind.
    mspec (sample_min_spec rids); [lia |]. intros Hsub.
    apply (returns_foldM _ (fun st _ => Forall (favorite_wf rids uids) st.1)); [done |].
    intros rid st1 w1 Hrid Hwf1. unfold Analytics.one_favorite.
    destruct (decide ((uid, rid) ∈ st1.2)); [by mret |].
    mbind. mspec favorite_date_spec. intros Hdate. mret. simpl.
    apply Forall_app. split; [done |]. apply Forall_singleton.
    split; [done |]. split; [| done]. simpl.
    apply py_slice_elem in Hrid. rewrite sort_desc_perm in Hrid.
    by eapply elem_of_submseteq.
  - intros st w' Hwf. by mret.
Qed.

Lemma analytics_generate_impressions_wf rids users w :
  returns (Analytics.generate_impressions rids users) w
          (fun imps _ => Forall (analytics_impression_wf rids users) imps).
Proof.
  unfold Analytics.generate_impressions.
  set (P := Forall (analytics_impression_wf rids users)).
  apply (returns_foldM _ (fun imps _ => P imps)); [constructor |].
  intros day imps w0 Hday%py_range_elem Himps. unfold Analytics.impressions_of_day.
  rewrite timedelta_days.
  apply (returns_foldM _ (fun imps _ => P imps)); [done |].
  intros idx imps0 w1 Hidx%py_range_elem Himps0. unfold Analytics.impressions_of_epoch.
  apply (returns_foldM _ (fun imps _ => P imps)); [done |].
  intros section imps1 w2 Hsec Himps1. unfold Analytics.impressions_of_section. mbind.
  mspec (randint_spec 20 60); [lia |]. intros Hn. mbind.
  mspec (sample_min_spec_len rids); [lia |]. intros [Hsub Hlen].
  apply (returns_foldM _ (fun imps _ => P imps)); [done |].
  intros [pos rid] imps2 w3 [Hpos Hrid]%enumerate_elem Himps2.
  unfold Analytics.impressions_of_shown. mbind.
  mspec (randint_spec 2 8); [lia |]. intros _.
  apply (returns_foldM _ (fun imps _ => P imps)); [done |].
  intros _ imps3 w4 _ Himps3. unfold Analytics.one_impression. mbind.
  mspec analytics_visitor_id. intros Hvis. mbind.
  mspec analytics_random_time. intros Ht. mret.
  apply Forall_app. split; [done |]. apply Forall_singleton.
  split; [by eapply elem_of_submseteq |]. split; [done |]. split; [done |].
  split; [simpl; lia |].
  exists day, idx. split; [done |]. split; [done |]. split; [done |].
  unfold within_days. simpl. lia.
Qed.

(** Everything the analytics script generates, for a non-empty snapshot. *)
Lemma analytics_main_records restaurants hh_data menu_data event_data special_data
    user_ids w :
  restaurants <> [] ->
  returns (Analytics.main restaurants hh_data menu_data event_data special_data user_ids) w
    (fun s _ =>
       views_inv (content_of hh_data menu_data event_data special_data)
                 (map r_id restaurants) user_ids (Analytics.page_views s) /\
       Forall (click_wf (pool_visitor user_ids) (map r_id restaurants))
              (Analytics.clicks s) /\
       Forall (favorite_wf (map r_id restaurants) user_ids) (Analytics.favorites s) /\
       Forall (analytics_impression_wf (map r_id restaurants) user_ids)
              (Analytics.impressions s)).
Proof.
  intros Hne. unfold Analytics.main. mbind.
  mspec popularity_model_analytics; [done |].
  intros Hcov%normalized_weights_covers. mbind.
  mspec generate_page_views_inv; [done |]. intros Hviews. mbind.
  mspec analytics_sb_post_returns. intros _. mbind.
  mspec analytics_generate_clicks_wf; [done |]. intros Hclicks. mbind.
  mspec analytics_sb_post_returns. intros _. mbind.
  mspec generate_favorites_wf. intros Hfavs. mbind.
  mspec analytics_sb_post_returns. intros _. mbind.
  mspec analytics_generate_impressions_wf. intros Himps. mbind.
  mspec upsert_impressions_returns. intros _. by mret.
Qed.

(** X7: in a run of the analytics script every page view has the fixed user
    agent and one of four shapes: a main view, or a happy-hour, menu or
    events tab view, each with the path of its type; a menu view is only
    emitted for a restaurant of the menu table and an events view only for a
    restaurant of the events table (and a happy-hour view only for a
    restaurant of the happy-hour table). *)
Theorem page_views_are_shaped_and_gated (r : Restaurant) (rs : list Restaurant)
    (hh_data menu_data event_data special_data user_ids : list string) (w : World) :
  returns (Analytics.main (r :: rs) hh_data menu_data event_data special_data user_ids) w
    (fun s _ => forall pv, pv ∈ Analytics.page_views s ->
       pv_user_agent pv = "TasteLanc-Mobile/ios" /\
       ((pv_page_type pv = "restaurant" /\
         pv_page_path pv = "/mobile/restaurantdetail/" +:+ pv_restaurant_id pv) \/
        (pv_page_type pv = "happy_hour" /\
         pv_page_path pv = "/mobile/restauranthappyhours/" +:+ pv_restaurant_id pv /\
         pv_restaurant_id pv ∈ hh_data) \/
        (pv_page_type pv = "menu" /\
         pv_page_path pv = "/mobile/restaurantmenu/" +:+ pv_restaurant_id pv /\
         pv_restaurant_id pv ∈ menu_data) \/
        (pv_page_type pv = "events" /\
         pv_page_path pv = "/mobile/restaurantevents/" +:+ pv_restaurant_id pv /\
         pv_restaurant_id pv ∈ event_data))).
Proof.
  mspec analytics_main_records; [done |]. intros ([Hwf _] & _) pv Hpv.
  rewrite Forall_forall in Hwf. destruct (Hwf pv Hpv) as (_ & _ & Hua & _ & Hshape).
  split; [done |]. unfold view_shape, content_of in Hshape. simpl in Hshape.
  rewrite !elem_of_list_to_set in Hshape. exact Hshape.
Qed.

(** X8: in a run of the analytics script every page view, a tab view in
    particular, comes with a main restaurant view of the same restaurant, the
    same visitor and the same timestamp. *)
Theorem tab_views_share_the_base_view (r : Restaurant) (rs : list Restaurant)
    (hh_data menu_data event_data special_data user_ids : list string) (w : World) :
  returns (Analytics.main (r :: rs) hh_data menu_data event_data special_data user_ids) w
    (fun s _ => forall pv, pv ∈ Analytics.page_views s ->
       exists b, b ∈ Analytics.page_views s /\
                 pv_page_type b = "restaurant" /\
                 pv_restaurant_id b = pv_restaurant_id pv /\
                 pv_visitor_id b = pv_visitor_id pv /\
                 pv_viewed_at b = pv_viewed_at pv).
Proof.
  mspec analytics_main_records; [done |]. intros ([_ Hbase] & _) pv Hpv.
  by apply Hbase.
Qed.

(** X9: in a run of the analytics script every record refers to a
    restaurant of the snapshot; every visitor is ["anonymous"] or a user of
    the pool; every favorite belongs to a user of the pool; every click type
    is one of the eight configured types and every section one of the nine
    configured sections. *)
Theorem analytics_records_refer_to_inputs (r : Restaurant) (rs : list Restaurant)
    (hh_data menu_data event_data special_data user_ids : list string) (w : World) :
  returns (Analytics.main (r :: rs) hh_data menu_data event_data special_data user_ids) w
    (fun s _ =>
       (forall pv, pv ∈ Analytics.page_views s ->
          pv_restaurant_id pv ∈ map r_id (r :: rs) /\
          (pv_visitor_id pv = "anonymous" \/ pv_visitor_id pv ∈ user_ids)) /\
       (forall ck, ck ∈ Analytics.clicks s ->
          ck_restaurant_id ck ∈ map r_id (r :: rs) /\
          (ck_visitor_id ck = "anonymous" \/ ck_visitor_id ck ∈ user_ids) /\
          ck_click_type ck ∈ CLICK_TYPES) /\
       (forall f, f ∈ Analytics.favorites s ->
          fav_restaurant_id f ∈ map r_id (r :: rs) /\ fav_user_id f ∈ user_ids) /\
       (forall i, i ∈ Analytics.impressions s ->
          imp_restaurant_id i ∈ map r_id (r :: rs) /\
          (imp_visitor_id i = "anonymous" \/ imp_visitor_id i ∈ user_ids) /\
          imp_section_name i ∈ SECTIONS)).
Proof.
  mspec analytics_main_records; [done |].
  unfold views_inv. rewrite !Forall_forall. intros ([Hv _] & Hc & Hf & Hi).
  split; [| split; [| split]].
  - intros pv Hpv. by destruct (Hv pv Hpv) as (? & ? & _).
  - intros ck Hck. by destruct (Hc ck Hck) as (? & ? & ? & _).
  - intros f Hfav. by destruct (Hf f Hfav) as (? & ? & _).
  - intros i Himp. by destruct (Hi i Himp) as (? & ? & ? & _).
Qed.

(** X10: the dates of a run of the analytics script.  Page views and clicks
    are stamped from 00:00 of the day of [START_DATE] to just before 00:00 of
    the day of [NOW], so none is on the day of [NOW] itself.  A favorite is
    dated between 45 days 23 hours 59 minutes and exactly 1 day before [NOW].
    An impression is stamped on one of the seven days that end with the day of
    [NOW], up to its last second, which is after [NOW]. *)
Theorem analytics_record_dates (r : Restaurant) (rs : list Restaurant)
    (hh_data menu_data event_data special_data user_ids : list string) (w : World) :
  returns (Analytics.main (r :: rs) hh_data menu_data event_data special_data user_ids) w
    (fun s _ =>
       (forall pv, pv ∈ Analytics.page_views s ->
          midnight START_DATE <= pv_viewed_at pv < midnight NOW) /\
       (forall ck, ck ∈ Analytics.clicks s ->
          midnight START_DATE <= ck_clicked_at ck < midnight NOW) /\
       (forall f, f ∈ Analytics.favorites s ->
          NOW - timedelta 45 23 59 <= fav_created_at f <= NOW - timedelta 1 0 0) /\
       (forall i, i ∈ Analytics.impressions s ->
          midnight (NOW - timedelta 6 0 0) <= imp_impressed_at i < midnight NOW + DAY)).
Proof.
  mspec analytics_main_records; [done |].
  unfold views_inv. rewrite !Forall_forall. intros ([Hv _] & Hc & Hf & Hi).
  assert (Hwin : midnight START_DATE + BACKFILL_DAYS * DAY = midnight NOW) by reflexivity.
  split; [| split; [| split]].
  - intros pv Hpv. destruct (Hv pv Hpv) as (_ & _ & _ & Ht & _).
    unfold within_days in Ht. by rewrite Hwin in Ht.
  - intros ck Hck. destruct (Hc ck Hck) as (_ & _ & _ & Ht).
    unfold within_days in Ht. by rewrite Hwin in Ht.
  - intros f Hfav. by destruct (Hf f Hfav) as (_ & _ & ?).
  - intros i Himp. destruct (Hi i Himp) as (_ & _ & _ & _ & day & idx & Hday & _ & _ & Ht).
    unfold within_days in Ht.
    replace (NOW - (6 - day) * DAY) with (NOW + (day - 6) * DAY) in Ht by lia.
    rewrite midnight_add_days in Ht. rewrite timedelta_days.
    replace (NOW - 6 * DAY) with (NOW + (-6) * DAY) by lia.
    rewrite midnight_add_days. unfold DAY in *. lia.
Qed.

(** X11: in a run of the analytics script the position of an impression is
    its rank in the sample of shown restaurants: it is at least 0, below 60,
    and below the number of restaurants; its epoch is one of the eight epochs
    counted from noon of one of the last seven days. *)
Theorem analytics_impression_positions (r : Restaurant) (rs : list Restaurant)
    (hh_data menu_data event_data special_data user_ids : list string) (w : World) :
  returns (Analytics.main (r :: rs) hh_data menu_data event_data special_data user_ids) w
    (fun s _ => forall i, i ∈ Analytics.impressions s ->
       0 <= imp_position_index i < Z.min 60 (py_len (r :: rs)) /\
       exists day idx, 0 <= day < 7 /\ 0 <= idx < 8 /\
         imp_epoch_seed i = NOW / 1800 - 48 * (6 - day) + idx).
Proof.
  mspec analytics_main_records; [done |].
  rewrite !Forall_forall. intros (_ & _ & _ & Hi) i Himp.
  destruct (Hi i Himp) as (_ & _ & _ & Hpos & day & idx & Hday & Hidx & Hep & _).
  split; [unfold py_len in *; rewrite length_map in Hpos; lia |].
  exists day, idx. split; [done |]. split; [done |]. rewrite Hep.
  replace (NOW - (6 - day) * DAY) with (NOW + (- (48 * (6 - day))) * 1800)
    by (unfold DAY; lia).
  rewrite Z.div_add by lia. lia.
Qed.

(** X12: with an empty user pool a run of the analytics script generates no
    favorite, and every visitor of its page views, clicks and impressions is
    ["anonymous"]. *)
Theorem analytics_without_users (r : Restaurant) (rs : list Restaurant)
    (hh_data menu_data event_data special_data : list string) (w : World) :
  returns (Analytics.main (r :: rs) hh_data menu_data event_data special_data []) w
    (fun s _ =>
       Analytics.favorites s = [] /\
       (forall pv, pv ∈ Analytics.page_views s -> pv_visitor_id pv = "anonymous") /\
       (forall ck, ck ∈ Analytics.clicks s -> ck_visitor_id ck = "anonymous") /\
       (forall i, i ∈ Analytics.impressions s -> imp_visitor_id i = "anonymous")).
Proof.
  mspec analytics_main_records; [done |].
  unfold views_inv. rewrite !Forall_forall. intros ([Hv _] & Hc & Hf & Hi).
  assert (Hpool : forall v, pool_visitor [] v -> v = "anonymous").
  { intros v [-> | Hin]; [done | inversion Hin]. }
  split; [| split; [| split]].
  - destruct (Analytics.favorites a) as [|f fs]; [done |].
    destruct (Hf f) as (Hin & _); [by left | inversion Hin].
  - intros pv Hpv. apply Hpool. by destruct (Hv pv Hpv) as (_ & ? & _).
  - intros ck Hck. apply Hpool. by destruct (Hc ck Hck) as (_ & ? & _).
  - intros i Himp. apply Hpool. by destruct (Hi i Himp) as (_ & _ & ? & _).
Qed.

(** ** The records of the clicks-and-impressions script *)

Lemma midnight_mod d : midnight d mod DAY = 0.
Proof. rewrite midnight_multiple. unfold DAY. by rewrite Z.mul_comm, Z_mod_mult. Qed.

Lemma midnight_offset d x : 0 <= x < DAY -> midnight (midnight d + x) = midnight d.
Proof.
  intros Hx. apply midnight_within. lia.
Qed.

Lemma hour_of_offset d x : 0 <= x < DAY -> hour_of (midnight d + x) = x / 3600.
Proof.
  intros Hx. unfold hour_of. f_equal.
  rewrite midnight_multiple. unfold DAY in *.
  rewrite Z.add_comm, Z.mul_comm, Z_mod_plus_full. by apply Z.mod_small.
Qed.

(** The timestamp [epoch_time.replace(minute=half * 30 + m, second=s)] lies
    in the 30-minute epoch that starts at [epoch_time]. *)
Lemma stamp_within_epoch d hr half m s :
  0 <= hr <= 23 -> 0 <= half <= 1 -> 0 <= m <= 29 -> 0 <= s <= 59 ->
  let epoch_time := midnight d + hr * 3600 + half * 30 * 60 + 0 in
  let ts := midnight epoch_time + hour_of epoch_time * 3600 + (half * 30 + m) * 60 + s in
  ts = epoch_time + m * 60 + s /\ ts / 1800 = epoch_time / 1800.
Proof.
  intros Hhr Hhalf Hm Hs epoch_time ts.
  assert (Hoff : 0 <= hr * 3600 + half * 30 * 60 < DAY) by (unfold DAY; lia).
  assert (Hep : epoch_time = midnight d + (hr * 3600 + half * 30 * 60))
    by (unfold epoch_time; lia).
  assert (Hts : ts = epoch_time + m * 60 + s).
  { unfold ts. rewrite Hep, midnight_offset, hour_of_offset by done.
    assert ((hr * 3600 + half * 30 * 60) / 3600 = hr) as ->; [| lia].
    symmetry. apply (Z.div_unique _ 3600 hr (half * 30 * 60)); lia. }
  split; [done |]. rewrite Hts, Hep, (midnight_multiple d). unfold DAY.
  set (q := d / 86400).
  assert (H1 : (86400 * q + (hr * 3600 + half * 30 * 60)) / 1800 = 48 * q + 2 * hr + half).
  { symmetry. apply (Z.div_unique _ 1800 _ 0); lia. }
  rewrite H1. symmetry.
  apply (Z.div_unique _ 1800 _ (m * 60 + s)); lia.
Qed.

Lemma clicks_generate_impressions_wf rids users w :
  returns (ClicksImpressions.generate_impressions rids users) w
          (fun imps _ => Forall (clicks_impression_wf rids users) imps).
Proof.
  unfold ClicksImpressions.generate_impressions. mbind.
  set (P := fun st : list Impression * gset (string * string * string * Z) =>
              Forall (clicks_impression_wf rids users) st.1).
  eapply returns_mono; [| intros st w' Hst; mret; exact Hst].
  apply (returns_foldM _ (fun st _ => P st)); [constructor |].
  intros day st0 w0 Hday%py_range_elem Hst0. unfold ClicksImpressions.impressions_of_day.
  rewrite timedelta_days.
  apply (returns_foldM _ (fun st _ => P st)); [done |].
  intros hr st1 w1 Hhr%epoch_hours_range Hst1. unfold ClicksImpressions.impressions_of_hour.
  apply (returns_foldM _ (fun st _ => P st)); [done |].
  intros half st2 w2 Hhalf Hst2.
  assert (Hhalf' : 0 <= half <= 1).
  { apply elem_of_cons in Hhalf as [-> | Hhalf]; [lia |].
    apply list_elem_of_singleton in Hhalf as ->. lia. }
  unfold ClicksImpressions.impressions_of_half. mbind.
  mspec dt_replace_returns; [lia.. |]. intros Hepoch.
  apply (returns_foldM _ (fun st _ => P st)); [done |].
  intros section st3 w3 Hsec Hst3. unfold ClicksImpressions.impressions_of_section. mbind.
  mspec (randint_spec 15 40); [lia |]. intros Hn. mbind.
  mspec (sample_min_spec_len rids); [lia |]. intros [Hsub Hlen].
  apply (returns_foldM _ (fun st _ => P st)); [done |].
  intros [pos rid] st4 w4 [Hpos Hrid]%enumerate_elem Hst4.
  unfold ClicksImpressions.impressions_of_shown. mbind.
  mspec (randint_spec 1 4); [lia |]. intros _.
  apply (returns_foldM _ (fun st _ => P st)); [done |].
  intros _ st5 w5 _ Hst5. unfold ClicksImpressions.one_impression. mbind.
  eapply returns_mono; [apply clicks_visitor_id_spec |].
  cbv beta. intros visitor w6 Hvis. simpl.
  match goal with |- context [decide ?p] => destruct (decide p) end; [by mret |].
  mbind. eapply returns_mono; [apply (randint_spec 0 29); lia |].
  cbv beta. intros minute w7 Hm. mbind.
  eapply returns_mono; [apply (randint_spec 0 59); lia |].
  cbv beta. intros second w8 Hs. mbind.
  unfold dt_replace_ms.
  eapply returns_mono; [apply dt_replace_returns; [apply hour_of_range | lia | lia] |].
  cbv beta. intros ts w9 Hts. mret.
  unfold P. simpl. apply Forall_app. split; [exact Hst5 |]. apply Forall_singleton.
  destruct (stamp_within_epoch (NOW - (6 - day) * DAY) hr half minute second)
    as [Hstamp Hbucket]; [lia.. |].
  rewrite <- Hepoch in Hstamp, Hbucket. rewrite <- Hts in Hstamp, Hbucket.
  split; [by eapply elem_of_submseteq |]. split; [done |]. split; [done |].
  split; [simpl; lia |]. split; [done |].
  exists day. split; [done |]. simpl. rewrite Hstamp, Hepoch. unfold DAY. lia.
Qed.

Lemma clicks_generate_clicks_wf restaurants users pop w :
  covers restaurants pop ->
  returns (ClicksImpressions.generate_clicks restaurants users pop) w
          (fun cks _ => Forall (click_wf (device_visitor users) (map r_id restaurants)) cks).
Proof.
  intros Hcov. unfold ClicksImpressions.generate_clicks.
  set (P := Forall (click_wf (device_visitor users) (map r_id restaurants))).
  apply (returns_foldM _ (fun cks _ => P cks)); [constructor |].
  intros day cks w0 Hday%py_range_elem Hcks. unfold ClicksImpressions.clicks_of_day. mbind.
  mspec uniform_returns. intros _.
  apply (returns_foldM _ (fun cks _ => P cks)); [done |].
  intros r cks0 w1 Hr Hcks0. unfold ClicksImpressions.clicks_of_restaurant. mbind.
  destruct (Hcov r Hr) as [v Hv].
  mspec dict_get_spec; [exact Hv |]. intros _. mbind.
  mspec clicks_sample_count_returns. intros _.
  apply (returns_foldM _ (fun cks _ => P cks)); [done |].
  intros _ cks1 w2 _ Hcks1. unfold ClicksImpressions.one_click. mbind.
  mspec choices1_click_types. intros Hty. mbind.
  mspec clicks_visitor_id_spec. intros Hvis. mbind.
  mspec (analytics_random_time (START_DATE + timedelta day 0 0)). intros Ht. mret.
  apply Forall_app. split; [done |]. apply Forall_singleton.
  split; [by apply (list_elem_of_fmap_2 r_id) |]. split; [done |]. split; [done |].
  by apply (day_within_window START_DATE BACKFILL_DAYS day).
Qed.

(** Everything the clicks-and-impressions script generates, for a non-empty
    snapshot. *)
Lemma clicks_main_records restaurants hh_data event_data user_ids w :
  restaurants <> [] ->
  returns (ClicksImpressions.main restaurants hh_data event_data user_ids) w
    (fun s _ =>
       Forall (click_wf (device_visitor user_ids) (map r_id restaurants))
              (ClicksImpressions.clicks s) /\
       Forall (clicks_impression_wf (map r_id restaurants) user_ids)
              (ClicksImpressions.impressions s)).
Proof.
  intros Hne. unfold ClicksImpressions.main. mbind.
  mspec popularity_model_clicks; [done |].
  intros Hcov%normalized_weights_covers. mbind.
  mspec clicks_generate_clicks_wf; [done |]. intros Hcks. mbind.
  mspec clicks_sb_post_spec. intros _. mbind.
  mspec clicks_generate_impressions_wf. intros Himps. mbind.
  mspec cap_impressions_spec. intros (_ & Hsub & _). mbind.
  mspec clicks_sb_post_spec. intros _. mret. simpl. split; [done |].
  rewrite Forall_forall in *. intros i Hi. apply Himps. by eapply elem_of_submseteq.
Qed.

(** X13: in a run of the clicks-and-impressions script every impression is
    stamped inside its own 30-minute epoch ([impressed_at // 1800] is its
    [epoch_seed]), between 08:00 and midnight of one of the seven days that
    end with the day of [NOW]; it refers to a restaurant of the snapshot and
    to one of the nine sections; its position is at least 0, below 40 and
    below the number of restaurants; and its visitor is a user of the pool or
    an [anon-] id. *)
Theorem clicks_impressions_wellformed (r : Restaurant) (rs : list Restaurant)
    (hh_data event_data user_ids : list string) (w : World) :
  returns (ClicksImpressions.main (r :: rs) hh_data event_data user_ids) w
    (fun s _ => forall i, i ∈ ClicksImpressions.impressions s ->
       imp_impressed_at i / 1800 = imp_epoch_seed i /\
       (exists day, 0 <= day < 7 /\
          midnight (NOW - (6 - day) * DAY) + 8 * 3600 <= imp_impressed_at i
            < midnight (NOW - (6 - day) * DAY) + DAY) /\
       imp_restaurant_id i ∈ map r_id (r :: rs) /\
       imp_section_name i ∈ SECTIONS /\
       0 <= imp_position_index i < Z.min 40 (py_len (r :: rs)) /\
       device_visitor user_ids (imp_visitor_id i)).
Proof.
  mspec clicks_main_records; [done |].
  rewrite !Forall_forall. intros [_ Hi] i Himp.
  destruct (Hi i Himp) as (Hrid & Hsec & Hvis & Hpos & Hbucket & Hday).
  repeat (split; [done |]). split; [| done].
  unfold py_len in *. rewrite length_map in Hpos. lia.
Qed.

(** X14: in a run of the clicks-and-impressions script every click refers
    to a restaurant of the snapshot, has one of the eight configured click
    types, a visitor that is a user of the pool or an [anon-] id, and a
    timestamp from 00:00 of the day of [START_DATE] to just before 00:00 of
    the day of [NOW]. *)
Theorem clicks_clicks_wellformed (r : Restaurant) (rs : list Restaurant)
    (hh_data event_data user_ids : list string) (w : World) :
  returns (ClicksImpressions.main (r :: rs) hh_data event_data user_ids) w
    (fun s _ => forall ck, ck ∈ ClicksImpressions.clicks s ->
       ck_restaurant_id ck ∈ map r_id (r :: rs) /\
       ck_click_type ck ∈ CLICK_TYPES /\
       device_visitor user_ids (ck_visitor_id ck) /\
       midnight START_DATE <= ck_clicked_at ck < midnight NOW).
Proof.
  mspec clicks_main_records; [done |].
  rewrite !Forall_forall. intros [Hc _] ck Hck.
  destruct (Hc ck Hck) as (Hrid & Hvis & Hty & Ht).
  repeat (split; [done |]).
  assert (Hwin : midnight START_DATE + BACKFILL_DAYS * DAY = midnight NOW) by reflexivity.
  unfold within_days in Ht. by rewrite Hwin in Ht.
Qed.

(** ** How many records *)

(** A loop whose every step adds between [lo] and [hi] to a measure adds
    between [lo] and [hi] times the number of steps. *)
Lemma returns_foldM_measure {A S} (f : S -> A -> M S) (size : S -> Z) (lo hi : Z)
    (l : list A) (s : S) w :
  (forall a s0 w0, a ∈ l ->
     returns (f s0 a) w0 (fun s' _ => lo <= size s' - size s0 <= hi)) ->
  returns (foldM f l s) w
          (fun s' _ => lo * py_len l <= size s' - size s <= hi * py_len l).
Proof.
  intros Hstep.
  eapply returns_mono.
  - apply (returns_foldM_prefix f
             (fun pre s' _ => lo * py_len pre <= size s' - size s <= hi * py_len pre)
             l [] s w).
    + unfold py_len. simpl. lia.
    + intros pre a s0 w0 Ha Hs0. mspec (Hstep a s0 w0 Ha). intros Hs'.
      unfold py_len in *. rewrite length_app. simpl. lia.
  - done.
Qed.

Lemma py_range_length n : 0 <= n -> py_len (py_range n) = n.
Proof. intros Hn. unfold py_len, py_range. rewrite length_map, length_seq. lia. Qed.

Lemma enumerate_length {A} (xs : list A) : py_len (enumerate xs) = py_len xs.
Proof.
  unfold enumerate, py_len, py_range.
  rewrite length_zip_with, length_map, length_seq. lia.
Qed.

Lemma analytics_generate_impressions_count rids users w :
  returns (Analytics.generate_impressions rids users) w
    (fun imps _ =>
       1008 * Z.min 20 (py_len rids) <= py_len imps <= 4032 * Z.min 60 (py_len rids)).
Proof.
  set (n := py_len rids). assert (Hn0 : 0 <= n) by (unfold n, py_len; lia).
  unfold Analytics.generate_impressions.
  mspec (returns_foldM_measure (Analytics.impressions_of_day rids users)
           (fun imps : list Impression => py_len imps)
           (144 * Z.min 20 n) (576 * Z.min 60 n)).
  { intros day imps0 w0 _. unfold Analytics.impressions_of_day.
    mspec (returns_foldM_measure
             (Analytics.impressions_of_epoch rids users (NOW - timedelta (6 - day) 0 0))
             (fun imps : list Impression => py_len imps)
             (18 * Z.min 20 n) (72 * Z.min 60 n)).
    { intros idx imps1 w1 _. unfold Analytics.impressions_of_epoch.
      mspec (returns_foldM_measure
               (Analytics.impressions_of_section rids users
                  (NOW - timedelta (6 - day) 0 0)
                  ((NOW - timedelta (6 - day) 0 0) / 1800 + idx))
               (fun imps : list Impression => py_len imps)
               (2 * Z.min 20 n) (8 * Z.min 60 n)).
      { intros section imps2 w2 _. unfold Analytics.impressions_of_section. mbind.
        mspec (randint_spec 20 60); [lia |]. intros Hshown. mbind.
        mspec (sample_min_spec_len rids); [lia |]. intros [_ Hlen].
        eapply returns_mono.
        - apply (returns_foldM_measure _ (fun imps : list Impression => py_len imps) 2 8).
          intros shown imps3 w3 _. unfold Analytics.impressions_of_shown. mbind.
          mspec (randint_spec 2 8); [lia |]. intros Hviewers.
          eapply returns_mono.
          + apply (returns_foldM_measure _ (fun imps : list Impression => py_len imps) 1 1).
            intros _ imps4 w4 _. unfold Analytics.one_impression. mbind.
            mspec analytics_visitor_id. intros _. mbind.
            mspec analytics_random_time. intros _. mret.
            unfold py_len. rewrite length_app. simpl. lia.
          + cbv beta. intros imps5 _. rewrite py_range_length by lia. lia.
        - cbv beta. intros imps6 _. rewrite enumerate_length, Hlen. fold n. nia. }
      change (py_len SECTIONS) with 9. lia. }
    rewrite py_range_length by lia. lia. }
  rewrite py_range_length by lia. change (py_len (@nil Impression)) with 0. lia.
Qed.

Lemma clicks_generate_impressions_count rids users w :
  returns (ClicksImpressions.generate_impressions rids users) w
    (fun imps _ => py_len imps <= 8064 * Z.min 40 (py_len rids)).
Proof.
  set (n := py_len rids). assert (Hn0 : 0 <= n) by (unfold n, py_len; lia).
  set (size := fun st : list Impression * gset (string * string * string * Z) =>
                 py_len st.1).
  unfold ClicksImpressions.generate_impressions. mbind.
  mspec (returns_foldM_measure (ClicksImpressions.impressions_of_day rids users)
           size 0 (1152 * Z.min 40 n)).
  { intros day st0 w0 _. unfold ClicksImpressions.impressions_of_day.
    mspec (returns_foldM_measure
             (ClicksImpressions.impressions_of_hour rids users
                (NOW - timedelta (6 - day) 0 0))
             size 0 (72 * Z.min 40 n)).
    { intros hr st1 w1 Hhr%epoch_hours_range. unfold ClicksImpressions.impressions_of_hour.
      mspec (returns_foldM_measure
               (ClicksImpressions.impressions_of_half rids users
                  (NOW - timedelta (6 - day) 0 0) hr)
               size 0 (36 * Z.min 40 n)).
      { intros half st2 w2 Hhalf.
        assert (Hhalf' : 0 <= half <= 1).
        { apply elem_of_cons in Hhalf as [-> | Hhalf]; [lia |].
          apply list_elem_of_singleton in Hhalf as ->. lia. }
        unfold ClicksImpressions.impressions_of_half. mbind.
        mspec dt_replace_returns; [lia.. |]. intros _.
        mspec (returns_foldM_measure
                 (ClicksImpressions.impressions_of_section rids users a half (a / 1800))
                 size 0 (4 * Z.min 40 n)).
        { intros section st3 w3 _. unfold ClicksImpressions.impressions_of_section. mbind.
          mspec (randint_spec 15 40); [lia |]. intros Hshown. mbind.
          mspec (sample_min_spec_len rids); [lia |]. intros [_ Hlen].
          eapply returns_mono.
          - apply (returns_foldM_measure _ size 0 4).
            intros shown st4 w4 _. unfold ClicksImpressions.impressions_of_shown. mbind.
            mspec (randint_spec 1 4); [lia |]. intros Hviewers.
            eapply returns_mono.
            + apply (returns_foldM_measure _ size 0 1).
              intros _ st5 w5 _. unfold ClicksImpressions.one_impression. mbind.
              mspec clicks_visitor_id_returns. intros _.
              match goal with |- context [decide ?p] => destruct (decide p) end.
              { mret. lia. }
              mbind. mspec (randint_spec 0 29); [lia |]. intros Hm. mbind.
              mspec (randint_spec 0 59); [lia |]. intros Hs. mbind.
              unfold dt_replace_ms.
              mspec dt_replace_returns; [apply hour_of_range | lia | lia |]. intros _.
              mret. unfold size, py_len. simpl. rewrite length_app. simpl. lia.
            + cbv beta. intros st6 _. rewrite py_range_length by lia. lia.
          - cbv beta. intros st7 _. rewrite enumerate_length, Hlen. fold n. nia. }
        change (py_len SECTIONS) with 9. lia. }
      change (py_len [0; 1]) with 2. lia. }
    match goal with
    | |- context [py_len ?l] =>
        let v := eval vm_compute in (py_len l) in change (py_len l) with v
    end.
    lia. }
  intros Hsize. mret. rewrite py_range_length in Hsize by lia.
  unfold size, py_len in *. simpl in Hsize. fold n. lia.
Qed.

Lemma clicks_generate_clicks_count restaurants users pop w :
  covers restaurants pop ->
  returns (ClicksImpressions.generate_clicks restaurants users pop) w
          (fun cks _ => py_len cks <= 8 * BACKFILL_DAYS * py_len restaurants).
Proof.
  intros Hcov. unfold ClicksImpressions.generate_clicks.
  assert (Hn0 : 0 <= py_len restaurants) by (unfold py_len; lia).
  mspec (returns_foldM_measure (ClicksImpressions.clicks_of_day restaurants users pop)
           (fun cks : list Click => py_len cks) 0 (8 * py_len restaurants)).
  { intros day cks0 w0 _. unfold ClicksImpressions.clicks_of_day. mbind.
    mspec uniform_returns. intros _.
    mspec (returns_foldM_measure
             (ClicksImpressions.clicks_of_restaurant users pop
                (START_DATE + timedelta day 0 0)
                (if decide (weekday (START_DATE + timedelta day 0 0) >= 4)
                 then 1.3%Q else 1.0%Q)
                (growth_mult BACKFILL_DAYS day) a)
             (fun cks : list Click => py_len cks) 0 8).
    { intros r cks1 w1 Hr. unfold ClicksImpressions.clicks_of_restaurant. mbind.
      destruct (Hcov r Hr) as [v Hv].
      mspec dict_get_spec; [exact Hv |]. intros _. mbind.
      mspec clicks_sample_count_returns. intros Hnum.
      eapply returns_mono.
      - apply (returns_foldM_measure _ (fun cks : list Click => py_len cks) 1 1).
        intros _ cks2 w2 _. unfold ClicksImpressions.one_click. mbind.
        mspec choices1_click_types. intros _. mbind.
        mspec clicks_visitor_id_returns. intros _. mbind.
        mspec clicks_random_time_returns. intros _. mret.
        unfold py_len. rewrite length_app. simpl. lia.
      - cbv beta. intros cks3 _. rewrite py_range_length by lia. lia. }
    lia. }
  rewrite py_range_length by (unfold BACKFILL_DAYS; lia).
  change (py_len (@nil Click)) with 0. lia.
Qed.

(** The sizes of what a run of the clicks-and-impressions script keeps. *)
Lemma clicks_main_counts restaurants hh_data event_data user_ids w :
  restaurants <> [] ->
  returns (ClicksImpressions.main restaurants hh_data event_data user_ids) w
    (fun s _ =>
       py_len (ClicksImpressions.clicks s) <= 8 * BACKFILL_DAYS * py_len restaurants /\
       py_len (ClicksImpressions.impressions s)
         <= Z.min ClicksImpressions.IMPRESSION_CAP (8064 * Z.min 40 (py_len restaurants))).
Proof.
  intros Hne. unfold ClicksImpressions.main. mbind.
  mspec popularity_model_clicks; [done |].
  intros Hcov%normalized_weights_covers. mbind.
  mspec clicks_generate_clicks_count; [done |]. intros Hcks. mbind.
  mspec clicks_sb_post_spec. intros _. mbind.
  mspec clicks_generate_impressions_count. intros Himps. mbind.
  mspec cap_impressions_spec. intros (Hlen & _ & _). mbind.
  mspec clicks_sb_post_spec. intros _. mret. simpl. split; [done |].
  unfold py_len in Himps. rewrite length_map in Himps. unfold py_len in *. lia.
Qed.

Lemma rng_only_analytics_popularity c restaurants :
  rng_only (Analytics.popularity_model c restaurants).
Proof. rng_only_tac. Qed.

Lemma rng_only_analytics_page_views c restaurants users pop :
  rng_only (Analytics.generate_page_views c restaurants users pop).
Proof. rng_only_tac. Qed.

Lemma rng_only_analytics_clicks restaurants users pop :
  rng_only (Analytics.generate_clicks restaurants users pop).
Proof. rng_only_tac. Qed.

Lemma rng_only_analytics_favorites rids users pop :
  rng_only (Analytics.generate_favorites rids users pop).
Proof. rng_only_tac. Qed.

Lemma rng_only_analytics_impressions rids users :
  rng_only (Analytics.generate_impressions rids users).
Proof. rng_only_tac. Qed.

(** A generator of the analytics script, run between two uploads: it
    returns what its specification says and leaves the store and the log
    alone. *)
Lemma returns_framed {A} (m : M A) w (Q : A -> World -> Prop) :
  rng_only m -> returns m w Q ->
  returns m w (fun a w' => Q a w' /\ respond w' = respond w /\ posted w' = posted w).
Proof.
  intros Hm Hret. eapply returns_mono; [by apply rng_only_returns |].
  cbv beta. by intros a w' [HQ [Hr Hp]].
Qed.

(** The uploads of a run of the analytics script over a non-empty
    snapshot, and the size of its impression list. *)
Lemma analytics_main_upload restaurants hh_data menu_data event_data special_data
    user_ids w :
  restaurants <> [] ->
  returns (Analytics.main restaurants hh_data menu_data event_data special_data user_ids) w
    (fun s w' =>
       let store := respond w in
       let views := fallback_requests store "analytics_page_views" (length (posted w))
                      (batches_of (map RowView (Analytics.page_views s))) in
       let clicks := fallback_requests store "analytics_clicks"
                       (length (posted w ++ views))
                       (batches_of (map RowClick (Analytics.clicks s))) in
       let favs := fallback_requests store "favorites"
                     (length (posted w ++ views ++ clicks))
                     (batches_of (map RowFavorite (Analytics.favorites s))) in
       let imps := map upsert_request
                     (batches_of (map RowImpression (Analytics.impressions s))) in
       posted w' = posted w ++ views ++ clicks ++ favs ++ imps /\
       0 <= Analytics.page_views_inserted s <= py_len (Analytics.page_views s) /\
       0 <= Analytics.clicks_inserted s <= py_len (Analytics.clicks s) /\
       0 <= Analytics.favorites_inserted s <= py_len (Analytics.favorites s) /\
       Analytics.imp_inserted s
         = accepted_rows store upsert_request
             (length (posted w ++ views ++ clicks ++ favs))
             (batches_of (map RowImpression (Analytics.impressions s))) /\
       1008 * Z.min 20 (py_len restaurants) <= py_len (Analytics.impressions s)
         <= 4032 * Z.min 60 (py_len restaurants)).
Proof.
  intros Hne. unfold Analytics.main. mbind.
  eapply returns_mono;
    [apply returns_framed;
       [apply rng_only_analytics_popularity | by apply popularity_model_analytics] |].
  cbv beta. intros pop w1 (Hcov%normalized_weights_covers & Hr1 & Hp1). mbind.
  eapply returns_mono;
    [apply returns_framed;
       [apply rng_only_analytics_page_views | by apply generate_page_views_spec] |].
  cbv beta. intros pvs w2 (_ & Hr2 & Hp2). mbind.
  eapply returns_mono; [apply analytics_sb_post_trace |].
  cbv beta. intros pv_ins w3 (Hp3 & Hr3 & Hn3 & _). mbind.
  eapply returns_mono;
    [apply returns_framed;
       [apply rng_only_analytics_clicks | by apply analytics_generate_clicks_returns] |].
  cbv beta. intros cks w4 (_ & Hr4 & Hp4). mbind.
  eapply returns_mono; [apply analytics_sb_post_trace |].
  cbv beta. intros ck_ins w5 (Hp5 & Hr5 & Hn5 & _). mbind.
  eapply returns_mono;
    [apply returns_framed;
       [apply rng_only_analytics_favorites | apply generate_favorites_spec] |].
  cbv beta. intros favs w6 (_ & Hr6 & Hp6). mbind.
  eapply returns_mono; [apply analytics_sb_post_trace |].
  cbv beta. intros fav_ins w7 (Hp7 & Hr7 & Hn7 & _). mbind.
  eapply returns_mono;
    [apply returns_framed;
       [apply rng_only_analytics_impressions
       | apply analytics_generate_impressions_count] |].
  cbv beta. intros imps w8 (Hcount & Hr8 & Hp8). mbind.
  eapply returns_mono; [apply (one_request_per_batch upsert_request) |].
  cbv beta. intros imp_ins w9 (Hp9 & Hr9 & Hn9). mret.
  cbn [Analytics.page_views Analytics.page_views_inserted Analytics.clicks
       Analytics.clicks_inserted Analytics.favorites Analytics.favorites_inserted
       Analytics.impressions Analytics.imp_inserted].
  cbv zeta.
  assert (Hs2 : respond w2 = respond w) by congruence.
  assert (Hl2 : posted w2 = posted w) by congruence.
  rewrite Hs2, Hl2 in Hp3.
  assert (Hs4 : respond w4 = respond w) by congruence.
  assert (Hl4 : posted w4 = posted w3) by congruence.
  rewrite Hs4, Hl4, Hp3 in Hp5.
  assert (Hs6 : respond w6 = respond w) by congruence.
  assert (Hl6 : posted w6 = posted w5) by congruence.
  rewrite Hs6, Hl6, Hp5 in Hp7.
  assert (Hs8 : respond w8 = respond w) by congruence.
  assert (Hl8 : posted w8 = posted w7) by congruence.
  rewrite Hl8, Hp7 in Hp9. rewrite Hs8, Hl8, Hp7 in Hn9.
  rewrite <- ?app_assoc in Hp9. rewrite <- ?app_assoc in Hn9.
  rewrite <- ?app_assoc.
  split; [exact Hp9 |].
  unfold py_len in *. rewrite !length_map in *.
  split; [lia |]. split; [lia |]. split; [lia |]. split; [exact Hn9 | lia].
Qed.

(** X15: a run of the analytics script over [n] restaurants generates at
    least [1008 * min(20, n)] and at most [4032 * min(60, n)] impressions:
    7 days of 8 epochs of 9 sections, each showing between [min(20, n)] and
    [min(60, n)] restaurants to between 2 and 8 viewers. *)
Theorem analytics_impression_volume (r : Restaurant) (rs : list Restaurant)
    (hh_data menu_data event_data special_data user_ids : list string) (w : World) :
  returns (Analytics.main (r :: rs) hh_data menu_data event_data special_data user_ids) w
    (fun s _ =>
       1008 * Z.min 20 (py_len (r :: rs)) <= py_len (Analytics.impressions s)
         <= 4032 * Z.min 60 (py_len (r :: rs))).
Proof.
  mspec analytics_main_upload; [done |]. cbv zeta. by intros (_ & _ & _ & _ & _ & Hcount).
Qed.

(** X16: a run of the clicks-and-impressions script over [n] restaurants
    keeps at most 8 clicks per restaurant and day, [480 * n] over the 60
    days, and at
    most [8064 * min(40, n)] impressions (7 days of 32 epochs of 9 sections,
    at most [min(40, n)] restaurants shown to at most 4 viewers), never more
    than the cap of 200,000. *)
Theorem clicks_script_volume (r : Restaurant) (rs : list Restaurant)
    (hh_data event_data user_ids : list string) (w : World) :
  returns (ClicksImpressions.main (r :: rs) hh_data event_data user_ids) w
    (fun s _ =>
       py_len (ClicksImpressions.clicks s) <= 480 * py_len (r :: rs) /\
       py_len (ClicksImpressions.impressions s) <= 8064 * Z.min 40 (py_len (r :: rs)) /\
       py_len (ClicksImpressions.impressions s) <= 200000).
Proof.
  mspec clicks_main_counts; [done |].
  unfold BACKFILL_DAYS, ClicksImpressions.IMPRESSION_CAP. lia.
Qed.

(** X17: the impressions the clicks-and-impressions script generates for
    [n] restaurants number at most [8064 * min(40, n)]; with 24 restaurants
    or fewer that is below the cap, so that [cap_impressions] returns the
    list as it is, without drawing a sample. *)
Theorem cap_needs_25_restaurants (restaurant_ids user_ids : list string) (w : World) :
  returns (ClicksImpressions.generate_impressions restaurant_ids user_ids) w
    (fun imps _ =>
       py_len imps <= 8064 * Z.min 40 (py_len restaurant_ids) /\
       (py_len restaurant_ids <= 24 ->
        forall w', ClicksImpressions.cap_impressions imps w' = Done imps w')).
Proof.
  mspec clicks_generate_impressions_count. intros Hcount. split; [done |].
  intros Hsmall w'0. unfold ClicksImpressions.cap_impressions.
  rewrite decide_False; [done |].
  unfold ClicksImpressions.IMPRESSION_CAP. lia.
Qed.

(** X18: the uploads of a run of the analytics script, for any store.  The
    log grows by the requests of four phases in this order: page views,
    clicks and favorites, each through [sb_post] with its row-by-row
    fallback, then the impressions, one duplicate-tolerant request per batch.
    Each of the first three counts is between 0 and the number of records
    generated; the impression count is the number of rows of the accepted
    batches. *)
Theorem analytics_upload_phases (r : Restaurant) (rs : list Restaurant)
    (hh_data menu_data event_data special_data user_ids : list string) (w : World) :
  returns (Analytics.main (r :: rs) hh_data menu_data event_data special_data user_ids) w
    (fun s w' =>
       let store := respond w in
       let views := fallback_requests store "analytics_page_views" (length (posted w))
                      (batches_of (map RowView (Analytics.page_views s))) in
       let clicks := fallback_requests store "analytics_clicks"
                       (length (posted w ++ views))
                       (batches_of (map RowClick (Analytics.clicks s))) in
       let favs := fallback_requests store "favorites"
                     (length (posted w ++ views ++ clicks))
                     (batches_of (map RowFavorite (Analytics.favorites s))) in
       let imps := map upsert_request
                     (batches_of (map RowImpression (Analytics.impressions s))) in
       posted w' = posted w ++ views ++ clicks ++ favs ++ imps /\
       0 <= Analytics.page_views_inserted s <= py_len (Analytics.page_views s) /\
       0 <= Analytics.clicks_inserted s <= py_len (Analytics.clicks s) /\
       0 <= Analytics.favorites_inserted s <= py_len (Analytics.favorites s) /\
       Analytics.imp_inserted s
         = accepted_rows store upsert_request
             (length (posted w ++ views ++ clicks ++ favs))
             (batches_of (map RowImpression (Analytics.impressions s))) /\
       0 <= Analytics.imp_inserted s <= py_len (Analytics.impressions s)).
Proof.
  mspec analytics_main_upload; [done |]. cbv zeta.
  intros (Hlog & Hv & Hc & Hf & Hi & _).
  split; [done |]. split; [done |]. split; [done |]. split; [done |].
  split; [done |]. rewrite Hi.
  match goal with
  | |- context [accepted_rows ?st ?mk ?k ?bs] =>
      pose proof (accepted_rows_bounds st mk bs k) as Hb
  end.
  rewrite batches_of_concat in Hb. unfold py_len in *. rewrite length_map in Hb. lia.
Qed.

(** ** The favorites of each user *)

Lemma filter_all_true {A} (P : A -> Prop) `{!forall x, Decision (P x)} (l : list A) :
  Forall P l -> filter P l = l.
Proof.
  induction 1 as [|x l Hx _ IH]; [done |].
  by rewrite filter_cons_True, IH.
Qed.

Lemma filter_all_false {A} (P : A -> Prop) `{!forall x, Decision (P x)} (l : list A) :
  Forall (fun x => ~ P x) l -> filter P l = [].
Proof.
  induction 1 as [|x l Hx _ IH]; [done |].
  by rewrite filter_cons_False, IH.
Qed.

Lemma submseteq_NoDup {A} (l k : list A) : l ⊆+ k -> NoDup k -> NoDup l.
Proof.
  intros [k' Hk']%submseteq_Permutation Hnd.
  rewrite Hk' in Hnd. by apply NoDup_app in Hnd as [Hl _].
Qed.

(** The slice [fav_restaurants[:num_favs]] keeps the whole list: the sample
    has at most [num_favs] items. *)
Lemma py_slice_all {A} (xs : list A) n : py_len xs <= n -> py_slice xs 0 n = xs.
Proof.
  intros Hlen. unfold py_slice, py_len in *. simpl. rewrite drop_0.
  apply take_ge. lia.
Qed.

(** The inner loop of step 7 over restaurants that are distinct and new to
    the user: one favorite for each, in order. *)
Lemma one_favorite_fold (uid : string) :
  forall (rids : list string) (st : list Favorite * gset (string * string)) (w : World),
    NoDup rids ->
    (forall rid, rid ∈ rids -> (uid, rid) ∉ st.2) ->
    returns (foldM (Analytics.one_favorite uid) rids st) w
      (fun st' _ => exists new,
         st'.1 = st.1 ++ new /\
         map fav_pair new = map (pair uid) rids /\
         forall p, p ∈ st'.2 -> p ∈ st.2 \/ p.1 = uid).
Proof.
  induction rids as [|rid rids IH]; intros st w Hnd Hfresh.
  - cbn [foldM]. mret. exists []. rewrite app_nil_r.
    split; [done |]. split; [done |]. by left.
  - apply NoDup_cons in Hnd as [Hrid Hnd]. cbn [foldM]. mbind.
    unfold Analytics.one_favorite.
    rewrite decide_False by (apply Hfresh; apply elem_of_cons; by left).
    mbind. eapply returns_mono; [apply favorite_date_spec |].
    cbv beta. intros t w1 _. mret.
    eapply returns_mono.
    + apply (IH (st.1 ++ [mkFavorite uid rid t], {[(uid, rid)]} ∪ st.2) w1 Hnd).
      intros rid' Hrid' Hin. cbn [snd] in Hin.
      apply elem_of_union in Hin as [Hin | Hin].
      * apply elem_of_singleton in Hin. congruence.
      * apply (Hfresh rid'); [apply elem_of_cons; by right | done].
    + cbv beta. intros st' w2 (new & Heq & Hpairs & Hset). cbn [fst snd] in *.
      exists (mkFavorite uid rid t :: new).
      split; [by rewrite Heq, <- app_assoc |].
      split; [cbn [map]; by rewrite Hpairs |].
      intros p Hp. apply Hset in Hp as [Hp | Hp]; [| by right].
      apply elem_of_union in Hp as [Hp | Hp]; [| by left].
      apply elem_of_singleton in Hp as ->. by right.
Qed.

Lemma favorites_of_user_count (rids : list string) (pop : gmap string Q)
    (st : list Favorite * gset (string * string)) (uid : string) (w : World) :
  NoDup rids ->
  (forall p, p ∈ st.2 -> p.1 <> uid) ->
  returns (Analytics.favorites_of_user rids pop st uid) w
    (fun st' _ => exists new,
       st'.1 = st.1 ++ new /\
       Forall (fun f => fav_user_id f = uid) new /\
       Z.min 8 (py_len rids) <= py_len new <= Z.min 30 (py_len rids) /\
       forall p, p ∈ st'.2 -> p ∈ st.2 \/ p.1 = uid).
Proof.
  intros Hnd Hfresh. unfold Analytics.favorites_of_user. mbind.
  eapply returns_mono; [apply (randint_spec 8 30); lia |].
  cbv beta. intros num_favs w1 Hnum. mbind.
  eapply returns_mono; [apply (sample_min_spec_len rids); lia |].
  cbv beta. intros fav_restaurants w2 [Hsub Hlen].
  set (key := fun rid : string => default 0%Q (pop !! rid)).
  assert (Hsorted : py_len (sort_desc key fav_restaurants) = py_len fav_restaurants).
  { unfold py_len. by rewrite (Permutation_length (sort_desc_perm key fav_restaurants)). }
  rewrite py_slice_all by lia.
  eapply returns_mono.
  - apply one_favorite_fold.
    + rewrite sort_desc_perm. by eapply submseteq_NoDup.
    + intros rid _ Hin. by apply (Hfresh _ Hin).
  - cbv beta. intros st' w3 (new & Heq & Hpairs & Hset).
    exists new. split; [done |]. split; [| split; [| done]].
    + apply Forall_forall. intros f Hf.
      assert (Hp : fav_pair f ∈ map (pair uid) (sort_desc key fav_restaurants)).
      { rewrite <- Hpairs. by apply (list_elem_of_fmap_2 fav_pair). }
      apply list_elem_of_fmap in Hp as (rid & Hp & _).
      unfold fav_pair in Hp. congruence.
    + assert (Hl : py_len new = py_len (sort_desc key fav_restaurants)).
      { unfold py_len. f_equal.
        by rewrite <- (length_map fav_pair new), Hpairs, length_map. }
      lia.
Qed.

Lemma generate_favorites_count (rids : list string) (pop : gmap string Q) :
  NoDup rids ->
  forall (users : list string) (st : list Favorite * gset (string * string)) (w : World),
    NoDup users ->
    (forall p, p ∈ st.2 -> p.1 ∉ users) ->
    returns (foldM (Analytics.favorites_of_user rids pop) users st) w
      (fun st' _ => exists new,
         st'.1 = st.1 ++ new /\
         (forall f, f ∈ new -> fav_user_id f ∈ users) /\
         forall uid, uid ∈ users ->
           Z.min 8 (py_len rids) <= py_len (favorites_of uid new)
             <= Z.min 30 (py_len rids)).
Proof.
  intros Hrids. induction users as [|u users IH]; intros st w Hnd Hfresh.
  - cbn [foldM]. mret. exists []. rewrite app_nil_r.
    split; [done |]. split; [intros f Hf; inversion Hf | intros uid Huid; inversion Huid].
  - apply NoDup_cons in Hnd as [Hu Hnd]. cbn [foldM]. mbind.
    eapply returns_mono.
    { apply (favorites_of_user_count rids pop st u w Hrids).
      intros p Hp Heq. apply (Hfresh p Hp). rewrite Heq. apply elem_of_cons; by left. }
    cbv beta. intros st1 w1 (new1 & Heq1 & Hall1 & Hlen1 & Hset1).
    eapply returns_mono.
    { apply (IH st1 w1 Hnd). intros p Hp Hin.
      apply Hset1 in Hp as [Hp | Hp].
      - apply (Hfresh p Hp). apply elem_of_cons; by right.
      - congruence. }
    cbv beta. intros st2 w2 (new2 & Heq2 & Husers2 & Hcount2).
    exists (new1 ++ new2).
    split; [by rewrite Heq2, Heq1, <- app_assoc |]. split.
    + intros f [Hf | Hf]%elem_of_app.
      * rewrite Forall_forall in Hall1. rewrite (Hall1 f Hf). apply elem_of_cons; by left.
      * apply elem_of_cons; right. by apply Husers2.
    + intros uid Huid. unfold favorites_of. rewrite filter_app.
      unfold py_len. rewrite length_app.
      destruct (decide (uid = u)) as [-> | Hne].
      * rewrite (filter_all_true _ new1) by done.
        rewrite (filter_all_false _ new2).
        { unfold py_len in Hlen1. simpl. lia. }
        apply Forall_forall. intros f Hf Hfu. apply Hu. rewrite <- Hfu. by apply Husers2.
      * rewrite (filter_all_false _ new1).
        { apply elem_of_cons in Huid as [Huid | Huid]; [done |].
          specialize (Hcount2 uid Huid). unfold favorites_of, py_len in Hcount2.
          simpl. lia. }
        eapply Forall_impl; [exact Hall1 |]. cbv beta. intros f Hf. congruence.
Qed.

(** X19: when the restaurant ids are distinct and the user ids are
    distinct, every user of the pool gets between [min(8, n)] and
    [min(30, n)] favorites, [n] being the number of restaurants, whatever the
    popularity weights: the sample already has [min(num_favs, n)] items, so
    that sorting it by popularity and keeping the first [num_favs] drops
    nothing. *)
Theorem favorites_per_user (restaurant_ids user_ids : list string)
    (popularity : gmap string Q) (w : World) :
  NoDup restaurant_ids ->
  NoDup user_ids ->
  returns (Analytics.generate_favorites restaurant_ids user_ids popularity) w
    (fun favs _ => forall uid, uid ∈ user_ids ->
       Z.min 8 (py_len restaurant_ids) <= py_len (favorites_of uid favs)
         <= Z.min 30 (py_len restaurant_ids)).
Proof.
  intros Hrids Husers. unfold Analytics.generate_favorites. mbind.
  eapply returns_mono.
  - apply (generate_favorites_count restaurant_ids popularity Hrids user_ids ([], ∅) w Husers).
    intros p Hp. set_solver.
  - cbv beta. intros st w' (new & Heq & _ & Hcount). mret.
    rewrite Heq. by cbn [fst app].
Qed.

Lemma favorites_per_user_witness :
  returns (Analytics.generate_favorites ["r1"; "r2"] ["u1"; "u2"] ∅) (world_of 0 accept_all)
    (fun favs _ => forall uid, uid ∈ ["u1"; "u2"] ->
       Z.min 8 (py_len ["r1"; "r2"]) <= py_len (favorites_of uid favs)
         <= Z.min 30 (py_len ["r1"; "r2"])).
Proof.
  apply (favorites_per_user ["r1"; "r2"] ["u1"; "u2"] ∅ (world_of 0 accept_all)).
  - apply (bool_decide_unpack _). by vm_compute.
  - apply (bool_decide_unpack _). by vm_compute.
Defined.
